(** * FlowEngine: the tenant-scoped configuration registry

    A shallow embedding of the service and repository layers of
    [backend/modules/{datasources,intents,validation_rules}] together with the
    storage they run on: the tables and the constraints declared in the
    [models.py] files, and the SQLAlchemy session every request works in
    (staged changes, flush, commit, rollback on close).

    The columns [created_at] and [updated_at] are filled from the clock and
    read by no operation; they are left out of the rows. *)

From Stdlib Require Import ZArith List String Ascii Bool Lia DecimalString.
From Stdlib Require Import Sorted Permutation.
Import ListNotations.
Open Scope string_scope.
Open Scope Z_scope.

(** ** Rows (models.py) *)

(** A JSON column: an opaque key-value payload. *)
Definition Json := list (string * string).

Record Datasource := mkDatasource {
  datasource_id : Z;
  ds_name : string;
  datasource_type : string;
  connection_key : string;
  ds_description : option string;
  ds_tenant_id : string;
  ds_is_active : bool
}.

Record DatasourceConfig := mkDatasourceConfig {
  config_id : Z;
  dc_name : string;
  dc_tenant_id : string;
  protocol : string;
  driver_family : string;
  base_url : option string;
  auth_type : option string;
  auth_config : option Json;
  connection_json : option Json;
  metadata_ref : option string;
  dc_is_active : bool;
  router_base_url : option string
}.

Record Intent := mkIntent {
  intent_id : Z;
  intent_code : string;
  it_tenant_id : string;
  display_name : string;
  it_description : option string;
  category : option string;
  it_is_active : bool
}.

(** [Numeric(5, 2)] confidences are kept in hundredths. *)
Record IntentPolicy := mkIntentPolicy {
  ip_tenant_id : string;
  ip_intent_id : Z;
  ip_language_code : string;
  n8n_orchestration_url : option string;
  auto_process_min_conf : Z;
  manual_review_min_conf : Z;
  reroute_email : option string;
  multi_intent_mode : string;
  allow_multi_auto : bool;
  allow_subset_auto : bool
}.

Record ValidationRule := mkValidationRule {
  rule_id : Z;
  vr_intent_id : Z;
  vr_language_code : string;
  vr_tenant_id : string;
  rule_code : string;
  rule_name : string;
  rule_description : string;
  vr_datasource_id : Z;
  execution_order : Z;
  severity : string;
  vr_is_active : bool
}.

(** ** Request payloads (schemas.py) *)

(** A field of a partial-update schema.  [model_dump(exclude_unset=True)]
    leaves out the fields the request did not mention ([Unset]) and keeps the
    ones it mentioned, be it with [null] ([Null]) or with a value ([Val]). *)
Inductive field (A : Type) : Type :=
| Unset
| Null
| Val (a : A).
Arguments Unset {A}.
Arguments Null {A}.
Arguments Val {A} a.

Record DatasourceUpdate := mkDatasourceUpdate {
  du_name : field string;
  du_datasource_type : field string;
  du_connection_key : field string;
  du_description : field string;
  du_tenant_id : field string;
  du_is_active : field bool
}.

Record DatasourceConfigCreate := mkDatasourceConfigCreate {
  cc_name : string;
  cc_protocol : string;
  cc_driver_family : string;
  cc_base_url : option string;
  cc_auth_type : option string;
  cc_auth_config : option Json;
  cc_connection_json : option Json;
  cc_metadata_ref : option string;
  cc_is_active : bool;
  cc_router_base_url : option string;
  cc_tenant_id : string
}.

Record DatasourceConfigUpdate := mkDatasourceConfigUpdate {
  cu_name : field string;
  cu_protocol : field string;
  cu_driver_family : field string;
  cu_base_url : field string;
  cu_auth_type : field string;
  cu_auth_config : field Json;
  cu_connection_json : field Json;
  cu_metadata_ref : field string;
  cu_is_active : field bool;
  cu_router_base_url : field string;
  cu_tenant_id : field string
}.

Record IntentPolicyCreate := mkIntentPolicyCreate {
  pc_language_code : string;
  pc_tenant_id : string;
  pc_n8n_orchestration_url : option string;
  pc_auto_process_min_conf : Z;
  pc_manual_review_min_conf : Z;
  pc_reroute_email : option string;
  pc_multi_intent_mode : string;
  pc_allow_multi_auto : bool;
  pc_allow_subset_auto : bool
}.

Record IntentPolicyUpdate := mkIntentPolicyUpdate {
  pu_language_code : field string;
  pu_tenant_id : field string;
  pu_n8n_orchestration_url : field string;
  pu_auto_process_min_conf : field Z;
  pu_manual_review_min_conf : field Z;
  pu_reroute_email : field string;
  pu_multi_intent_mode : field string;
  pu_allow_multi_auto : field bool;
  pu_allow_subset_auto : field bool
}.

Record IntentCreate := mkIntentCreate {
  ic_intent_code : string;
  ic_tenant_id : string;
  ic_display_name : string;
  ic_description : option string;
  ic_category : option string;
  ic_is_active : bool;
  ic_policies : list IntentPolicyCreate
}.

Record IntentUpdate := mkIntentUpdate {
  iu_intent_code : field string;
  iu_tenant_id : field string;
  iu_display_name : field string;
  iu_description : field string;
  iu_category : field string;
  iu_is_active : field bool
}.

Record ValidationRuleCreate := mkValidationRuleCreate {
  rc_intent_id : Z;
  rc_language_code : string;
  rc_tenant_id : string;
  rc_rule_code : string;
  rc_rule_name : string;
  rc_rule_description : string;
  rc_datasource_id : Z;
  rc_execution_order : Z;
  rc_severity : string;
  rc_is_active : bool
}.

Record ValidationRuleUpdate := mkValidationRuleUpdate {
  ru_intent_id : field Z;
  ru_language_code : field string;
  ru_tenant_id : field string;
  ru_rule_code : field string;
  ru_rule_name : field string;
  ru_rule_description : field string;
  ru_datasource_id : field Z;
  ru_execution_order : field Z;
  ru_severity : field string;
  ru_is_active : field bool
}.

Record DatasourceCreate := mkDatasourceCreate {
  dcr_name : string;
  dcr_datasource_type : string;
  dcr_connection_key : string;
  dcr_description : option string;
  dcr_tenant_id : string;
  dcr_is_active : bool
}.

(** common/responses.py *)
Record SuccessResponse := mkSuccessResponse {
  message : string;
  detail : option string
}.

(** [setattr(obj, key, value)] on a [nullable=False] column: [None] as the
    value makes the row unacceptable to the storage. *)
Definition assign {A} (f : field A) (cur : A) : option A :=
  match f with
  | Unset => Some cur
  | Null => None
  | Val a => Some a
  end.

(** [setattr(obj, key, value)] on a nullable column. *)
Definition assign_nullable {A} (f : field A) (cur : option A) : option A :=
  match f with
  | Unset => cur
  | Null => None
  | Val a => Some a
  end.

(** Python truthiness of an [Optional[str]] field ([if payload.name and ...]). *)
Definition truthy (f : field string) : bool :=
  match f with
  | Val s => negb (s =? "")%string
  | _ => false
  end.

(** [payload.x != current] for an [Optional[str]] field against a string. *)
Definition differs (f : field string) (cur : string) : bool :=
  match f with
  | Val s => negb (s =? cur)%string
  | _ => true
  end.

(** [payload.x is not None]. *)
Definition is_not_None {A} (f : field A) : bool :=
  match f with
  | Val _ => true
  | _ => false
  end.

(** ** Exceptions (common/exceptions.py, and the ones raised underneath) *)

Inductive Exn :=
| ResourceNotFoundError (detail : string)
| ResourceAlreadyExistsError (detail : string)
| ValidationException (detail : string)
| ValueError (msg : string)
| IntegrityError
| OperationalError.

(** The [status_code] the [HTTPException] subclasses are built with; the other
    exceptions carry none. *)
Definition status_code (e : Exn) : option Z :=
  match e with
  | ResourceNotFoundError _ => Some 404
  | ResourceAlreadyExistsError _ => Some 400
  | ValidationException _ => Some 400
  | ValueError _ => None
  | IntegrityError => None
  | OperationalError => None
  end.

(** [str(n)] inside an f-string. *)
Definition str_of_int (z : Z) : string := NilZero.string_of_int (Z.to_int z).

(** ** The tables and their declared constraints *)

Record DB := mkDB {
  intents : list Intent;
  intent_policies : list IntentPolicy;
  datasources : list Datasource;
  datasource_configs : list DatasourceConfig;
  validation_rules : list ValidationRule
}.

Definition tid_eqb (a b : string * Z) : bool :=
  (fst a =? fst b)%string && (snd a =? snd b)%Z.

Definition tname_eqb (a b : string * string) : bool :=
  (fst a =? fst b)%string && (snd a =? snd b)%string.

Definition tis_eqb (a b : string * Z * string) : bool :=
  tid_eqb (fst a) (fst b) && (snd a =? snd b)%string.

Fixpoint uniqueb {K} (eqb : K -> K -> bool) (l : list K) : bool :=
  match l with
  | [] => true
  | k :: r => negb (existsb (eqb k) r) && uniqueb eqb r
  end.

(** Every key of [refs] occurs among [keys]. *)
Definition referencesb {K} (eqb : K -> K -> bool) (refs keys : list K) : bool :=
  forallb (fun k => existsb (eqb k) keys) refs.

Definition intent_tid (i : Intent) := (it_tenant_id i, intent_id i).
Definition intent_uq (i : Intent) := (it_tenant_id i, intent_code i).
Definition policy_pk (p : IntentPolicy) :=
  (ip_tenant_id p, ip_intent_id p, ip_language_code p).
Definition policy_fk (p : IntentPolicy) := (ip_tenant_id p, ip_intent_id p).
Definition datasource_tid (d : Datasource) := (ds_tenant_id d, datasource_id d).
Definition datasource_uq (d : Datasource) := (ds_tenant_id d, ds_name d).
Definition config_uq (c : DatasourceConfig) := (dc_tenant_id c, dc_name c).
Definition rule_uq (r : ValidationRule) :=
  (vr_tenant_id r, vr_intent_id r, rule_code r).
Definition rule_intent_fk (r : ValidationRule) := (vr_tenant_id r, vr_intent_id r).
Definition rule_datasource_fk (r : ValidationRule) :=
  (vr_tenant_id r, vr_datasource_id r).

(** The primary keys, [UniqueConstraint]s and [ForeignKeyConstraint]s of the
    five tables.  The uniqueness of [(tenant_id, intent_id)] and of
    [(tenant_id, datasource_id)] follows from the primary keys. *)
Definition constraints_ok (db : DB) : bool :=
  uniqueb Z.eqb (map intent_id (intents db)) &&
  uniqueb tname_eqb (map intent_uq (intents db)) &&
  uniqueb tis_eqb (map policy_pk (intent_policies db)) &&
  referencesb tid_eqb (map policy_fk (intent_policies db))
              (map intent_tid (intents db)) &&
  uniqueb Z.eqb (map datasource_id (datasources db)) &&
  uniqueb tname_eqb (map datasource_uq (datasources db)) &&
  uniqueb Z.eqb (map config_id (datasource_configs db)) &&
  uniqueb tname_eqb (map config_uq (datasource_configs db)) &&
  uniqueb Z.eqb (map rule_id (validation_rules db)) &&
  uniqueb tis_eqb (map rule_uq (validation_rules db)) &&
  referencesb tid_eqb (map rule_intent_fk (validation_rules db))
              (map intent_tid (intents db)) &&
  referencesb tid_eqb (map rule_datasource_fk (validation_rules db))
              (map datasource_tid (datasources db)).

(** The [autoincrement] sequences; they live outside the transaction. *)
Record Seqs := mkSeqs {
  seq_intent : Z;
  seq_datasource : Z;
  seq_config : Z;
  seq_rule : Z
}.

(** What persists between requests. *)
Record Store := mkStore {
  tables : DB;
  sequences : Seqs
}.

Definition below (n : Z) (ids : list Z) : bool := forallb (fun i => i <? n) ids.

(** A store the system can be in: the constraints hold and no sequence has
    yet handed out the keys still to come. *)
Definition store_ok (st : Store) : bool :=
  constraints_ok (tables st) &&
  below (seq_intent (sequences st)) (map intent_id (intents (tables st))) &&
  below (seq_datasource (sequences st)) (map datasource_id (datasources (tables st))) &&
  below (seq_config (sequences st)) (map config_id (datasource_configs (tables st))) &&
  below (seq_rule (sequences st)) (map rule_id (validation_rules (tables st))).

(** ** The session (core/database.py, core/dependencies.py)

    [SessionLocal(autocommit=False, autoflush=False)]: changes are staged in
    the session, checked by the storage at [flush], made durable by [commit],
    and dropped when the session is closed without a commit, which [get_db]
    does on every exit path.  [fault = Some k] makes the storage unreachable
    at the round trip number [k] (counted from 0) of the request. *)

Record Session := mkSession {
  durable : DB;
  pending : DB;
  seqs : Seqs;
  fault : option nat
}.

Definition M (A : Type) : Type := Session -> Session * (Exn + A).

Definition ret {A} (a : A) : M A := fun s => (s, inr a).

Definition raise {A} (e : Exn) : M A := fun s => (s, inl e).

Definition bind {A B} (m : M A) (f : A -> M B) : M B :=
  fun s => match m s with
           | (s', inr a) => f a s'
           | (s', inl e) => (s', inl e)
           end.

Declare Scope session_scope.
Delimit Scope session_scope with session.
Notation "x <- m ;; k" := (bind m (fun x => k))
  (at level 100, m at next level, right associativity) : session_scope.
Notation "m ;; k" := (bind m (fun _ => k))
  (at level 100, right associativity) : session_scope.
Open Scope session_scope.

Definition with_pending (db : DB) (s : Session) : Session :=
  mkSession (durable s) db (seqs s) (fault s).

Definition rollback (s : Session) : Session := with_pending (durable s) s.

(** One statement sent to the storage. *)
Definition roundtrip : M unit :=
  fun s => match fault s with
           | Some O => (rollback s, inl OperationalError)
           | Some (S k) => (mkSession (durable s) (pending s) (seqs s) (Some k), inr tt)
           | None => (s, inr tt)
           end.

(** [db.query(...)...first()] / [.all()].  The operations below never query
    while changes are staged and not yet flushed, so the view of the
    transaction and the view of the session agree wherever it is read. *)
Definition query {A} (q : DB -> A) : M A :=
  roundtrip ;; fun s => (s, inr (q (pending s))).

(** A change made to the objects of the session; nothing is sent yet. *)
Definition stage (f : DB -> DB) : M unit :=
  fun s => (with_pending (f (pending s)) s, inr tt).

(** [db.flush()]: the staged rows reach the storage, which checks them
    against the declared constraints and rolls the transaction back when one
    is violated. *)
Definition flush : M unit :=
  roundtrip ;;
  fun s => if constraints_ok (pending s) then (s, inr tt)
           else (rollback s, inl IntegrityError).

(** [db.commit()]: flush, then the transaction becomes durable. *)
Definition commit : M unit :=
  flush ;;
  fun s => (mkSession (pending s) (pending s) (seqs s) (fault s), inr tt).

(** A commit whose flush carries [None] in a [nullable=False] column. *)
Definition commit_refused {A} : M A :=
  roundtrip ;; fun s => (rollback s, inl IntegrityError).

(** [db.refresh(obj)]: the row is read back as it was written. *)
Definition refresh {A} (obj : A) : M A := roundtrip ;; ret obj.

(** A request: [get_db] opens a session on the store, the handler runs, and
    the session is closed whatever the outcome. *)
Definition request {A} (k : option nat) (m : M A) (st : Store)
  : Store * (Exn + A) :=
  let '(s, r) := m (mkSession (tables st) (tables st) (sequences st) k) in
  (mkStore (durable s) (seqs s), r).

(** A request during which the storage stays reachable. *)
Definition run {A} (m : M A) (st : Store) : Store * (Exn + A) :=
  request None m st.

(** [try: ... except ResourceNotFoundError: pass]. *)
Definition except_not_found (m : M unit) : M unit :=
  fun s => match m s with
           | (s', inl (ResourceNotFoundError _)) => (s', inr tt)
           | out => out
           end.

(** ** Session operations on the tables *)

Definition set_intents (l : list Intent) (db : DB) : DB :=
  mkDB l (intent_policies db) (datasources db) (datasource_configs db)
       (validation_rules db).

Definition set_intent_policies (l : list IntentPolicy) (db : DB) : DB :=
  mkDB (intents db) l (datasources db) (datasource_configs db)
       (validation_rules db).

Definition set_datasources (l : list Datasource) (db : DB) : DB :=
  mkDB (intents db) (intent_policies db) l (datasource_configs db)
       (validation_rules db).

Definition set_datasource_configs (l : list DatasourceConfig) (db : DB) : DB :=
  mkDB (intents db) (intent_policies db) (datasources db) l
       (validation_rules db).

Definition set_validation_rules (l : list ValidationRule) (db : DB) : DB :=
  mkDB (intents db) (intent_policies db) (datasources db)
       (datasource_configs db) l.

(** [db.add(obj)] on a table with an [autoincrement] key: the row is staged
    with the next value of the sequence (the source reads the key only after
    the flush that follows).  The sequence is advanced here, where the row is
    staged; the storage advances it when the INSERT runs.  The two differ only
    in the sequence a request leaves behind when it fails before its INSERT. *)
Definition add_intent (mk : Z -> Intent) : M Intent :=
  fun s =>
    let obj := mk (seq_intent (seqs s)) in
    (mkSession (durable s)
               (set_intents (intents (pending s) ++ [obj]) (pending s))
               (mkSeqs (seq_intent (seqs s) + 1) (seq_datasource (seqs s))
                       (seq_config (seqs s)) (seq_rule (seqs s)))
               (fault s),
     inr obj).

Definition add_datasource_config (mk : Z -> DatasourceConfig) : M DatasourceConfig :=
  fun s =>
    let obj := mk (seq_config (seqs s)) in
    (mkSession (durable s)
               (set_datasource_configs (datasource_configs (pending s) ++ [obj])
                                       (pending s))
               (mkSeqs (seq_intent (seqs s)) (seq_datasource (seqs s))
                       (seq_config (seqs s) + 1) (seq_rule (seqs s)))
               (fault s),
     inr obj).

Definition add_validation_rule (mk : Z -> ValidationRule) : M ValidationRule :=
  fun s =>
    let obj := mk (seq_rule (seqs s)) in
    (mkSession (durable s)
               (set_validation_rules (validation_rules (pending s) ++ [obj])
                                     (pending s))
               (mkSeqs (seq_intent (seqs s)) (seq_datasource (seqs s))
                       (seq_config (seqs s)) (seq_rule (seqs s) + 1))
               (fault s),
     inr obj).

(** [db.add(policy)]: the key of a policy is given, not generated. *)
Definition add_intent_policy (obj : IntentPolicy) : M unit :=
  stage (fun db => set_intent_policies (intent_policies db ++ [obj]) db).

(** The attributes set on a loaded object reach its row, the one with the
    object's primary key. *)
Definition write_intent (o o' : Intent) : M unit :=
  stage (fun db =>
    set_intents
      (map (fun r => if intent_id r =? intent_id o then o' else r) (intents db))
      db).

Definition write_intent_policy (o o' : IntentPolicy) : M unit :=
  stage (fun db =>
    set_intent_policies
      (map (fun r => if tis_eqb (policy_pk r) (policy_pk o) then o' else r)
           (intent_policies db))
      db).

Definition write_datasource (o o' : Datasource) : M unit :=
  stage (fun db =>
    set_datasources
      (map (fun r => if datasource_id r =? datasource_id o then o' else r)
           (datasources db))
      db).

Definition write_datasource_config (o o' : DatasourceConfig) : M unit :=
  stage (fun db =>
    set_datasource_configs
      (map (fun r => if config_id r =? config_id o then o' else r)
           (datasource_configs db))
      db).

Definition write_validation_rule (o o' : ValidationRule) : M unit :=
  stage (fun db =>
    set_validation_rules
      (map (fun r => if rule_id r =? rule_id o then o' else r)
           (validation_rules db))
      db).

(** [db.delete(obj)] on a config. *)
Definition delete_datasource_config (o : DatasourceConfig) : M unit :=
  stage (fun db =>
    set_datasource_configs
      (filter (fun r => negb (config_id r =? config_id o)) (datasource_configs db))
      db).

Definition with_connection_key (v : string) (d : Datasource) : Datasource :=
  mkDatasource (datasource_id d) (ds_name d) (datasource_type d) v
               (ds_description d) (ds_tenant_id d) (ds_is_active d).

(** [for datasource in objs: datasource.connection_key = v]. *)
Definition set_connection_keys (objs : list Datasource) (v : string) : M unit :=
  stage (fun db =>
    set_datasources
      (map (fun r =>
              if existsb (fun o => datasource_id o =? datasource_id r) objs
              then with_connection_key v r else r)
           (datasources db))
      db).

Definition add_datasource (mk : Z -> Datasource) : M Datasource :=
  fun s =>
    let obj := mk (seq_datasource (seqs s)) in
    (mkSession (durable s)
               (set_datasources (datasources (pending s) ++ [obj]) (pending s))
               (mkSeqs (seq_intent (seqs s)) (seq_datasource (seqs s) + 1)
                       (seq_config (seqs s)) (seq_rule (seqs s)))
               (fault s),
     inr obj).

(** The rows of the relationship [Datasource.validation_rules]: the rules
    whose composite foreign key is the datasource's [(tenant_id, datasource_id)]. *)
Definition rules_of_datasource (d : Datasource) (db : DB) : list ValidationRule :=
  filter (fun r => tid_eqb (rule_datasource_fk r) (datasource_tid d))
         (validation_rules db).

(** [db.delete(obj)] on a datasource: the relationship cascades
    ([cascade="all, delete-orphan"], [ondelete='CASCADE']), so its rules go
    with it. *)
Definition delete_datasource (o : Datasource) : M unit :=
  stage (fun db =>
    set_validation_rules
      (filter (fun r => negb (tid_eqb (rule_datasource_fk r) (datasource_tid o)))
              (validation_rules db))
      (set_datasources
         (filter (fun r => negb (datasource_id r =? datasource_id o)) (datasources db))
         db)).

(** [db.delete(obj)] on an intent: its policies and its rules go with it. *)
Definition delete_intent (o : Intent) : M unit :=
  stage (fun db =>
    set_validation_rules
      (filter (fun r => negb (tid_eqb (rule_intent_fk r) (intent_tid o)))
              (validation_rules db))
      (set_intent_policies
         (filter (fun r => negb (tid_eqb (policy_fk r) (intent_tid o)))
                 (intent_policies db))
         (set_intents
            (filter (fun r => negb (intent_id r =? intent_id o)) (intents db))
            db))).

(** [db.delete(obj)] on a policy and on a rule. *)
Definition delete_intent_policy (o : IntentPolicy) : M unit :=
  stage (fun db =>
    set_intent_policies
      (filter (fun r => negb (tis_eqb (policy_pk r) (policy_pk o)))
              (intent_policies db))
      db).

Definition delete_validation_rule (o : ValidationRule) : M unit :=
  stage (fun db =>
    set_validation_rules
      (filter (fun r => negb (rule_id r =? rule_id o)) (validation_rules db))
      db).

(** [order_by(...)]: the rows in the order [le]; rows that [le] does not tell
    apart come in some order, here the one of the table. *)
Fixpoint insert_by {A} (le : A -> A -> bool) (x : A) (l : list A) : list A :=
  match l with
  | [] => [x]
  | y :: r => if le x y then x :: l else y :: insert_by le x r
  end.

Definition order_by {A} (le : A -> A -> bool) (l : list A) : list A :=
  fold_right (insert_by le) [] l.

(** ** [payload.model_dump(exclude_unset=True)] applied with [setattr] *)

Definition obind {A B} (o : option A) (f : A -> option B) : option B :=
  match o with
  | Some a => f a
  | None => None
  end.

Notation "'let?' x ':=' o 'in' k" := (obind o (fun x => k))
  (at level 10, x name, o at level 100, k at level 200).

Definition Datasource_setattrs (p : DatasourceUpdate) (o : Datasource)
  : option Datasource :=
  let? n := assign (du_name p) (ds_name o) in
  let? ty := assign (du_datasource_type p) (datasource_type o) in
  let? ck := assign (du_connection_key p) (connection_key o) in
  let? t := assign (du_tenant_id p) (ds_tenant_id o) in
  let? a := assign (du_is_active p) (ds_is_active o) in
  Some (mkDatasource (datasource_id o) n ty ck
          (assign_nullable (du_description p) (ds_description o)) t a).

Definition DatasourceConfig_setattrs (p : DatasourceConfigUpdate)
  (o : DatasourceConfig) : option DatasourceConfig :=
  let? n := assign (cu_name p) (dc_name o) in
  let? t := assign (cu_tenant_id p) (dc_tenant_id o) in
  let? pr := assign (cu_protocol p) (protocol o) in
  let? df := assign (cu_driver_family p) (driver_family o) in
  let? a := assign (cu_is_active p) (dc_is_active o) in
  Some (mkDatasourceConfig (config_id o) n t pr df
          (assign_nullable (cu_base_url p) (base_url o))
          (assign_nullable (cu_auth_type p) (auth_type o))
          (assign_nullable (cu_auth_config p) (auth_config o))
          (assign_nullable (cu_connection_json p) (connection_json o))
          (assign_nullable (cu_metadata_ref p) (metadata_ref o))
          a
          (assign_nullable (cu_router_base_url p) (router_base_url o))).

Definition Intent_setattrs (p : IntentUpdate) (o : Intent) : option Intent :=
  let? c := assign (iu_intent_code p) (intent_code o) in
  let? t := assign (iu_tenant_id p) (it_tenant_id o) in
  let? dn := assign (iu_display_name p) (display_name o) in
  let? a := assign (iu_is_active p) (it_is_active o) in
  Some (mkIntent (intent_id o) c t dn
          (assign_nullable (iu_description p) (it_description o))
          (assign_nullable (iu_category p) (category o)) a).

Definition IntentPolicy_setattrs (p : IntentPolicyUpdate) (o : IntentPolicy)
  : option IntentPolicy :=
  let? lang := assign (pu_language_code p) (ip_language_code o) in
  let? t := assign (pu_tenant_id p) (ip_tenant_id o) in
  let? ap := assign (pu_auto_process_min_conf p) (auto_process_min_conf o) in
  let? mr := assign (pu_manual_review_min_conf p) (manual_review_min_conf o) in
  let? mode := assign (pu_multi_intent_mode p) (multi_intent_mode o) in
  let? ama := assign (pu_allow_multi_auto p) (allow_multi_auto o) in
  let? asa := assign (pu_allow_subset_auto p) (allow_subset_auto o) in
  Some (mkIntentPolicy t (ip_intent_id o) lang
          (assign_nullable (pu_n8n_orchestration_url p) (n8n_orchestration_url o))
          ap mr
          (assign_nullable (pu_reroute_email p) (reroute_email o))
          mode ama asa).

Definition ValidationRule_setattrs (p : ValidationRuleUpdate) (o : ValidationRule)
  : option ValidationRule :=
  let? i := assign (ru_intent_id p) (vr_intent_id o) in
  let? lang := assign (ru_language_code p) (vr_language_code o) in
  let? t := assign (ru_tenant_id p) (vr_tenant_id o) in
  let? code := assign (ru_rule_code p) (rule_code o) in
  let? nm := assign (ru_rule_name p) (rule_name o) in
  let? descr := assign (ru_rule_description p) (rule_description o) in
  let? d := assign (ru_datasource_id p) (vr_datasource_id o) in
  let? eo := assign (ru_execution_order p) (execution_order o) in
  let? sev := assign (ru_severity p) (severity o) in
  let? a := assign (ru_is_active p) (vr_is_active o) in
  Some (mkValidationRule (rule_id o) i lang t code nm descr d eo sev a).

(** ** modules/datasources/repository.py *)

Module DatasourceRepository.

Definition get_by_id (tenant_id : string) (id : Z) : M (option Datasource) :=
  query (fun db =>
    find (fun d => (ds_tenant_id d =? tenant_id)%string && (datasource_id d =? id))
         (datasources db)).

Definition get_by_name (tenant_id name : string) : M (option Datasource) :=
  query (fun db =>
    find (fun d => (ds_tenant_id d =? tenant_id)%string && (ds_name d =? name)%string)
         (datasources db)).

Definition update (tenant_id : string) (id : Z) (payload : DatasourceUpdate)
  : M (option Datasource) :=
  obj <- get_by_id tenant_id id ;;
  match obj with
  | None => ret None
  | Some o =>
      match Datasource_setattrs payload o with
      | Some o' =>
          write_datasource o o' ;;
          commit ;;
          o'' <- refresh o' ;;
          ret (Some o'')
      | None => commit_refused
      end
  end.

(** [query.order_by(Datasource.datasource_id.desc()).all()], with the filter
    on [is_active] when [active_only]. *)
Definition get_all (tenant_id : string) (active_only : bool) : M (list Datasource) :=
  query (fun db =>
    order_by (fun a b => datasource_id b <=? datasource_id a)
      (filter (fun d => if active_only then ds_is_active d else true)
         (filter (fun d => (ds_tenant_id d =? tenant_id)%string) (datasources db)))).

(** The row built from [data = payload.model_dump()] after
    [data['tenant_id'] = tenant_id], with the key the sequence gives. *)
Definition new_datasource (tenant_id : string) (payload : DatasourceCreate)
  (id : Z) : Datasource :=
  mkDatasource id (dcr_name payload) (dcr_datasource_type payload)
    (dcr_connection_key payload) (dcr_description payload) tenant_id
    (dcr_is_active payload).

Definition create (tenant_id : string) (payload : DatasourceCreate) : M Datasource :=
  obj <- add_datasource (new_datasource tenant_id payload) ;;
  commit ;;
  refresh obj.

Definition delete (tenant_id : string) (id : Z) : M bool :=
  obj <- get_by_id tenant_id id ;;
  match obj with
  | None => ret false
  | Some o =>
      delete_datasource o ;;
      commit ;;
      ret true
  end.

End DatasourceRepository.

Module DatasourceConfigRepository.

Definition get_by_id (tenant_id : string) (id : Z) : M (option DatasourceConfig) :=
  query (fun db =>
    find (fun c => (dc_tenant_id c =? tenant_id)%string && (config_id c =? id))
         (datasource_configs db)).

Definition get_by_name (tenant_id name : string) : M (option DatasourceConfig) :=
  query (fun db =>
    find (fun c => (dc_tenant_id c =? tenant_id)%string && (dc_name c =? name)%string)
         (datasource_configs db)).

(** The row built from [data = payload.model_dump()] after
    [data['tenant_id'] = tenant_id], with the key the sequence gives. *)
Definition new_config (tenant_id : string) (payload : DatasourceConfigCreate)
  (id : Z) : DatasourceConfig :=
  mkDatasourceConfig id (cc_name payload) tenant_id
    (cc_protocol payload) (cc_driver_family payload)
    (cc_base_url payload) (cc_auth_type payload)
    (cc_auth_config payload) (cc_connection_json payload)
    (cc_metadata_ref payload) (cc_is_active payload)
    (cc_router_base_url payload).

Definition create (tenant_id : string) (payload : DatasourceConfigCreate)
  : M DatasourceConfig :=
  obj <- add_datasource_config (new_config tenant_id payload) ;;
  commit ;;
  refresh obj.

Definition update (tenant_id : string) (id : Z) (payload : DatasourceConfigUpdate)
  : M (option DatasourceConfig) :=
  obj <- get_by_id tenant_id id ;;
  match obj with
  | None => ret None
  | Some o =>
      match DatasourceConfig_setattrs payload o with
      | Some o' =>
          write_datasource_config o o' ;;
          commit ;;
          o'' <- refresh o' ;;
          ret (Some o'')
      | None => commit_refused
      end
  end.

Definition delete (tenant_id : string) (id : Z) : M bool :=
  obj <- get_by_id tenant_id id ;;
  match obj with
  | None => ret false
  | Some o =>
      delete_datasource_config o ;;
      commit ;;
      ret true
  end.

End DatasourceConfigRepository.

(** ** modules/datasources/service.py *)

(** [DatasourceConfigUpdate(name=v)]: every other field unset.  The schema
    caps [name] at 255 characters and its constructor raises for a longer [v];
    that exit is not represented, and what is stated of the rename a
    datasource update triggers takes [v] of at most 255 characters. *)
Definition DatasourceConfigUpdate_name (v : string) : DatasourceConfigUpdate :=
  mkDatasourceConfigUpdate (Val v) Unset Unset Unset Unset Unset Unset Unset
                           Unset Unset Unset.

Module DatasourceService.

Definition get (tenant_id : string) (id : Z) : M Datasource :=
  obj <- DatasourceRepository.get_by_id tenant_id id ;;
  match obj with
  | None => raise (ResourceNotFoundError "Datasource not found")
  | Some o => ret o
  end.

Definition update (tenant_id : string) (id : Z) (payload : DatasourceUpdate)
  : M Datasource :=
  existing <- DatasourceRepository.get_by_id tenant_id id ;;
  match existing with
  | None => raise (ResourceNotFoundError "Datasource not found")
  | Some e =>
      let old_connection_key := connection_key e in
      obj <- DatasourceRepository.update tenant_id id payload ;;
      match obj with
      | None => raise (ResourceNotFoundError "Datasource not found")
      | Some o =>
          (if truthy (du_connection_key payload)
              && differs (du_connection_key payload) old_connection_key
           then
             old_config <- DatasourceConfigRepository.get_by_name
                             tenant_id old_connection_key ;;
             match old_config with
             | Some c =>
                 match du_connection_key payload with
                 | Val k =>
                     DatasourceConfigRepository.update tenant_id (config_id c)
                       (DatasourceConfigUpdate_name k) ;;
                     ret tt
                 | _ => ret tt
                 end
             | None => ret tt
             end
           else ret tt) ;;
          ret o
      end
  end.

Definition get_all (tenant_id : string) (active_only : bool) : M (list Datasource) :=
  DatasourceRepository.get_all tenant_id active_only.

Definition create (tenant_id : string) (payload : DatasourceCreate) : M Datasource :=
  existing <- DatasourceRepository.get_by_name tenant_id (dcr_name payload) ;;
  match existing with
  | Some _ =>
      raise (ResourceAlreadyExistsError
               ("Datasource with name '" ++ dcr_name payload ++ "' already exists"))
  | None => DatasourceRepository.create tenant_id payload
  end.

(** [datasource.validation_rules] is loaded from the storage when it is read. *)
Definition delete (tenant_id : string) (id : Z) : M unit :=
  datasource <- DatasourceRepository.get_by_id tenant_id id ;;
  match datasource with
  | None => raise (ResourceNotFoundError "Datasource not found")
  | Some d =>
      validation_rules <- query (rules_of_datasource d) ;;
      match validation_rules with
      | _ :: _ =>
          let rule_count := Z.of_nat (List.length validation_rules) in
          raise (ValidationException
                   ("Cannot delete datasource '" ++ ds_name d ++ "'. "
                    ++ "It is associated with " ++ str_of_int rule_count
                    ++ " validation rule(s). "
                    ++ "Please remove the associations first."))
      | [] =>
          deleted <- DatasourceRepository.delete tenant_id id ;;
          if deleted then ret tt
          else raise (ResourceNotFoundError "Datasource not found")
      end
  end.

End DatasourceService.

Module DatasourceConfigService.

Definition get (tenant_id : string) (id : Z) : M DatasourceConfig :=
  obj <- DatasourceConfigRepository.get_by_id tenant_id id ;;
  match obj with
  | None =>
      raise (ResourceNotFoundError
               ("Datasource config with id '" ++ str_of_int id ++ "' not found"))
  | Some o => ret o
  end.

Definition create (tenant_id : string) (payload : DatasourceConfigCreate)
  : M DatasourceConfig :=
  existing <- DatasourceConfigRepository.get_by_name tenant_id (cc_name payload) ;;
  match existing with
  | Some _ =>
      raise (ResourceAlreadyExistsError
               ("Datasource config with name '" ++ cc_name payload
                ++ "' already exists"))
  | None =>
      config <- DatasourceConfigRepository.create tenant_id payload ;;
      matching_datasources <-
        query (fun db =>
          filter (fun d => (ds_tenant_id d =? tenant_id)%string
                           && (datasource_type d =? cc_driver_family payload)%string)
                 (datasources db)) ;;
      set_connection_keys matching_datasources (cc_name payload) ;;
      commit ;;
      ret config
  end.

Definition update (tenant_id : string) (id : Z) (payload : DatasourceConfigUpdate)
  : M DatasourceConfig :=
  existing <- DatasourceConfigRepository.get_by_id tenant_id id ;;
  match existing with
  | None =>
      raise (ResourceNotFoundError
               ("Datasource config with id '" ++ str_of_int id ++ "' not found"))
  | Some e =>
      (if truthy (cu_name payload) && differs (cu_name payload) (dc_name e)
       then
         match cu_name payload with
         | Val n =>
             name_exists <- DatasourceConfigRepository.get_by_name tenant_id n ;;
             match name_exists with
             | Some _ =>
                 raise (ResourceAlreadyExistsError
                          ("Datasource config with name '" ++ n
                           ++ "' already exists"))
             | None => ret tt
             end
         | _ => ret tt
         end
       else ret tt) ;;
      let old_name := dc_name e in
      let old_driver_family := driver_family e in
      obj <- DatasourceConfigRepository.update tenant_id id payload ;;
      match obj with
      | None =>
          raise (ResourceNotFoundError
                   ("Datasource config with id '" ++ str_of_int id ++ "' not found"))
      | Some o =>
          (if truthy (cu_name payload) && differs (cu_name payload) old_name
           then
             match cu_name payload with
             | Val n =>
                 datasources_with_old_key <-
                   query (fun db =>
                     filter (fun d => (ds_tenant_id d =? tenant_id)%string
                                      && (connection_key d =? old_name)%string)
                            (datasources db)) ;;
                 set_connection_keys datasources_with_old_key n ;;
                 commit
             | _ => ret tt
             end
           else ret tt) ;;
          (if truthy (cu_driver_family payload)
              && differs (cu_driver_family payload) old_driver_family
           then
             match cu_driver_family payload with
             | Val df =>
                 matching_datasources <-
                   query (fun db =>
                     filter (fun d => (ds_tenant_id d =? tenant_id)%string
                                      && (datasource_type d =? df)%string)
                            (datasources db)) ;;
                 set_connection_keys matching_datasources (dc_name o) ;;
                 commit
             | _ => ret tt
             end
           else ret tt) ;;
          ret o
      end
  end.

Definition delete (tenant_id : string) (id : Z) : M unit :=
  config <- DatasourceConfigRepository.get_by_id tenant_id id ;;
  match config with
  | None =>
      raise (ResourceNotFoundError
               ("Datasource config with id '" ++ str_of_int id ++ "' not found"))
  | Some _ =>
      deleted <- DatasourceConfigRepository.delete tenant_id id ;;
      if deleted then ret tt
      else raise (ResourceNotFoundError
                    ("Datasource config with id '" ++ str_of_int id ++ "' not found"))
  end.

Definition get_by_name (tenant_id name : string) : M DatasourceConfig :=
  obj <- DatasourceConfigRepository.get_by_name tenant_id name ;;
  match obj with
  | None =>
      raise (ResourceNotFoundError
               ("Datasource config with name '" ++ name ++ "' not found"))
  | Some o => ret o
  end.

End DatasourceConfigService.

(** ** modules/datasources/routes.py *)

Module DatasourceRoutes.

(** [delete_datasource]; both services of a request work on its one session. *)
Definition delete_datasource (datasource_id : Z) (tenant_id : string)
  : M SuccessResponse :=
  datasource <- DatasourceService.get tenant_id datasource_id ;;
  (if negb (connection_key datasource =? "")%string then
     except_not_found
       (config <- DatasourceConfigService.get_by_name
                    tenant_id (connection_key datasource) ;;
        DatasourceConfigService.delete tenant_id (config_id config))
   else ret tt) ;;
  DatasourceService.delete tenant_id datasource_id ;;
  ret (mkSuccessResponse "Datasource and associated config deleted successfully"
                         None).

End DatasourceRoutes.

(** ** modules/intents/repository.py *)

Module IntentRepository.

Definition get_by_id (tenant_id : string) (id : Z) : M (option Intent) :=
  query (fun db =>
    find (fun i => (it_tenant_id i =? tenant_id)%string && (intent_id i =? id))
         (intents db)).

Definition get_by_code (tenant_id code : string) : M (option Intent) :=
  query (fun db =>
    find (fun i => (it_tenant_id i =? tenant_id)%string
                   && (intent_code i =? code)%string)
         (intents db)).

(** The row built from [policy_dict = policy_data.model_dump()] after
    [policy_dict['tenant_id'] = tenant_id], with [intent_id=obj.intent_id]. *)
Definition new_policy (tenant_id : string) (id : Z) (pc : IntentPolicyCreate)
  : IntentPolicy :=
  mkIntentPolicy tenant_id id (pc_language_code pc)
    (pc_n8n_orchestration_url pc) (pc_auto_process_min_conf pc)
    (pc_manual_review_min_conf pc) (pc_reroute_email pc)
    (pc_multi_intent_mode pc) (pc_allow_multi_auto pc)
    (pc_allow_subset_auto pc).

(** [for policy_data in payload.policies: ... self.db.add(policy)]. *)
Fixpoint add_policies (tenant_id : string) (id : Z)
  (policies : list IntentPolicyCreate) : M unit :=
  match policies with
  | [] => ret tt
  | pc :: rest =>
      add_intent_policy (new_policy tenant_id id pc) ;;
      add_policies tenant_id id rest
  end.

(** The row built from [payload.model_dump(exclude={'policies'})] after
    [intent_data['tenant_id'] = tenant_id]. *)
Definition new_intent (tenant_id : string) (payload : IntentCreate) (id : Z)
  : Intent :=
  mkIntent id (ic_intent_code payload) tenant_id
    (ic_display_name payload) (ic_description payload)
    (ic_category payload) (ic_is_active payload).

Definition create (tenant_id : string) (payload : IntentCreate) : M Intent :=
  obj <- add_intent (new_intent tenant_id payload) ;;
  flush ;;
  add_policies tenant_id (intent_id obj) (ic_policies payload) ;;
  commit ;;
  refresh obj.

Definition update (tenant_id : string) (id : Z) (payload : IntentUpdate)
  : M (option Intent) :=
  obj <- get_by_id tenant_id id ;;
  match obj with
  | None => ret None
  | Some o =>
      match Intent_setattrs payload o with
      | Some o' =>
          write_intent o o' ;;
          commit ;;
          o'' <- refresh o' ;;
          ret (Some o'')
      | None => commit_refused
      end
  end.

Definition delete (tenant_id : string) (id : Z) : M bool :=
  obj <- get_by_id tenant_id id ;;
  match obj with
  | None => ret false
  | Some o =>
      delete_intent o ;;
      commit ;;
      ret true
  end.

End IntentRepository.

Module IntentPolicyRepository.

Definition get_by_intent_and_language (tenant_id : string) (id : Z)
  (language_code : string) : M (option IntentPolicy) :=
  query (fun db =>
    find (fun p => (ip_tenant_id p =? tenant_id)%string
                   && (ip_intent_id p =? id)
                   && (ip_language_code p =? language_code)%string)
         (intent_policies db)).

Definition update (tenant_id : string) (id : Z) (language_code : string)
  (payload : IntentPolicyUpdate) : M (option IntentPolicy) :=
  obj <- get_by_intent_and_language tenant_id id language_code ;;
  match obj with
  | None => ret None
  | Some o =>
      match IntentPolicy_setattrs payload o with
      | Some o' =>
          write_intent_policy o o' ;;
          commit ;;
          o'' <- refresh o' ;;
          ret (Some o'')
      | None => commit_refused
      end
  end.

Definition create (tenant_id : string) (id : Z) (payload : IntentPolicyCreate)
  : M IntentPolicy :=
  let obj := IntentRepository.new_policy tenant_id id payload in
  add_intent_policy obj ;;
  commit ;;
  refresh obj.

Definition delete (tenant_id : string) (id : Z) (language_code : string) : M bool :=
  obj <- get_by_intent_and_language tenant_id id language_code ;;
  match obj with
  | None => ret false
  | Some o =>
      delete_intent_policy o ;;
      commit ;;
      ret true
  end.

End IntentPolicyRepository.

(** ** modules/intents/service.py *)

Module IntentService.

Definition get (tenant_id : string) (id : Z) : M Intent :=
  obj <- IntentRepository.get_by_id tenant_id id ;;
  match obj with
  | None => raise (ResourceNotFoundError "Intent not found")
  | Some o => ret o
  end.

Definition create (tenant_id : string) (payload : IntentCreate) : M Intent :=
  existing <- IntentRepository.get_by_code tenant_id (ic_intent_code payload) ;;
  match existing with
  | Some _ =>
      raise (ResourceAlreadyExistsError
               ("Intent with code '" ++ ic_intent_code payload
                ++ "' already exists"))
  | None => IntentRepository.create tenant_id payload
  end.

Definition update (tenant_id : string) (id : Z) (payload : IntentUpdate)
  : M Intent :=
  obj <- IntentRepository.update tenant_id id payload ;;
  match obj with
  | None => raise (ResourceNotFoundError "Intent not found")
  | Some o => ret o
  end.

Definition delete (tenant_id : string) (id : Z) : M unit :=
  deleted <- IntentRepository.delete tenant_id id ;;
  if deleted then ret tt else raise (ResourceNotFoundError "Intent not found").

End IntentService.

Module IntentPolicyService.

Definition get (tenant_id : string) (id : Z) (language_code : string)
  : M IntentPolicy :=
  obj <- IntentPolicyRepository.get_by_intent_and_language
           tenant_id id language_code ;;
  match obj with
  | None => raise (ResourceNotFoundError "Intent policy not found")
  | Some o => ret o
  end.

Definition update (tenant_id : string) (id : Z) (language_code : string)
  (payload : IntentPolicyUpdate) : M IntentPolicy :=
  obj <- IntentPolicyRepository.update tenant_id id language_code payload ;;
  match obj with
  | None => raise (ResourceNotFoundError "Intent policy not found")
  | Some o => ret o
  end.

Definition create (tenant_id : string) (id : Z) (payload : IntentPolicyCreate)
  : M IntentPolicy :=
  intent <- IntentRepository.get_by_id tenant_id id ;;
  match intent with
  | None => raise (ResourceNotFoundError "Intent not found")
  | Some _ =>
      existing <- IntentPolicyRepository.get_by_intent_and_language
                    tenant_id id (pc_language_code payload) ;;
      match existing with
      | Some _ =>
          raise (ResourceAlreadyExistsError
                   ("Policy for language '" ++ pc_language_code payload
                    ++ "' already exists for this intent"))
      | None => IntentPolicyRepository.create tenant_id id payload
      end
  end.

Definition delete (tenant_id : string) (id : Z) (language_code : string) : M unit :=
  deleted <- IntentPolicyRepository.delete tenant_id id language_code ;;
  if deleted then ret tt
  else raise (ResourceNotFoundError "Intent policy not found").

End IntentPolicyService.

(** ** modules/validation_rules/repository.py *)

(** [order_by(ValidationRule.execution_order.desc())] on the selected column. *)
Fixpoint insert_desc (x : Z) (l : list Z) : list Z :=
  match l with
  | [] => [x]
  | y :: r => if y <=? x then x :: l else y :: insert_desc x r
  end.

Definition order_by_desc (l : list Z) : list Z := fold_right insert_desc [] l.

Module ValidationRuleRepository.

Definition get_by_id (tenant_id : string) (id : Z) : M (option ValidationRule) :=
  query (fun db =>
    find (fun r => (vr_tenant_id r =? tenant_id)%string && (rule_id r =? id))
         (validation_rules db)).

Definition get_max_execution_order (tenant_id : string) (id : Z)
  (language_code : string) : M Z :=
  result <- query (fun db =>
    hd_error
      (order_by_desc
         (map execution_order
            (filter (fun r => (vr_tenant_id r =? tenant_id)%string
                              && (vr_intent_id r =? id)
                              && (vr_language_code r =? language_code)%string)
                    (validation_rules db))))) ;;
  ret (match result with
       | Some order => order
       | None => 0
       end).

(** The row built from [data = payload.model_dump()] after
    [data['tenant_id'] = tenant_id]. *)
Definition new_rule (tenant_id : string) (payload : ValidationRuleCreate)
  (id : Z) : ValidationRule :=
  mkValidationRule id (rc_intent_id payload) (rc_language_code payload)
    tenant_id (rc_rule_code payload) (rc_rule_name payload)
    (rc_rule_description payload) (rc_datasource_id payload)
    (rc_execution_order payload) (rc_severity payload)
    (rc_is_active payload).

Definition create (tenant_id : string) (payload : ValidationRuleCreate)
  : M ValidationRule :=
  obj <- add_validation_rule (new_rule tenant_id payload) ;;
  commit ;;
  refresh obj.

Definition update (tenant_id : string) (id : Z) (payload : ValidationRuleUpdate)
  : M (option ValidationRule) :=
  obj <- get_by_id tenant_id id ;;
  match obj with
  | None => ret None
  | Some o =>
      match ValidationRule_setattrs payload o with
      | Some o' =>
          write_validation_rule o o' ;;
          commit ;;
          o'' <- refresh o' ;;
          ret (Some o'')
      | None => commit_refused
      end
  end.

(** The active rules of an intent and language,
    [order_by(ValidationRule.execution_order)]. *)
Definition get_by_intent_and_language (tenant_id : string) (id : Z)
  (language_code : string) : M (list ValidationRule) :=
  query (fun db =>
    order_by (fun a b => execution_order a <=? execution_order b)
      (filter (fun r => (vr_tenant_id r =? tenant_id)%string
                        && (vr_intent_id r =? id)
                        && (vr_language_code r =? language_code)%string
                        && vr_is_active r)
              (validation_rules db))).

Definition delete (tenant_id : string) (id : Z) : M bool :=
  obj <- get_by_id tenant_id id ;;
  match obj with
  | None => ret false
  | Some o =>
      delete_validation_rule o ;;
      commit ;;
      ret true
  end.

End ValidationRuleRepository.

(** ** modules/validation_rules/service.py *)

(** [severity not in ['CRITICAL', 'WARNING']]. *)
Definition severity_allowed (s : string) : bool :=
  (s =? "CRITICAL")%string || (s =? "WARNING")%string.

Module ValidationRuleService.

Definition get (tenant_id : string) (id : Z) : M ValidationRule :=
  obj <- ValidationRuleRepository.get_by_id tenant_id id ;;
  match obj with
  | None =>
      raise (ResourceNotFoundError
               ("Validation rule with id '" ++ str_of_int id ++ "' not found"))
  | Some o => ret o
  end.

Definition create (tenant_id : string) (payload : ValidationRuleCreate)
  : M ValidationRule :=
  intent <- query (fun db =>
    find (fun i => (it_tenant_id i =? tenant_id)%string
                   && (intent_id i =? rc_intent_id payload))
         (intents db)) ;;
  match intent with
  | None =>
      raise (ResourceNotFoundError
               ("Intent with id '" ++ str_of_int (rc_intent_id payload)
                ++ "' not found"))
  | Some _ =>
      datasource <- query (fun db =>
        find (fun d => (ds_tenant_id d =? tenant_id)%string
                       && (datasource_id d =? rc_datasource_id payload))
             (datasources db)) ;;
      match datasource with
      | None =>
          raise (ResourceNotFoundError
                   ("Datasource with id '" ++ str_of_int (rc_datasource_id payload)
                    ++ "' not found"))
      | Some d =>
          if negb (ds_is_active d) then
            raise (ValueError
                     ("Datasource '" ++ ds_name d
                      ++ "' is not active. Cannot create validation rule with inactive datasource."))
          else
            existing <- query (fun db =>
              find (fun r => (vr_tenant_id r =? tenant_id)%string
                             && (rule_code r =? rc_rule_code payload)%string
                             && (vr_intent_id r =? rc_intent_id payload))
                   (validation_rules db)) ;;
            match existing with
            | Some _ =>
                raise (ResourceAlreadyExistsError
                         ("Validation rule with code '" ++ rc_rule_code payload
                          ++ "' already exists in this intent"))
            | None =>
                if rc_execution_order payload <? 1 then
                  raise (ValueError "execution_order must be >= 1")
                else if negb (severity_allowed (rc_severity payload)) then
                  raise (ValueError
                           "severity must be either 'CRITICAL' or 'WARNING'")
                else ValidationRuleRepository.create tenant_id payload
            end
      end
  end.

Definition update (tenant_id : string) (id : Z) (payload : ValidationRuleUpdate)
  : M ValidationRule :=
  existing_rule <- ValidationRuleRepository.get_by_id tenant_id id ;;
  match existing_rule with
  | None =>
      raise (ResourceNotFoundError
               ("Validation rule with id '" ++ str_of_int id ++ "' not found"))
  | Some _ =>
      (match ru_datasource_id payload with
       | Val did =>
           datasource <- query (fun db =>
             find (fun d => (ds_tenant_id d =? tenant_id)%string
                            && (datasource_id d =? did))
                  (datasources db)) ;;
           match datasource with
           | None =>
               raise (ResourceNotFoundError
                        ("Datasource with id '" ++ str_of_int did ++ "' not found"))
           | Some d =>
               if negb (ds_is_active d) then
                 raise (ValueError
                          ("Datasource '" ++ ds_name d
                           ++ "' is not active. Cannot update to inactive datasource."))
               else ret tt
           end
       | _ => ret tt
       end) ;;
      (match ru_intent_id payload with
       | Val iid =>
           intent <- query (fun db =>
             find (fun i => (it_tenant_id i =? tenant_id)%string
                            && (intent_id i =? iid))
                  (intents db)) ;;
           match intent with
           | None =>
               raise (ResourceNotFoundError
                        ("Intent with id '" ++ str_of_int iid ++ "' not found"))
           | Some _ => ret tt
           end
       | _ => ret tt
       end) ;;
      (match ru_execution_order payload with
       | Val eo =>
           if eo <? 1 then raise (ValueError "execution_order must be >= 1")
           else ret tt
       | _ => ret tt
       end) ;;
      (match ru_severity payload with
       | Val sev =>
           if negb (severity_allowed sev) then
             raise (ValueError "severity must be either 'CRITICAL' or 'WARNING'")
           else ret tt
       | _ => ret tt
       end) ;;
      obj <- ValidationRuleRepository.update tenant_id id payload ;;
      match obj with
      | None =>
          raise (ResourceNotFoundError
                   ("Validation rule with id '" ++ str_of_int id ++ "' not found"))
      | Some o => ret o
      end
  end.

Definition get_next_execution_order (tenant_id : string) (id : Z)
  (language_code : string) : M Z :=
  max_order <- ValidationRuleRepository.get_max_execution_order
                 tenant_id id language_code ;;
  ret (max_order + 1).

Definition get_by_intent_and_language (tenant_id : string) (id : Z)
  (language_code : string) : M (list ValidationRule) :=
  ValidationRuleRepository.get_by_intent_and_language tenant_id id language_code.

Definition delete (tenant_id : string) (id : Z) : M unit :=
  deleted <- ValidationRuleRepository.delete tenant_id id ;;
  if deleted then ret tt
  else raise (ResourceNotFoundError
                ("Validation rule with id '" ++ str_of_int id ++ "' not found")).

End ValidationRuleService.

(** ** What the operations are checked against *)

(** *** What the storage takes

    Two refusals of the storage lie outside the session above: the driver
    refuses text that holds a NUL character before anything is sent, and an
    [Integer] column, like the sequence that feeds a key, holds 32 bits.
    Where a statement says that a request is served, the tenant, the payload
    and the next key are taken from within these bounds. *)
Fixpoint text_ok (s : string) : bool :=
  match s with
  | EmptyString => true
  | String c r => negb (Ascii.eqb c Ascii.zero) && text_ok r
  end.

Definition opt_text_ok (o : option string) : bool :=
  match o with
  | Some s => text_ok s
  | None => true
  end.

Definition field_text_ok (f : field string) : bool :=
  match f with
  | Val s => text_ok s
  | _ => true
  end.

Definition int4_ok (z : Z) : bool := (-2147483648 <=? z) && (z <=? 2147483647).

Definition field_int4_ok (f : field Z) : bool :=
  match f with
  | Val z => int4_ok z
  | _ => true
  end.

Definition DatasourceCreate_storable (p : DatasourceCreate) : bool :=
  text_ok (dcr_name p) && text_ok (dcr_datasource_type p) &&
  text_ok (dcr_connection_key p) && opt_text_ok (dcr_description p).

Definition DatasourceUpdate_storable (p : DatasourceUpdate) : bool :=
  field_text_ok (du_name p) && field_text_ok (du_datasource_type p) &&
  field_text_ok (du_connection_key p) && field_text_ok (du_description p) &&
  field_text_ok (du_tenant_id p).

Definition DatasourceConfigCreate_storable (p : DatasourceConfigCreate) : bool :=
  text_ok (cc_name p) && text_ok (cc_protocol p) && text_ok (cc_driver_family p) &&
  opt_text_ok (cc_base_url p) && opt_text_ok (cc_auth_type p) &&
  opt_text_ok (cc_metadata_ref p) && opt_text_ok (cc_router_base_url p).

Definition DatasourceConfigUpdate_storable (p : DatasourceConfigUpdate) : bool :=
  field_text_ok (cu_name p) && field_text_ok (cu_protocol p) &&
  field_text_ok (cu_driver_family p) && field_text_ok (cu_base_url p) &&
  field_text_ok (cu_auth_type p) && field_text_ok (cu_metadata_ref p) &&
  field_text_ok (cu_router_base_url p) && field_text_ok (cu_tenant_id p).

Definition ValidationRuleCreate_storable (p : ValidationRuleCreate) : bool :=
  text_ok (rc_language_code p) && text_ok (rc_rule_code p) &&
  text_ok (rc_rule_name p) && text_ok (rc_rule_description p) &&
  text_ok (rc_severity p) && int4_ok (rc_execution_order p).

(** The validators of [IntentPolicyCreate] (schemas.py). *)
Definition IntentPolicyCreate_valid (p : IntentPolicyCreate) : bool :=
  (String.length (pc_language_code p) <=? 10)%nat &&
  (0 <=? pc_auto_process_min_conf p) && (pc_auto_process_min_conf p <=? 10000) &&
  (0 <=? pc_manual_review_min_conf p) && (pc_manual_review_min_conf p <=? 10000) &&
  ((pc_multi_intent_mode p =? "STRICT_SINGLE")%string
   || (pc_multi_intent_mode p =? "AUTO_ALL")%string
   || (pc_multi_intent_mode p =? "AUTO_SUBSET")%string).

Definition IntentPolicyCreate_storable (p : IntentPolicyCreate) : bool :=
  text_ok (pc_language_code p) && opt_text_ok (pc_n8n_orchestration_url p) &&
  opt_text_ok (pc_reroute_email p) && text_ok (pc_multi_intent_mode p).

(** The [connection_key] a datasource update carries, if any, passes the
    validators of [DatasourceConfigUpdate.name], to which the service hands
    it. *)
Definition DatasourceUpdate_key_fits (p : DatasourceUpdate) : bool :=
  match du_connection_key p with
  | Val v => (String.length v <=? 255)%nat
  | _ => true
  end.

(** [d'] is [d] with [connection_key] set to [name]: every column spelled
    out. *)
Definition key_set_to (name : string) (d d' : Datasource) : Prop :=
  connection_key d' = name /\
  datasource_id d' = datasource_id d /\
  ds_name d' = ds_name d /\
  datasource_type d' = datasource_type d /\
  ds_description d' = ds_description d /\
  ds_tenant_id d' = ds_tenant_id d /\
  ds_is_active d' = ds_is_active d.

(** A datasource after a config named [name] with driver family [x] was
    created in tenant [t]: its key is [name] when it is of that tenant and
    type, and it is untouched otherwise. *)
Definition repointed (t x name : string) (d d' : Datasource) : Prop :=
  (ds_tenant_id d = t -> datasource_type d = x -> key_set_to name d d') /\
  (ds_tenant_id d <> t -> d' = d) /\
  (datasource_type d <> x -> d' = d).

(** The datasources table after such a creation. *)
Definition repoint_by_type (t x name : string) (l : list Datasource)
  : list Datasource :=
  map (fun d => if (ds_tenant_id d =? t)%string && (datasource_type d =? x)%string
                then with_connection_key name d else d) l.

(** The validators of [ValidationRuleCreate] (schemas.py): a payload reaches
    the service only if it passes them. *)
Definition ValidationRuleCreate_valid (p : ValidationRuleCreate) : bool :=
  (String.length (rc_language_code p) <=? 10)%nat &&
  (1 <=? String.length (rc_rule_code p))%nat &&
  (1 <=? String.length (rc_rule_name p))%nat &&
  (1 <=? String.length (rc_rule_description p))%nat &&
  (1 <=? rc_execution_order p) &&
  severity_allowed (rc_severity p).

(** The update payload [{"is_active": b}]. *)
Definition DatasourceUpdate_is_active (b : bool) : DatasourceUpdate :=
  mkDatasourceUpdate Unset Unset Unset Unset Unset (Val b).

(** The declared constraints, as propositions. *)
Record Constraints (db : DB) : Prop := mkConstraints {
  intents_pk : NoDup (map intent_id (intents db));
  intents_uq : NoDup (map intent_uq (intents db));
  policies_pk : NoDup (map policy_pk (intent_policies db));
  policies_fk : incl (map policy_fk (intent_policies db))
                     (map intent_tid (intents db));
  datasources_pk : NoDup (map datasource_id (datasources db));
  datasources_uq : NoDup (map datasource_uq (datasources db));
  configs_pk : NoDup (map config_id (datasource_configs db));
  configs_uq : NoDup (map config_uq (datasource_configs db));
  rules_pk : NoDup (map rule_id (validation_rules db));
  rules_uq : NoDup (map rule_uq (validation_rules db));
  rules_intent_fk : incl (map rule_intent_fk (validation_rules db))
                         (map intent_tid (intents db));
  rules_datasource_fk : incl (map rule_datasource_fk (validation_rules db))
                             (map datasource_tid (datasources db))
}.

(** A store the system can be in, as a proposition. *)
Record StoreOk (st : Store) : Prop := mkStoreOk {
  ok_constraints : Constraints (tables st);
  ok_intents : Forall (fun i => i < seq_intent (sequences st))
                      (map intent_id (intents (tables st)));
  ok_datasources : Forall (fun i => i < seq_datasource (sequences st))
                          (map datasource_id (datasources (tables st)));
  ok_configs : Forall (fun i => i < seq_config (sequences st))
                      (map config_id (datasource_configs (tables st)));
  ok_rules : Forall (fun i => i < seq_rule (sequences st))
                    (map rule_id (validation_rules (tables st)))
}.

(** ** Example data *)

Module ExampleCreate.

Definition crm := mkDatasource 1 "crm" "postgres" "K0" None "t1" true.
Definition erp := mkDatasource 2 "erp" "postgres" "K1" None "t1" false.
Definition crm2 := mkDatasource 3 "crm" "postgres" "K2" None "t2" true.
Definition files := mkDatasource 4 "files" "s3" "K3" None "t1" true.

Definition store1 : Store :=
  mkStore (mkDB [] [] [crm; erp; crm2; files] [] []) (mkSeqs 1 5 1 1).

Definition pg : DatasourceConfigCreate :=
  mkDatasourceConfigCreate "PG" "sql" "postgres" None None None None None
                           true None "global".

End ExampleCreate.

Module ExampleRules.

Definition refund := mkIntent 1 "REFUND" "t1" "Refund request" None None true.
Definition crm := mkDatasource 1 "crm" "postgres" "K0" None "t1" false.
Definition erp := mkDatasource 2 "erp" "postgres" "K1" None "t1" true.
Definition sender :=
  mkValidationRule 1 1 "en" "t1" "SENDER_EMAIL_MATCH" "Sender" "Sender matches"
                   2 1 "CRITICAL" true.

(** A tenant with one intent, an inactive and an active datasource, and one
    rule on the intent. *)
Definition store1 : Store :=
  mkStore (mkDB [refund] [] [crm; erp] [] [sender]) (mkSeqs 2 3 1 2).

(** A rule for the inactive datasource, with a code the intent has not. *)
Definition amount : ValidationRuleCreate :=
  mkValidationRuleCreate 1 "en" "global" "AMOUNT_MATCH" "Amount" "Amount matches"
                         1 2 "WARNING" true.

(** The same, with the code of the rule the intent already has. *)
Definition sender_again : ValidationRuleCreate :=
  mkValidationRuleCreate 1 "en" "global" "SENDER_EMAIL_MATCH" "Sender"
                         "Sender matches" 1 2 "CRITICAL" true.

End ExampleRules.

Module ExamplePolicies.

Definition english : IntentPolicyCreate :=
  mkIntentPolicyCreate "en" "global" None 9000 6000 None "STRICT_SINGLE"
                       false false.

Definition french : IntentPolicyCreate :=
  mkIntentPolicyCreate "fr" "global" None 8500 6000 None "AUTO_ALL" true false.

(** Another policy for English. *)
Definition english_again : IntentPolicyCreate :=
  mkIntentPolicyCreate "en" "global" None 7000 5000 None "AUTO_SUBSET"
                       false true.

Definition complaint (policies : list IntentPolicyCreate) : IntentCreate :=
  mkIntentCreate "COMPLAINT" "global" "Complaint" None None true policies.

End ExamplePolicies.

(** A config after its name was set to [n]. *)
Definition renamed (n : string) (c : DatasourceConfig) : DatasourceConfig :=
  mkDatasourceConfig (config_id c) n (dc_tenant_id c) (protocol c) (driver_family c)
    (base_url c) (auth_type c) (auth_config c) (connection_json c)
    (metadata_ref c) (dc_is_active c) (router_base_url c).

(** The update payload [{"connection_key": k}]. *)
Definition DatasourceUpdate_connection_key (k : string) : DatasourceUpdate :=
  mkDatasourceUpdate Unset Unset (Val k) Unset Unset Unset.

Module ExampleKeys.

Definition crm := mkDatasource 1 "crm" "postgres" "K0" None "t1" true.
Definition k0 :=
  mkDatasourceConfig 1 "K0" "t1" "sql" "postgres" None None None None None true None.
Definition k9 :=
  mkDatasourceConfig 2 "K9" "t1" "rest" "servicenow" None None None None None
                     true None.

(** A datasource pointing at the config K0, beside a config K9. *)
Definition store1 : Store :=
  mkStore (mkDB [] [] [crm] [k0; k9] []) (mkSeqs 1 2 3 1).

End ExampleKeys.

(** Whether the driver-family rule of a config update with payload [p], on a
    config of tenant [t] whose driver family was [old], selects datasource [d]. *)
Definition selected_by_driver_family (t : string) (p : DatasourceConfigUpdate)
  (old : string) (d : Datasource) : bool :=
  truthy (cu_driver_family p) && differs (cu_driver_family p) old &&
  (ds_tenant_id d =? t)%string &&
  match cu_driver_family p with
  | Val df => (datasource_type d =? df)%string
  | _ => false
  end.

Module ExampleRename.

Definition a :=
  mkDatasourceConfig 1 "A" "t1" "sql" "postgres" None None None None None true None.
Definition crm := mkDatasource 1 "crm" "postgres" "A" None "t1" true.
Definition files := mkDatasource 2 "files" "s3" "C" None "t1" true.
Definition crm2 := mkDatasource 3 "crm" "postgres" "A" None "t2" true.

Definition store1 : Store :=
  mkStore (mkDB [] [] [crm; files; crm2] [a] []) (mkSeqs 1 4 2 1).

(** [{"name": "B"}] *)
Definition rename : DatasourceConfigUpdate := DatasourceConfigUpdate_name "B".

(** [{"name": "B", "driver_family": "s3"}] *)
Definition rename_and_retype : DatasourceConfigUpdate :=
  mkDatasourceConfigUpdate (Val "B") Unset (Val "s3") Unset Unset Unset Unset
                           Unset Unset Unset Unset.

End ExampleRename.

Module ExampleTenants.

Definition refund := mkIntent 1 "REFUND" "t1" "Refund request" None None true.
Definition refund_en :=
  mkIntentPolicy "t1" 1 "en" None 9000 6000 None "STRICT_SINGLE" false false.
Definition crm := mkDatasource 1 "crm" "postgres" "K0" None "t1" true.
Definition sender :=
  mkValidationRule 1 1 "en" "t1" "SENDER_EMAIL_MATCH" "Sender" "Sender matches"
                   1 1 "CRITICAL" true.
Definition erp := mkDatasource 2 "erp" "postgres" "K1" None "t1" true.
Definition k0 :=
  mkDatasourceConfig 1 "K0" "t1" "sql" "postgres" None None None None None true None.
Definition billing := mkIntent 2 "BILLING" "t1" "Billing" None None true.

(** Tenant t1: an intent with a policy and a rule on a datasource, and an
    intent, a datasource and a config that nothing refers to. *)
Definition store1 : Store :=
  mkStore (mkDB [refund; billing] [refund_en] [crm; erp] [k0] [sender])
          (mkSeqs 3 3 2 2).

(** The update payloads [{"tenant_id": "t2"}]. *)
Definition move_datasource : DatasourceUpdate :=
  mkDatasourceUpdate Unset Unset Unset Unset (Val "t2") Unset.
Definition move_config : DatasourceConfigUpdate :=
  mkDatasourceConfigUpdate Unset Unset Unset Unset Unset Unset Unset Unset
                           Unset Unset (Val "t2").
Definition move_intent : IntentUpdate :=
  mkIntentUpdate Unset (Val "t2") Unset Unset Unset Unset.
Definition move_policy : IntentPolicyUpdate :=
  mkIntentPolicyUpdate Unset (Val "t2") Unset Unset Unset Unset Unset Unset Unset.
Definition move_rule : ValidationRuleUpdate :=
  mkValidationRuleUpdate Unset Unset (Val "t2") Unset Unset Unset Unset Unset
                         Unset Unset.

End ExampleTenants.

(** ** Sessions of a well-formed store *)

(** No row carries a key that a sequence has still to hand out. *)
Record Bounded (sq : Seqs) (db : DB) : Prop := mkBounded {
  bounded_intents : Forall (fun i => i < seq_intent sq) (map intent_id (intents db));
  bounded_datasources : Forall (fun i => i < seq_datasource sq)
                               (map datasource_id (datasources db));
  bounded_configs : Forall (fun i => i < seq_config sq)
                           (map config_id (datasource_configs db));
  bounded_rules : Forall (fun i => i < seq_rule sq)
                         (map rule_id (validation_rules db))
}.

(** A session of a request that started on a well-formed store: what is
    durable satisfies the constraints, and neither the durable nor the staged
    rows run ahead of the sequences. *)
Record SessionOk (s : Session) : Prop := mkSessionOk {
  durable_constraints : Constraints (durable s);
  durable_bounded : Bounded (seqs s) (durable s);
  pending_bounded : Bounded (seqs s) (pending s)
}.

(** [m] takes such sessions to such sessions, whatever its outcome. *)
Definition safe {A} (m : M A) : Prop :=
  forall s, SessionOk s -> SessionOk (fst (m s)).

Module ExampleRequests.

(** A datasource the tenant has not yet. *)
Definition warehouse : DatasourceCreate :=
  mkDatasourceCreate "warehouse" "postgres" "K9" None "global" true.

(** A rule for the active datasource of [ExampleRules], to run fifth. *)
Definition amount_on_erp : ValidationRuleCreate :=
  mkValidationRuleCreate 1 "en" "global" "AMOUNT_MATCH" "Amount" "Amount matches"
                         2 5 "WARNING" true.

End ExampleRequests.

(** * Verification *)

(** ** Keys: the boolean checks against their meaning *)

Section Keys.

Context {K : Type} (eqb : K -> K -> bool).
Hypothesis eqb_spec : forall a b, eqb a b = true <-> a = b.

Lemma existsb_eqb_In (k : K) (l : list K) :
  existsb (eqb k) l = true <-> In k l.
Proof.
  rewrite existsb_exists. split.
  - intros [x [Hin Hx]]. apply eqb_spec in Hx. now subst.
  - intros Hin. exists k. split; [assumption | now apply eqb_spec].
Qed.

Lemma uniqueb_NoDup (l : list K) : uniqueb eqb l = true <-> NoDup l.
Proof.
  induction l as [|k r IH]; simpl.
  - split; [constructor | reflexivity].
  - rewrite andb_true_iff, negb_true_iff, IH. split.
    + intros [Hk Hr]. constructor; [|assumption].
      intro Hin. apply existsb_eqb_In in Hin. congruence.
    + intros Hnd. inversion Hnd as [|? ? Hk Hr]; subst. split; [|assumption].
      destruct (existsb (eqb k) r) eqn:E; [|reflexivity].
      apply existsb_eqb_In in E. contradiction.
Qed.

Lemma referencesb_incl (refs keys : list K) :
  referencesb eqb refs keys = true <-> incl refs keys.
Proof.
  unfold referencesb, incl. rewrite forallb_forall. split.
  - intros H k Hk. apply existsb_eqb_In. auto.
  - intros H k Hk. apply existsb_eqb_In. auto.
Qed.

End Keys.

Lemma tid_eqb_spec (a b : string * Z) : tid_eqb a b = true <-> a = b.
Proof.
  destruct a as [a1 a2], b as [b1 b2]. unfold tid_eqb. simpl.
  rewrite andb_true_iff, String.eqb_eq, Z.eqb_eq. split.
  - intros [-> ->]. reflexivity.
  - intros H. inversion H. auto.
Qed.

Lemma tname_eqb_spec (a b : string * string) : tname_eqb a b = true <-> a = b.
Proof.
  destruct a as [a1 a2], b as [b1 b2]. unfold tname_eqb. simpl.
  rewrite andb_true_iff, !String.eqb_eq. split.
  - intros [-> ->]. reflexivity.
  - intros H. inversion H. auto.
Qed.

Lemma tis_eqb_spec (a b : string * Z * string) : tis_eqb a b = true <-> a = b.
Proof.
  destruct a as [a1 a2], b as [b1 b2]. unfold tis_eqb. simpl.
  rewrite andb_true_iff, tid_eqb_spec, String.eqb_eq. split.
  - intros [-> ->]. reflexivity.
  - intros H. inversion H. auto.
Qed.

Lemma constraints_ok_iff (db : DB) : constraints_ok db = true <-> Constraints db.
Proof.
  unfold constraints_ok.
  rewrite !andb_true_iff.
  rewrite !(uniqueb_NoDup Z.eqb Z.eqb_eq).
  rewrite !(uniqueb_NoDup tname_eqb tname_eqb_spec).
  rewrite !(uniqueb_NoDup tis_eqb tis_eqb_spec).
  rewrite !(referencesb_incl tid_eqb tid_eqb_spec).
  split.
  - intros H. decompose [and] H. now constructor.
  - intros []. tauto.
Qed.

Lemma constraints_ok_false (db : DB) :
  ~ Constraints db -> constraints_ok db = false.
Proof.
  intros H. destruct (constraints_ok db) eqn:E; [|reflexivity].
  apply constraints_ok_iff in E. contradiction.
Qed.

Lemma below_Forall (n : Z) (l : list Z) :
  below n l = true <-> Forall (fun i => i < n) l.
Proof.
  unfold below. rewrite forallb_forall, Forall_forall.
  split; intros H x Hx; specialize (H x Hx); lia.
Qed.

Lemma store_ok_iff (st : Store) : store_ok st = true <-> StoreOk st.
Proof.
  unfold store_ok.
  rewrite !andb_true_iff, constraints_ok_iff, !below_Forall.
  split.
  - intros H. decompose [and] H. now constructor.
  - intros []. tauto.
Qed.

(** ** Rows of a table with unique keys *)

Section Rows.

Context {A : Type} (pk : A -> Z).

Lemma unique_row (l : list A) (a b : A) :
  NoDup (map pk l) -> In a l -> In b l -> pk a = pk b -> a = b.
Proof.
  induction l as [|x r IH]; simpl; [tauto|].
  intros Hnd Ha Hb E. inversion Hnd as [|? ? Hx Hr]; subst.
  destruct Ha as [->|Ha], Hb as [->|Hb]; auto.
  - exfalso. apply Hx. rewrite E. now apply in_map.
  - exfalso. apply Hx. rewrite <- E. now apply in_map.
Qed.

(** Writing the row of a loaded object changes that row and no other. *)
Lemma write_row (l : list A) (o o' : A) :
  NoDup (map pk l) -> In o l ->
  exists l1 l2,
    l = (l1 ++ o :: l2)%list /\
    map (fun r => if pk r =? pk o then o' else r) l = (l1 ++ o' :: l2)%list /\
    (forall r, In r l1 \/ In r l2 -> pk r <> pk o).
Proof.
  intros Hnd Hin.
  destruct (in_split _ _ Hin) as [l1 [l2 ->]].
  assert (Hother : forall r, In r l1 \/ In r l2 -> pk r <> pk o).
  { intros r Hr E. rewrite map_app in Hnd. simpl in Hnd.
    apply NoDup_remove_2 in Hnd. apply Hnd. rewrite <- E, <- map_app.
    apply in_map, in_or_app. assumption. }
  exists l1, l2. split; [reflexivity|]. split; [|assumption].
  rewrite map_app. simpl. rewrite Z.eqb_refl. f_equal; [|f_equal].
  - rewrite <- (map_id l1) at 2. apply map_ext_in. intros r Hr.
    destruct (pk r =? pk o) eqn:E; [|reflexivity].
    apply Z.eqb_eq in E. exfalso. apply (Hother r); auto.
  - rewrite <- (map_id l2) at 2. apply map_ext_in. intros r Hr.
    destruct (pk r =? pk o) eqn:E; [|reflexivity].
    apply Z.eqb_eq in E. exfalso. apply (Hother r); auto.
Qed.

(** The objects a query returned are, by identity, the rows it selected. *)
Lemma selected_rows (p : A -> bool) (l : list A) (r : A) :
  NoDup (map pk l) -> In r l ->
  existsb (fun o => pk o =? pk r) (filter p l) = p r.
Proof.
  intros Hnd Hr. destruct (p r) eqn:P.
  - apply existsb_exists. exists r. split.
    + apply filter_In. auto.
    + apply Z.eqb_refl.
  - destruct (existsb _ _) eqn:E; [|reflexivity].
    apply existsb_exists in E. destruct E as [o [Ho Eo]].
    apply filter_In in Ho. destruct Ho as [Ho Po].
    apply Z.eqb_eq in Eo.
    assert (o = r) by (eapply unique_row; eauto). subst. congruence.
Qed.

End Rows.

Lemma find_none_all {A} (f : A -> bool) (l : list A) :
  (forall x, In x l -> f x = false) -> find f l = None.
Proof.
  induction l as [|x r IH]; simpl; [reflexivity|].
  intros H. rewrite (H x (or_introl eq_refl)). apply IH. auto.
Qed.

Lemma Forall2_map_self {A} (R : A -> A -> Prop) (f : A -> A) (l : list A) :
  (forall x, In x l -> R x (f x)) -> Forall2 R l (map f l).
Proof.
  induction l as [|x r IH]; simpl; intros H; constructor; auto.
Qed.

(** ** Running a request *)

Arguments constraints_ok : simpl never.
Arguments String.append : simpl never.
Arguments str_of_int : simpl never.

Tactic Notation "exec" :=
  cbv beta iota delta
    [run request bind ret raise query roundtrip stage flush commit commit_refused
     refresh with_pending rollback
     add_intent add_datasource_config add_validation_rule add_intent_policy
     write_intent write_intent_policy write_datasource write_datasource_config
     write_validation_rule delete_datasource_config set_connection_keys
     set_intents set_intent_policies set_datasources set_datasource_configs
     set_validation_rules];
  cbn [durable pending seqs fault tables sequences
       intents intent_policies datasources datasource_configs validation_rules
       seq_intent seq_datasource seq_config seq_rule fst snd].

Tactic Notation "exec" "in" ident(H) :=
  cbv beta iota delta
    [run request bind ret raise query roundtrip stage flush commit commit_refused
     refresh with_pending rollback
     add_intent add_datasource_config add_validation_rule add_intent_policy
     write_intent write_intent_policy write_datasource write_datasource_config
     write_validation_rule delete_datasource_config set_connection_keys
     set_intents set_intent_policies set_datasources set_datasource_configs
     set_validation_rules] in H;
  cbn [durable pending seqs fault tables sequences
       intents intent_policies datasources datasource_configs validation_rules
       seq_intent seq_datasource seq_config seq_rule fst snd] in H.

Ltac case_step :=
  match goal with
  | |- context [if constraints_ok ?x then _ else _] =>
      destruct (constraints_ok x) eqn:?
  | |- context [match find ?f ?l with _ => _ end] => destruct (find f l) eqn:?
  | |- context [match ?k with Some _ => _ | None => _ end] => is_var k; destruct k
  | |- context [match ?k with O => _ | S _ => _ end] => is_var k; destruct k
  end.

Ltac crunch := exec; repeat (case_step; exec).

Lemma NoDup_map_filter {A K} (key : A -> K) (f : A -> bool) (l : list A) :
  NoDup (map key l) -> NoDup (map key (filter f l)).
Proof.
  induction l as [|x r IH]; simpl; intros H; [constructor|].
  inversion H as [|? ? Hx Hr]; subst.
  destruct (f x); simpl; auto.
  constructor; auto.
  intro Hin. apply Hx. apply in_map_iff in Hin. destruct Hin as [y [E Hy]].
  apply filter_In in Hy. rewrite <- E. apply in_map. tauto.
Qed.

Lemma NoDup_snoc {K} (l : list K) (k : K) :
  NoDup l -> ~ In k l -> NoDup (l ++ [k]).
Proof.
  intros Hl Hk. apply NoDup_app; auto.
  - constructor; [simpl; tauto | constructor].
  - intros a Ha [<-|[]]. contradiction.
Qed.

Lemma fresh_key (n : Z) (l : list Z) :
  Forall (fun i => i < n) l -> ~ In n l.
Proof.
  intros H Hin. rewrite Forall_forall in H. specialize (H n Hin). lia.
Qed.

Lemma config_name_free (t n : string) (cfgs : list DatasourceConfig) :
  find (fun c => (dc_tenant_id c =? t)%string && (dc_name c =? n)%string) cfgs = None ->
  ~ In (t, n) (map config_uq cfgs).
Proof.
  intros Hf Hin. apply in_map_iff in Hin. destruct Hin as [c [E Hc]].
  apply (find_none _ _ Hf) in Hc. unfold config_uq in E. inversion E; subst.
  rewrite !String.eqb_refl in Hc. discriminate.
Qed.

Lemma constraints_add_config its pols dss cfgs rules (c : DatasourceConfig) :
  Constraints (mkDB its pols dss cfgs rules) ->
  ~ In (config_id c) (map config_id cfgs) ->
  ~ In (config_uq c) (map config_uq cfgs) ->
  Constraints (mkDB its pols dss (cfgs ++ [c]) rules).
Proof.
  intros [] Hid Huq. cbn in *.
  constructor; cbn; auto; rewrite map_app; apply NoDup_snoc; auto.
Qed.

(** Changes that keep the keys of the datasources keep the constraints. *)
Lemma constraints_keep_datasource_keys its pols dss cfgs rules
  (h : Datasource -> Datasource) :
  (forall d, datasource_id (h d) = datasource_id d) ->
  (forall d, ds_tenant_id (h d) = ds_tenant_id d) ->
  (forall d, ds_name (h d) = ds_name d) ->
  Constraints (mkDB its pols dss cfgs rules) ->
  Constraints (mkDB its pols (map h dss) cfgs rules).
Proof.
  intros Hid Ht Hn [].
  assert (E1 : map datasource_id (map h dss) = map datasource_id dss).
  { rewrite map_map. apply map_ext. auto. }
  assert (E2 : map datasource_uq (map h dss) = map datasource_uq dss).
  { rewrite map_map. apply map_ext. intros d. unfold datasource_uq.
    now rewrite Ht, Hn. }
  assert (E3 : map datasource_tid (map h dss) = map datasource_tid dss).
  { rewrite map_map. apply map_ext. intros d. unfold datasource_tid.
    now rewrite Ht, Hid. }
  cbn in *. constructor; cbn; rewrite ?E1, ?E2, ?E3; auto.
Qed.

Lemma set_connection_keys_selected (p : Datasource -> bool) (v : string)
  (dss : list Datasource) :
  NoDup (map datasource_id dss) ->
  map (fun r => if existsb (fun o => datasource_id o =? datasource_id r) (filter p dss)
                then with_connection_key v r else r) dss
  = map (fun r => if p r then with_connection_key v r else r) dss.
Proof.
  intros Hnd. apply map_ext_in. intros r Hr.
  now rewrite (selected_rows datasource_id p dss r Hnd Hr).
Qed.

Lemma constraints_repoint its pols dss cfgs rules (p : Datasource -> bool) v :
  Constraints (mkDB its pols dss cfgs rules) ->
  Constraints (mkDB its pols
                 (map (fun r => if p r then with_connection_key v r else r) dss)
                 cfgs rules).
Proof.
  apply constraints_keep_datasource_keys; intros d; destruct (p d); reflexivity.
Qed.

Lemma repointed_by_type (t x name : string) (l : list Datasource) :
  Forall2 (repointed t x name) l (repoint_by_type t x name l).
Proof.
  apply Forall2_map_self. intros d _. unfold repointed, key_set_to.
  destruct (ds_tenant_id d =? t)%string eqn:Et;
    destruct (datasource_type d =? x)%string eqn:Ex; cbn;
    rewrite ?String.eqb_eq, ?String.eqb_neq in *;
    repeat split; intros; try congruence; reflexivity.
Qed.

(** The two commits of a config creation, on a store that satisfies its
    constraints and passed the name check. *)
Section ConfigCreate.

Variables (its : list Intent) (pols : list IntentPolicy) (dss : list Datasource)
          (cfgs : list DatasourceConfig) (rules : list ValidationRule) (sq : Seqs).
Variables (t : string) (p : DatasourceConfigCreate).

Local Abbreviation st := (mkStore (mkDB its pols dss cfgs rules) sq).
Local Abbreviation cfg := (DatasourceConfigRepository.new_config t p (seq_config sq)).

Hypothesis Hok : store_ok st = true.
Hypothesis Hfree :
  find (fun c => (dc_tenant_id c =? t)%string && (dc_name c =? cc_name p)%string)
       cfgs = None.

Lemma config_insert_accepted :
  constraints_ok (mkDB its pols dss (cfgs ++ [cfg]) rules) = true.
Proof.
  apply store_ok_iff in Hok. destruct Hok as [Hc _ _ Hcf _]. cbn in *.
  apply constraints_ok_iff, constraints_add_config; auto.
  - now apply fresh_key.
  - now apply config_name_free.
Qed.

Lemma config_repoint_accepted :
  constraints_ok
    (mkDB its pols (repoint_by_type t (cc_driver_family p) (cc_name p) dss)
          (cfgs ++ [cfg]) rules) = true.
Proof.
  apply constraints_ok_iff. apply constraints_repoint.
  apply constraints_ok_iff, config_insert_accepted.
Qed.

Lemma config_repoint_selected :
  map (fun r =>
         if existsb (fun o => datasource_id o =? datasource_id r)
              (filter (fun d => (ds_tenant_id d =? t)%string
                                && (datasource_type d =? cc_driver_family p)%string)
                      dss)
         then with_connection_key (cc_name p) r else r) dss
  = repoint_by_type t (cc_driver_family p) (cc_name p) dss.
Proof.
  apply set_connection_keys_selected.
  apply store_ok_iff in Hok. destruct Hok as [[] _ _ _ _]. assumption.
Qed.

Lemma config_create_outcomes (k : option nat) :
  request k (DatasourceConfigService.create t p) st =
  match k with
  | Some 0%nat | Some 1%nat =>
      (mkStore (mkDB its pols dss cfgs rules)
               (match k with Some 0%nat => sq | _ =>
                  mkSeqs (seq_intent sq) (seq_datasource sq) (seq_config sq + 1)
                         (seq_rule sq) end),
       inl OperationalError)
  | Some 2%nat | Some 3%nat | Some 4%nat =>
      (mkStore (mkDB its pols dss (cfgs ++ [cfg]) rules)
               (mkSeqs (seq_intent sq) (seq_datasource sq) (seq_config sq + 1)
                       (seq_rule sq)),
       inl OperationalError)
  | _ =>
      (mkStore (mkDB its pols
                     (repoint_by_type t (cc_driver_family p) (cc_name p) dss)
                     (cfgs ++ [cfg]) rules)
               (mkSeqs (seq_intent sq) (seq_datasource sq) (seq_config sq + 1)
                       (seq_rule sq)),
       inr cfg)
  end.
Proof.
  pose proof config_insert_accepted as H1.
  pose proof config_repoint_accepted as H2.
  pose proof config_repoint_selected as H3.
  unfold DatasourceConfigService.create, DatasourceConfigRepository.create,
    DatasourceConfigRepository.get_by_name.
  destruct k as [[|[|[|[|[|k]]]]]|];
    repeat (exec; rewrite ?Hfree, ?H3, ?H1, ?H2);
    reflexivity.
Qed.

End ConfigCreate.

(** C1.  A config creation in tenant [t] that passed the name check, with
    text the storage takes, succeeds and leaves every datasource of tenant
    [t] whose [datasource_type] is the payload's [driver_family] with
    [connection_key] equal to the new config's name and every other column as
    it was, whether the datasource is active or not; the datasources of other
    tenants (and of other types) are left as they were.  Whatever the outcome
    of the creation, also when the storage fails on the way, no datasource of
    another tenant is changed. *)
Theorem config_create_repoints_matching_datasources :
  forall (st : Store) (t : string) (p : DatasourceConfigCreate),
    store_ok st = true ->
    text_ok t = true ->
    DatasourceConfigCreate_storable p = true ->
    int4_ok (seq_config (sequences st)) = true ->
    snd (run (DatasourceConfigRepository.get_by_name t (cc_name p)) st) = inr None ->
    (exists st' cfg,
        run (DatasourceConfigService.create t p) st = (st', inr cfg) /\
        dc_name cfg = cc_name p /\
        dc_tenant_id cfg = t /\
        In cfg (datasource_configs (tables st')) /\
        Forall2 (repointed t (cc_driver_family p) (cc_name p))
                (datasources (tables st)) (datasources (tables st'))) /\
    (forall k,
        Forall2 (fun d d' => ds_tenant_id d <> t -> d' = d)
                (datasources (tables st))
                (datasources
                   (tables (fst (request k (DatasourceConfigService.create t p) st))))).
Proof.
  intros [[its pols dss cfgs rules] sq] t p Hok _ _ _ Hget.
  unfold DatasourceConfigRepository.get_by_name in Hget. exec in Hget.
  injection Hget as Hfree.
  split.
  - unfold run.
    rewrite (config_create_outcomes its pols dss cfgs rules sq t p Hok Hfree None).
    do 2 eexists. split; [reflexivity|]. cbn.
    repeat split.
    + apply in_or_app. right. now left.
    + apply repointed_by_type.
  - intros k.
    rewrite (config_create_outcomes its pols dss cfgs rules sq t p Hok Hfree k).
    assert (Hsame : forall l : list Datasource,
               Forall2 (fun d d' : Datasource => ds_tenant_id d <> t -> d' = d) l l)
      by (induction l; constructor; auto).
    assert (Hrep : Forall2 (fun d d' : Datasource => ds_tenant_id d <> t -> d' = d)
                           dss (repoint_by_type t (cc_driver_family p) (cc_name p) dss)).
    { apply Forall2_map_self. intros d _ Hne.
      apply String.eqb_neq in Hne. now rewrite Hne. }
    destruct k as [[|[|[|[|[|k]]]]]|]; cbn; auto.
Qed.

Lemma config_create_repoints_witness :
  exists st' cfg,
    run (DatasourceConfigService.create "t1" ExampleCreate.pg) ExampleCreate.store1
    = (st', inr cfg) /\
    dc_name cfg = "PG" /\
    dc_tenant_id cfg = "t1" /\
    In cfg (datasource_configs (tables st')) /\
    Forall2 (repointed "t1" "postgres" "PG")
            (datasources (tables ExampleCreate.store1)) (datasources (tables st')).
Proof.
  apply (proj1 (config_create_repoints_matching_datasources
                  ExampleCreate.store1 "t1" ExampleCreate.pg
                  eq_refl eq_refl eq_refl eq_refl eq_refl)).
Defined.

(** C2 (amended).  A config creation commits twice: the repository commits
    the config row, then the service commits the repointing.  The round trips
    of a creation are: 0 the name check, 1 the commit of the config row, 2 its
    refresh, 3 the query for the matching datasources, 4 the commit of the
    repointing.  When the storage fails at round trip 0 or 1 nothing is
    persisted; when it fails at 2, 3 or 4 the config row is durably committed
    and no datasource is repointed; otherwise both are committed. *)
Theorem config_create_commits_twice :
  forall (st : Store) (t : string) (p : DatasourceConfigCreate) (k : option nat),
    store_ok st = true ->
    snd (run (DatasourceConfigRepository.get_by_name t (cc_name p)) st) = inr None ->
    let cfg := DatasourceConfigRepository.new_config t p (seq_config (sequences st)) in
    let inserted :=
      set_datasource_configs (datasource_configs (tables st) ++ [cfg]) (tables st) in
    let out := request k (DatasourceConfigService.create t p) st in
    match k with
    | Some 0%nat | Some 1%nat =>
        tables (fst out) = tables st /\ snd out = inl OperationalError
    | Some 2%nat | Some 3%nat | Some 4%nat =>
        tables (fst out) = inserted /\ snd out = inl OperationalError
    | _ =>
        tables (fst out) =
          set_datasources
            (repoint_by_type t (cc_driver_family p) (cc_name p)
                             (datasources (tables st)))
            inserted /\
        snd out = inr cfg
    end.
Proof.
  intros [[its pols dss cfgs rules] sq] t p k Hok Hget.
  unfold DatasourceConfigRepository.get_by_name in Hget. exec in Hget.
  injection Hget as Hfree.
  cbv zeta.
  rewrite (config_create_outcomes its pols dss cfgs rules sq t p Hok Hfree k).
  destruct k as [[|[|[|[|[|k]]]]]|]; split; reflexivity.
Qed.

Lemma config_create_commits_twice_witness :
  let out := request (Some 4%nat) (DatasourceConfigService.create "t1" ExampleCreate.pg)
                     ExampleCreate.store1 in
  tables (fst out) =
    set_datasource_configs
      [DatasourceConfigRepository.new_config "t1" ExampleCreate.pg 1]
      (tables ExampleCreate.store1) /\
  snd out = inl OperationalError.
Proof.
  apply (config_create_commits_twice ExampleCreate.store1 "t1" ExampleCreate.pg (Some 4%nat));
    reflexivity.
Defined.

(** C2 as stated fails: the commit of the repointing fails, the config row
    stays committed and the datasource of its tenant and type is not
    repointed. *)
Lemma config_create_not_one_unit_of_work :
  let out := request (Some 4%nat) (DatasourceConfigService.create "t1" ExampleCreate.pg)
                     ExampleCreate.store1 in
  snd out = inl OperationalError /\
  In (DatasourceConfigRepository.new_config "t1" ExampleCreate.pg 1)
     (datasource_configs (tables (fst out))) /\
  In ExampleCreate.crm (datasources (tables (fst out))) /\
  ds_tenant_id ExampleCreate.crm = "t1" /\
  datasource_type ExampleCreate.crm = cc_driver_family ExampleCreate.pg /\
  connection_key ExampleCreate.crm <> cc_name ExampleCreate.pg.
Proof.
  cbv zeta. repeat split.
  - vm_compute. now left.
  - vm_compute. now left.
  - discriminate.
Qed.

Lemma constraints_keep_datasource_keys_in its pols dss cfgs rules
  (h : Datasource -> Datasource) :
  (forall d, In d dss -> datasource_id (h d) = datasource_id d) ->
  (forall d, In d dss -> ds_tenant_id (h d) = ds_tenant_id d) ->
  (forall d, In d dss -> ds_name (h d) = ds_name d) ->
  Constraints (mkDB its pols dss cfgs rules) ->
  Constraints (mkDB its pols (map h dss) cfgs rules).
Proof.
  intros Hid Ht Hn [].
  assert (E1 : map datasource_id (map h dss) = map datasource_id dss).
  { rewrite map_map. apply map_ext_in. auto. }
  assert (E2 : map datasource_uq (map h dss) = map datasource_uq dss).
  { rewrite map_map. apply map_ext_in. intros d Hd. unfold datasource_uq.
    now rewrite Ht, Hn. }
  assert (E3 : map datasource_tid (map h dss) = map datasource_tid dss).
  { rewrite map_map. apply map_ext_in. intros d Hd. unfold datasource_tid.
    now rewrite Ht, Hid. }
  cbn in *. constructor; cbn; rewrite ?E1, ?E2, ?E3; auto.
Qed.

Lemma find_app_skip {A} (f : A -> bool) (l1 l2 : list A) :
  (forall r, In r l1 -> f r = false) -> find f (l1 ++ l2) = find f l2.
Proof.
  induction l1 as [|x r IH]; simpl; intros H; [reflexivity|].
  rewrite (H x (or_introl eq_refl)). apply IH. auto.
Qed.

(** A lookup by primary key after the row was written. *)
Lemma find_written {A} (pk : A -> Z) (f : A -> bool) (l : list A) (o o' : A) :
  NoDup (map pk l) -> In o l ->
  (forall r, f r = true -> pk r = pk o) ->
  find f (map (fun r => if pk r =? pk o then o' else r) l)
  = if f o' then Some o' else None.
Proof.
  intros Hnd Hin Hf.
  destruct (write_row pk l o o' Hnd Hin) as [l1 [l2 [_ [-> Hother]]]].
  assert (Hskip : forall l0, (forall r, In r l0 -> pk r <> pk o) ->
                             forall r, In r l0 -> f r = false).
  { intros l0 H0 r Hr. destruct (f r) eqn:E; [|reflexivity].
    exfalso. apply (H0 r Hr). auto. }
  rewrite find_app_skip by (apply Hskip; auto). simpl.
  destruct (f o'); [reflexivity|].
  apply find_none_all. apply Hskip. auto.
Qed.

Lemma constraints_add_rule its pols dss cfgs rules (r : ValidationRule) :
  Constraints (mkDB its pols dss cfgs rules) ->
  ~ In (rule_id r) (map rule_id rules) ->
  ~ In (rule_uq r) (map rule_uq rules) ->
  In (rule_intent_fk r) (map intent_tid its) ->
  In (rule_datasource_fk r) (map datasource_tid dss) ->
  Constraints (mkDB its pols dss cfgs (rules ++ [r])).
Proof.
  intros [] Hid Huq Hi Hd. cbn in *.
  constructor; cbn; auto; rewrite map_app.
  - apply NoDup_snoc; auto.
  - apply NoDup_snoc; auto.
  - apply incl_app; auto. intros x [<-|[]]. assumption.
  - apply incl_app; auto. intros x [<-|[]]. assumption.
Qed.

Tactic Notation "setattrs" :=
  cbn [Datasource_setattrs DatasourceConfig_setattrs Intent_setattrs
       IntentPolicy_setattrs ValidationRule_setattrs obind assign assign_nullable
       DatasourceUpdate_is_active DatasourceConfigUpdate_name truthy differs
       du_name du_datasource_type du_connection_key du_description du_tenant_id
       du_is_active cu_name cu_protocol cu_driver_family cu_base_url cu_auth_type
       cu_auth_config cu_connection_json cu_metadata_ref cu_is_active
       cu_router_base_url cu_tenant_id andb negb].




(** ** Updating a datasource *)

Lemma NoDup_insert {K} (l1 l2 : list K) (a : K) :
  NoDup (l1 ++ l2) -> ~ In a (l1 ++ l2) -> NoDup (l1 ++ a :: l2).
Proof.
  induction l1 as [|x r IH]; simpl; intros Hnd Ha.
  - now constructor.
  - inversion Hnd as [|? ? Hx Hr]; subst. constructor.
    + intro Hin. apply in_app_or in Hin. destruct Hin as [Hin|[->|Hin]].
      * apply Hx, in_or_app. now left.
      * apply Ha. now left.
      * apply Hx, in_or_app. now right.
    + apply IH; auto.
Qed.

(** A lookup that pins the primary key finds the row that has it. *)
Lemma find_by_pk {A} (pk : A -> Z) (f : A -> bool) (l : list A) (o : A) :
  NoDup (map pk l) -> In o l -> f o = true ->
  (forall r, f r = true -> pk r = pk o) ->
  find f l = Some o.
Proof.
  intros Hnd Hin Ho Hf.
  destruct (find f l) as [r|] eqn:E.
  - apply find_some in E. destruct E as [Hr Hfr].
    f_equal. eapply (unique_row pk); eauto.
  - apply (find_none _ _ E) in Hin. congruence.
Qed.

Lemma constraints_rename_config its pols dss cfgs rules (c : DatasourceConfig)
  (n : string) :
  Constraints (mkDB its pols dss cfgs rules) ->
  In c cfgs ->
  ~ In (dc_tenant_id c, n) (map config_uq cfgs) ->
  Constraints
    (mkDB its pols dss
          (map (fun r => if config_id r =? config_id c then renamed n c else r) cfgs)
          rules).
Proof.
  intros [] Hin Hfree. cbn in *.
  destruct (write_row config_id cfgs c (renamed n c) configs_pk0 Hin)
    as [l1 [l2 [E [-> _]]]].
  subst cfgs. rewrite !map_app in *. cbn in *.
  constructor; cbn; auto; rewrite !map_app; cbn; auto.
  apply NoDup_insert.
  - eapply NoDup_remove_1; eauto.
  - intro H. apply Hfree. apply in_app_or in H. apply in_or_app.
    destruct H; [now left | right; now right].
Qed.

Lemma collision_refused its pols dss cfgs rules (c c2 : DatasourceConfig)
  (n : string) :
  NoDup (map config_id cfgs) ->
  In c cfgs -> In c2 cfgs -> c2 <> c ->
  config_uq c2 = (dc_tenant_id c, n) ->
  constraints_ok
    (mkDB its pols dss
          (map (fun r => if config_id r =? config_id c then renamed n c else r) cfgs)
          rules) = false.
Proof.
  intros Hpk Hc Hc2 Hne Hkey. apply constraints_ok_false. intros []. cbn in *.
  destruct (write_row config_id cfgs c (renamed n c) Hpk Hc)
    as [l1 [l2 [E [E' _]]]].
  rewrite E' in configs_uq0. rewrite map_app in configs_uq0. cbn in configs_uq0.
  apply NoDup_remove_2 in configs_uq0. apply configs_uq0.
  unfold config_uq at 1. cbn. rewrite <- Hkey, <- map_app.
  apply in_map. subst cfgs. apply in_app_or in Hc2. apply in_or_app.
  destruct Hc2 as [?|[?|?]]; [now left | congruence | now right].
Qed.

Lemma datasource_update_accepted its pols dss cfgs rules sq t id p st1 o :
  run (DatasourceRepository.update t id p) (mkStore (mkDB its pols dss cfgs rules) sq)
  = (st1, inr (Some o)) ->
  exists d,
    find (fun r => (ds_tenant_id r =? t)%string && (datasource_id r =? id)) dss
    = Some d /\
    Datasource_setattrs p d = Some o /\
    constraints_ok
      (mkDB its pols
            (map (fun r => if datasource_id r =? datasource_id d then o else r) dss)
            cfgs rules) = true /\
    st1 = mkStore
            (mkDB its pols
               (map (fun r => if datasource_id r =? datasource_id d then o else r) dss)
               cfgs rules) sq.
Proof.
  unfold DatasourceRepository.update, DatasourceRepository.get_by_id. exec.
  destruct (find _ dss) as [d|] eqn:Hd; exec; [|discriminate].
  destruct (Datasource_setattrs p d) as [o'|] eqn:Hset; exec; [|discriminate].
  destruct (constraints_ok _) eqn:Hc; exec; [|discriminate].
  intros H. inversion H; subst. exists d. repeat split; auto.
Qed.

Lemma config_key (t n : string) (cfgs : list DatasourceConfig) (c : DatasourceConfig) :
  find (fun r => (dc_tenant_id r =? t)%string && (dc_name r =? n)%string) cfgs
  = Some c ->
  In c cfgs /\ dc_tenant_id c = t /\ dc_name c = n.
Proof.
  intros H. apply find_some in H. destruct H as [Hin H].
  apply andb_true_iff in H. destruct H as [Ht Hn].
  apply String.eqb_eq in Ht, Hn. auto.
Qed.

Lemma config_by_id cfgs (c : DatasourceConfig) :
  NoDup (map config_id cfgs) -> In c cfgs ->
  find (fun r => (dc_tenant_id r =? dc_tenant_id c)%string
                 && (config_id r =? config_id c)) cfgs = Some c.
Proof.
  intros Hpk Hin. apply (find_by_pk config_id); auto.
  - now rewrite String.eqb_refl, Z.eqb_refl.
  - intros r Hr. apply andb_true_iff in Hr. destruct Hr as [_ Hr].
    now apply Z.eqb_eq in Hr.
Qed.

Section DatasourceKeyChange.

Variables (its : list Intent) (pols : list IntentPolicy) (dss : list Datasource)
          (cfgs : list DatasourceConfig) (rules : list ValidationRule) (sq : Seqs).
Variables (t : string) (id : Z) (p : DatasourceUpdate).
Variables (d o : Datasource) (knew : string) (st1 : Store).

Local Abbreviation st := (mkStore (mkDB its pols dss cfgs rules) sq).

Hypothesis Hok : store_ok st = true.
Hypothesis Hd :
  find (fun r => (ds_tenant_id r =? t)%string && (datasource_id r =? id)) dss
  = Some d.
Hypothesis Hkey : du_connection_key p = Val knew.
Hypothesis Hnonempty : knew <> "".
Hypothesis Hchanged : knew <> connection_key d.
Hypothesis Haccepted :
  run (DatasourceRepository.update t id p) st = (st1, inr (Some o)).

Local Abbreviation dss1 :=
  (map (fun r => if datasource_id r =? datasource_id d then o else r) dss).

Lemma key_change_row :
  Datasource_setattrs p d = Some o /\
  constraints_ok (mkDB its pols dss1 cfgs rules) = true /\
  st1 = mkStore (mkDB its pols dss1 cfgs rules) sq.
Proof.
  destruct (datasource_update_accepted _ _ _ _ _ _ _ _ _ _ _ Haccepted)
    as [d' [Hd' H]].
  rewrite Hd in Hd'. injection Hd' as <-. exact H.
Qed.

Lemma key_change_triggers :
  truthy (du_connection_key p)
  && differs (du_connection_key p) (connection_key d) = true.
Proof.
  rewrite Hkey. cbn. apply String.eqb_neq in Hnonempty, Hchanged.
  now rewrite Hnonempty, Hchanged.
Qed.

Lemma key_change_without_config :
  find (fun r => (dc_tenant_id r =? t)%string
                 && (dc_name r =? connection_key d)%string) cfgs = None ->
  run (DatasourceService.update t id p) st = (st1, inr o).
Proof.
  intros Hnone. destruct key_change_row as [Hset [Hc ->]].
  pose proof key_change_triggers as Htrig.
  unfold DatasourceService.update, DatasourceRepository.update,
    DatasourceRepository.get_by_id, DatasourceConfigRepository.get_by_name.
  exec. rewrite Hd. exec. rewrite Hd. rewrite Hset. exec.
  rewrite Hc. exec. rewrite Htrig. exec. rewrite Hnone. reflexivity.
Qed.

Lemma key_change_with_config (c : DatasourceConfig) :
  find (fun r => (dc_tenant_id r =? t)%string
                 && (dc_name r =? connection_key d)%string) cfgs = Some c ->
  run (DatasourceService.update t id p) st =
  let cfgs' :=
    map (fun r => if config_id r =? config_id c then renamed knew c else r) cfgs in
  if constraints_ok (mkDB its pols dss1 cfgs' rules)
  then (mkStore (mkDB its pols dss1 cfgs' rules) sq, inr o)
  else (st1, inl IntegrityError).
Proof.
  intros Hsome. destruct key_change_row as [Hset [Hc ->]].
  pose proof key_change_triggers as Htrig.
  destruct (config_key _ _ _ _ Hsome) as [Hin [Ht Hn]].
  assert (Hbyid : find (fun r => (dc_tenant_id r =? t)%string
                                 && (config_id r =? config_id c)) cfgs = Some c).
  { rewrite <- Ht. apply config_by_id; auto.
    apply store_ok_iff in Hok. destruct Hok as [[] _ _ _ _]. assumption. }
  unfold DatasourceService.update, DatasourceRepository.update,
    DatasourceRepository.get_by_id, DatasourceConfigRepository.get_by_name,
    DatasourceConfigRepository.update, DatasourceConfigRepository.get_by_id.
  exec. rewrite Hd. exec. rewrite Hd. rewrite Hset. exec.
  rewrite Hc. exec. rewrite Htrig. exec. rewrite Hsome. exec. rewrite Hkey.
  exec. rewrite Hbyid. setattrs. exec. fold (renamed knew c).
  cbv zeta.
  destruct (constraints_ok (mkDB its pols dss1 (map (fun r => if config_id r =? config_id c then renamed knew c else r) cfgs) rules)); reflexivity.
Qed.

End DatasourceKeyChange.

(** C4 (amended).  A datasource update whose payload carries a non-empty
    [connection_key] different from the stored one, and whose row the storage
    accepts, looks up the config of the tenant named after the old key: when
    there is none, no config is changed; when there is one, the new key has
    at most 255 characters (the cap of a config name) and no config of the
    tenant bears the new key as its name, that config is renamed to the new
    key and every other config is left as it was. *)
Theorem datasource_key_change_renames_config :
  forall (st : Store) (t : string) (id : Z) (p : DatasourceUpdate)
         (d : Datasource) (knew : string) (st1 : Store) (o : Datasource),
    store_ok st = true ->
    text_ok t = true ->
    DatasourceUpdate_storable p = true ->
    snd (run (DatasourceRepository.get_by_id t id) st) = inr (Some d) ->
    du_connection_key p = Val knew ->
    knew <> "" ->
    knew <> connection_key d ->
    run (DatasourceRepository.update t id p) st = (st1, inr (Some o)) ->
    (snd (run (DatasourceConfigRepository.get_by_name t (connection_key d)) st)
     = inr None ->
     run (DatasourceService.update t id p) st = (st1, inr o) /\
     datasource_configs (tables st1) = datasource_configs (tables st)) /\
    (forall c,
        snd (run (DatasourceConfigRepository.get_by_name t (connection_key d)) st)
        = inr (Some c) ->
        (String.length knew <= 255)%nat ->
        snd (run (DatasourceConfigRepository.get_by_name t knew) st) = inr None ->
        exists st',
          run (DatasourceService.update t id p) st = (st', inr o) /\
          Forall2 (fun r r' => (r = c -> r' = renamed knew c) /\ (r <> c -> r' = r))
                  (datasource_configs (tables st))
                  (datasource_configs (tables st')) /\
          datasources (tables st') = datasources (tables st1)).
Proof.
  intros [[its pols dss cfgs rules] sq] t id p d knew st1 o
         Hok _ _ Hd Hkey Hne Hch Hacc.
  unfold DatasourceRepository.get_by_id in Hd. exec in Hd. injection Hd as Hd.
  destruct (key_change_row _ _ _ _ _ _ _ _ _ _ _ _ Hd Hacc) as [Hset [Hc1 Est1]].
  split.
  - intros Hnone. unfold DatasourceConfigRepository.get_by_name in Hnone.
    exec in Hnone. injection Hnone as Hnone. split.
    + eapply key_change_without_config; eauto.
    + subst st1. reflexivity.
  - intros c Hsome _ Hfree.
    unfold DatasourceConfigRepository.get_by_name in Hsome, Hfree.
    exec in Hsome. exec in Hfree.
    injection Hsome as Hsome. injection Hfree as Hfree.
    rewrite (key_change_with_config its pols dss cfgs rules sq t id p d o knew st1
               Hok Hd Hkey Hne Hch Hacc c Hsome).
    cbv zeta.
    destruct (config_key _ _ _ _ Hsome) as [Hin [Ht Hn]].
    pose proof Hok as Hok'. apply store_ok_iff in Hok'.
    destruct Hok' as [Hcons _ _ _ _]. cbn in Hcons.
    pose proof Hcons as [? ? ? ? ? ? Hpk ? ? ? ? ?]. cbn in *.
    apply constraints_ok_iff in Hc1.
    rewrite (proj2 (constraints_ok_iff _)).
    + eexists. split; [reflexivity|]. subst st1. cbn. split; [|reflexivity].
      apply Forall2_map_self. intros r Hr.
      destruct (config_id r =? config_id c) eqn:E.
      * apply Z.eqb_eq in E.
        rewrite (unique_row config_id cfgs r c Hpk Hr Hin E). tauto.
      * apply Z.eqb_neq in E. split; [intros ->; congruence | reflexivity].
    + apply constraints_rename_config; auto.
      rewrite Ht. now apply config_name_free.
Qed.

Lemma datasource_key_change_renames_config_witness :
  exists st',
    run (DatasourceService.update "t1" 1 (DatasourceUpdate_connection_key "K5"))
        ExampleKeys.store1
    = (st', inr (mkDatasource 1 "crm" "postgres" "K5" None "t1" true)) /\
    Forall2 (fun r r' => (r = ExampleKeys.k0 -> r' = renamed "K5" ExampleKeys.k0)
                         /\ (r <> ExampleKeys.k0 -> r' = r))
            [ExampleKeys.k0; ExampleKeys.k9] (datasource_configs (tables st')) /\
    datasources (tables st') = [mkDatasource 1 "crm" "postgres" "K5" None "t1" true].
Proof.
  apply (proj2 (datasource_key_change_renames_config
                  ExampleKeys.store1 "t1" 1 (DatasourceUpdate_connection_key "K5")
                  ExampleKeys.crm "K5"
                  (fst (run (DatasourceRepository.update "t1" 1
                               (DatasourceUpdate_connection_key "K5"))
                            ExampleKeys.store1))
                  (mkDatasource 1 "crm" "postgres" "K5" None "t1" true)
                  eq_refl eq_refl eq_refl eq_refl eq_refl
                  ltac:(discriminate) ltac:(discriminate) eq_refl)
               ExampleKeys.k0 eq_refl ltac:(cbn; lia) eq_refl).
Defined.

(** C4 as stated fails: the config named after the old key exists, and it is
    not renamed, because a config of the tenant already has the new name. *)
Lemma datasource_key_change_collision :
  let p := DatasourceUpdate_connection_key "K9" in
  let out := run (DatasourceService.update "t1" 1 p) ExampleKeys.store1 in
  snd (run (DatasourceRepository.get_by_id "t1" 1) ExampleKeys.store1)
  = inr (Some ExampleKeys.crm) /\
  connection_key ExampleKeys.crm = "K0" /\
  du_connection_key p = Val "K9" /\
  snd (run (DatasourceConfigRepository.get_by_name "t1" "K0") ExampleKeys.store1)
  = inr (Some ExampleKeys.k0) /\
  snd out = inl IntegrityError /\
  datasource_configs (tables (fst out)) = [ExampleKeys.k0; ExampleKeys.k9] /\
  ~ In (renamed "K9" ExampleKeys.k0) (datasource_configs (tables (fst out))).
Proof.
  cbv zeta. repeat split; try reflexivity.
  vm_compute. intros [H|[H|[]]]; discriminate.
Qed.

(** ** Updating a config *)

Lemma config_update_accepted its pols dss cfgs rules sq t id p st1 o :
  run (DatasourceConfigRepository.update t id p)
      (mkStore (mkDB its pols dss cfgs rules) sq)
  = (st1, inr (Some o)) ->
  exists e,
    find (fun r => (dc_tenant_id r =? t)%string && (config_id r =? id)) cfgs
    = Some e /\
    DatasourceConfig_setattrs p e = Some o /\
    constraints_ok
      (mkDB its pols dss
            (map (fun r => if config_id r =? config_id e then o else r) cfgs)
            rules) = true /\
    st1 = mkStore
            (mkDB its pols dss
               (map (fun r => if config_id r =? config_id e then o else r) cfgs)
               rules) sq.
Proof.
  unfold DatasourceConfigRepository.update, DatasourceConfigRepository.get_by_id.
  exec.
  destruct (find _ cfgs) as [e|] eqn:He; exec; [|discriminate].
  destruct (DatasourceConfig_setattrs p e) as [o'|] eqn:Hset; exec; [|discriminate].
  destruct (constraints_ok _) eqn:Hc; exec; [|discriminate].
  intros H. inversion H; subst. exists e. repeat split; auto.
Qed.

Lemma setattrs_name p e o b :
  DatasourceConfig_setattrs p e = Some o -> cu_name p = Val b -> dc_name o = b.
Proof.
  unfold DatasourceConfig_setattrs. intros H Hn. rewrite Hn in H. cbn in H.
  destruct (assign (cu_tenant_id p) (dc_tenant_id e)); [|discriminate].
  destruct (assign (cu_protocol p) (protocol e)); [|discriminate].
  destruct (assign (cu_driver_family p) (driver_family e)); [|discriminate].
  destruct (assign (cu_is_active p) (dc_is_active e)); [|discriminate].
  cbn in H. injection H as <-. reflexivity.
Qed.

(** C5 (amended).  A config update that renames the config from [a] to [b],
    passed the name check and whose row the storage accepts, leaves every
    datasource of the tenant whose key was [a] with [connection_key] equal to
    [b] and every other column as it was; a datasource with another key is
    left as it was unless the same update also changes [driver_family] to the
    datasource's [datasource_type] (in the same tenant), in which case its
    key is [b] too; datasources of other tenants are left as they were. *)
Theorem config_rename_repoints_datasources :
  forall (st : Store) (t : string) (id : Z) (p : DatasourceConfigUpdate)
         (e : DatasourceConfig) (a b : string) (st1 : Store) (o : DatasourceConfig),
    store_ok st = true ->
    text_ok t = true ->
    DatasourceConfigUpdate_storable p = true ->
    snd (run (DatasourceConfigRepository.get_by_id t id) st) = inr (Some e) ->
    dc_name e = a ->
    cu_name p = Val b ->
    b <> "" ->
    b <> a ->
    snd (run (DatasourceConfigRepository.get_by_name t b) st) = inr None ->
    run (DatasourceConfigRepository.update t id p) st = (st1, inr (Some o)) ->
    exists st',
      run (DatasourceConfigService.update t id p) st = (st', inr o) /\
      dc_name o = b /\
      datasource_configs (tables st') = datasource_configs (tables st1) /\
      Forall2
        (fun d d' =>
           (ds_tenant_id d = t -> connection_key d = a -> key_set_to b d d') /\
           (selected_by_driver_family t p (driver_family e) d = true ->
            key_set_to b d d') /\
           (connection_key d <> a ->
            selected_by_driver_family t p (driver_family e) d = false -> d' = d) /\
           (ds_tenant_id d <> t -> d' = d))
        (datasources (tables st)) (datasources (tables st')).
Proof.
  intros [[its pols dss cfgs rules] sq] t id p e a b st1 o
         Hok _ _ He Ha Hname Hne Hch Hfree Hacc.
  unfold DatasourceConfigRepository.get_by_id in He. exec in He. injection He as He.
  unfold DatasourceConfigRepository.get_by_name in Hfree. exec in Hfree.
  injection Hfree as Hfree.
  destruct (config_update_accepted _ _ _ _ _ _ _ _ _ _ _ Hacc) as [e' [He' H]].
  rewrite He in He'. injection He' as <-. destruct H as [Hset [Hc1 Est1]].
  set (cfgs1 := map (fun r => if config_id r =? config_id e then o else r) cfgs) in *.
  pose proof (setattrs_name _ _ _ _ Hset Hname) as Hob.
  apply store_ok_iff in Hok. destruct Hok as [Hcons _ _ _ _]. cbn in Hcons.
  pose proof Hcons as [? ? ? ? Hpk ? ? ? ? ? ? ?]. cbn in *.
  assert (Htrig : truthy (cu_name p) && differs (cu_name p) (dc_name e) = true).
  { rewrite Hname, Ha. cbn. apply String.eqb_neq in Hne, Hch.
    now rewrite Hne, Hch. }
  set (P1 := fun d => (ds_tenant_id d =? t)%string && (connection_key d =? dc_name e)%string).
  set (g1 := fun r => if P1 r then with_connection_key b r else r).
  assert (Hc2 : constraints_ok (mkDB its pols (map g1 dss) cfgs1 rules) = true).
  { apply constraints_ok_iff, constraints_repoint. now apply constraints_ok_iff. }
  assert (Hpk1 : NoDup (map datasource_id (map g1 dss))).
  { rewrite map_map.
    rewrite (map_ext (fun x => datasource_id (g1 x)) datasource_id); auto.
    intros d. unfold g1. now destruct (P1 d). }
  unfold DatasourceConfigService.update, DatasourceConfigRepository.update,
    DatasourceConfigRepository.get_by_id, DatasourceConfigRepository.get_by_name.
  exec. rewrite He. exec. rewrite Htrig. rewrite Hname. exec. rewrite Hfree.
  exec. rewrite He. rewrite Hset. exec. fold cfgs1. rewrite Hc1. exec.
  fold P1. rewrite (set_connection_keys_selected P1 b dss Hpk). fold g1.
  rewrite Hc2. exec.
  destruct (truthy (cu_driver_family p)
            && differs (cu_driver_family p) (driver_family e)) eqn:Hdrv.
  - destruct (cu_driver_family p) as [| |df] eqn:Hdf; try discriminate.
    exec. rewrite Hob.
    set (P2 := fun d => (ds_tenant_id d =? t)%string && (datasource_type d =? df)%string).
    rewrite (set_connection_keys_selected P2 b (map g1 dss) Hpk1).
    set (g2 := fun r => if P2 r then with_connection_key b r else r).
    rewrite (proj2 (constraints_ok_iff (mkDB its pols (map g2 (map g1 dss)) cfgs1 rules))).
    2:{ apply constraints_repoint. now apply constraints_ok_iff. }
    exec. eexists. split; [reflexivity|]. cbn.
    split; [auto|]. split; [subst st1; reflexivity|].
    rewrite map_map. apply Forall2_map_self. intros d _.
    unfold selected_by_driver_family, key_set_to. rewrite Hdf, Hdrv. cbn [andb].
    unfold g2, g1, P2, P1. rewrite Ha.
    destruct (ds_tenant_id d =? t)%string eqn:Et;
      destruct (connection_key d =? a)%string eqn:Ek;
      destruct (datasource_type d =? df)%string eqn:Ety;
      cbn; rewrite ?Et, ?Ety; cbn;
      rewrite ?String.eqb_eq, ?String.eqb_neq in *;
      repeat split; intros; try congruence; try reflexivity.
  - exec. eexists. split; [reflexivity|]. cbn.
    split; [auto|]. split; [subst st1; reflexivity|].
    apply Forall2_map_self. intros d _.
    unfold selected_by_driver_family, key_set_to. rewrite Hdrv. cbn [andb].
    unfold g1, P1. rewrite Ha.
    destruct (ds_tenant_id d =? t)%string eqn:Et;
      destruct (connection_key d =? a)%string eqn:Ek;
      cbn;
      rewrite ?String.eqb_eq, ?String.eqb_neq in *;
      repeat split; intros; try congruence; try reflexivity.
Qed.

Lemma config_rename_repoints_datasources_witness :
  exists st',
    run (DatasourceConfigService.update "t1" 1 ExampleRename.rename) ExampleRename.store1
    = (st', inr (renamed "B" ExampleRename.a)) /\
    dc_name (renamed "B" ExampleRename.a) = "B" /\
    datasource_configs (tables st')
    = datasource_configs
        (tables (fst (run (DatasourceConfigRepository.update "t1" 1 ExampleRename.rename)
                          ExampleRename.store1))) /\
    Forall2
      (fun d d' =>
         (ds_tenant_id d = "t1" -> connection_key d = "A" -> key_set_to "B" d d') /\
         (selected_by_driver_family "t1" ExampleRename.rename
                                    (driver_family ExampleRename.a) d = true ->
          key_set_to "B" d d') /\
         (connection_key d <> "A" ->
          selected_by_driver_family "t1" ExampleRename.rename
                                    (driver_family ExampleRename.a) d = false ->
          d' = d) /\
         (ds_tenant_id d <> "t1" -> d' = d))
      (datasources (tables ExampleRename.store1)) (datasources (tables st')).
Proof.
  apply (config_rename_repoints_datasources
           ExampleRename.store1 "t1" 1 ExampleRename.rename ExampleRename.a "A" "B"
           (fst (run (DatasourceConfigRepository.update "t1" 1 ExampleRename.rename)
                     ExampleRename.store1))
           (renamed "B" ExampleRename.a)
           eq_refl eq_refl eq_refl eq_refl eq_refl eq_refl
           ltac:(discriminate) ltac:(discriminate) eq_refl eq_refl).
Defined.

(** C5 as stated fails: the update renames the config from A to B and also
    sets its driver family; a datasource whose key was C, not A, is repointed
    to B because its type is the new driver family. *)
Lemma config_rename_also_repoints_by_type :
  let out := run (DatasourceConfigService.update "t1" 1 ExampleRename.rename_and_retype)
                 ExampleRename.store1 in
  snd (run (DatasourceConfigRepository.get_by_id "t1" 1) ExampleRename.store1)
  = inr (Some ExampleRename.a) /\
  dc_name ExampleRename.a = "A" /\
  (exists o, snd out = inr o /\ dc_name o = "B") /\
  In ExampleRename.files (datasources (tables ExampleRename.store1)) /\
  ds_tenant_id ExampleRename.files = "t1" /\
  connection_key ExampleRename.files = "C" /\
  ~ In ExampleRename.files (datasources (tables (fst out))) /\
  In (mkDatasource 2 "files" "s3" "B" None "t1" true)
     (datasources (tables (fst out))).
Proof.
  cbv zeta. repeat split; try reflexivity.
  - eexists. split; reflexivity.
  - vm_compute. tauto.
  - vm_compute. intros [H|[H|[H|[]]]]; discriminate.
  - vm_compute. tauto.
Qed.

(** C6.  A config deletion never changes the datasources table, whatever
    its outcome; the deletion of an existing config succeeds, removes that
    config row and no other, and leaves every other table as it was, so every
    [connection_key] is unchanged even when it names the deleted config. *)
Theorem config_delete_keeps_connection_keys :
  forall (st : Store) (t : string) (id : Z),
    (forall k,
        datasources (tables (fst (request k (DatasourceConfigService.delete t id) st)))
        = datasources (tables st)) /\
    (forall c,
        store_ok st = true ->
        snd (run (DatasourceConfigRepository.get_by_id t id) st) = inr (Some c) ->
        exists st',
          run (DatasourceConfigService.delete t id) st = (st', inr tt) /\
          datasources (tables st') = datasources (tables st) /\
          (forall r, In r (datasource_configs (tables st')) <->
                     In r (datasource_configs (tables st)) /\ r <> c) /\
          intents (tables st') = intents (tables st) /\
          intent_policies (tables st') = intent_policies (tables st) /\
          validation_rules (tables st') = validation_rules (tables st)).
Proof.
  intros st t id. destruct st as [[its pols dss cfgs rules] sq]. split.
  - intros k.
    unfold DatasourceConfigService.delete, DatasourceConfigRepository.delete,
      DatasourceConfigRepository.get_by_id.
    crunch; reflexivity.
  - intros c Hok Hget.
    apply store_ok_iff in Hok. destruct Hok as [Hc _ _ _ _].
    destruct Hc as [? ? ? ? ? ? Hpk Huq ? ? ? ?]. cbn in *.
    unfold DatasourceConfigRepository.get_by_id in Hget.
    exec in Hget. injection Hget as Hfind.
    assert (Hcons : constraints_ok
              (mkDB its pols dss
                 (filter (fun r => negb (config_id r =? config_id c)) cfgs) rules)
              = true).
    { apply constraints_ok_iff. constructor; cbn; auto using NoDup_map_filter. }
    unfold DatasourceConfigService.delete, DatasourceConfigRepository.delete,
      DatasourceConfigRepository.get_by_id.
    exec. rewrite Hfind. exec. rewrite Hfind. exec. rewrite Hcons. exec.
    eexists. split; [reflexivity|]. cbn.
    split; [reflexivity|]. split; [|auto].
    intros r. rewrite filter_In, negb_true_iff, Z.eqb_neq.
    apply find_some in Hfind. destruct Hfind as [Hcin _].
    split; intros [Hr Hne]; (split; [assumption|]).
    + intros ->. auto.
    + intro E. apply Hne. eapply (unique_row config_id); eauto.
Qed.

Lemma config_delete_keeps_connection_keys_witness :
  exists st',
    run (DatasourceConfigService.delete "t1" 1) ExampleKeys.store1 = (st', inr tt) /\
    datasources (tables st') = [ExampleKeys.crm] /\
    (forall r, In r (datasource_configs (tables st')) <->
               In r [ExampleKeys.k0; ExampleKeys.k9] /\ r <> ExampleKeys.k0) /\
    intents (tables st') = [] /\
    intent_policies (tables st') = [] /\
    validation_rules (tables st') = [].
Proof.
  apply (proj2 (config_delete_keeps_connection_keys ExampleKeys.store1 "t1" 1)
               ExampleKeys.k0); reflexivity.
Defined.

(** ** The next execution order *)

Lemma insert_desc_hd (x : Z) (l : list Z) :
  hd_error (insert_desc x l)
  = Some (match hd_error l with
          | None => x
          | Some y => if y <=? x then x else y
          end).
Proof. destruct l as [|y r]; simpl; [reflexivity|]. now destruct (y <=? x). Qed.

Lemma order_by_desc_hd (l : list Z) :
  match hd_error (order_by_desc l) with
  | None => l = []
  | Some m => In m l /\ forall x, In x l -> x <= m
  end.
Proof.
  induction l as [|a r IH]; simpl; [reflexivity|].
  rewrite insert_desc_hd.
  destruct (hd_error (order_by_desc r)) as [m|].
  - destruct IH as [Hm Hle]. destruct (m <=? a) eqn:E.
    + apply Z.leb_le in E. split; [now left|].
      intros x [<-|Hx]; [lia|]. specialize (Hle x Hx). lia.
    + apply Z.leb_gt in E. split; [now right|].
      intros x [<-|Hx]; [lia|]. auto.
  - subst r. split; [now left|]. intros x [<-|[]]. lia.
Qed.



(** ** Creating an intent with its policies *)

Lemma NoDup_map_injective {A B} (f : A -> B) (l : list A) :
  (forall a b, f a = f b -> a = b) -> NoDup l -> NoDup (map f l).
Proof.
  intros Hinj Hl. induction Hl as [|x r Hx Hr IH]; simpl; constructor; auto.
  intro Hin. apply in_map_iff in Hin. destruct Hin as [y [E Hy]].
  apply Hinj in E. subst. contradiction.
Qed.

Lemma add_policies_run (t : string) (id : Z) (pcs : list IntentPolicyCreate)
  d its pols dss cfgs rules sq f :
  IntentRepository.add_policies t id pcs
    (mkSession d (mkDB its pols dss cfgs rules) sq f)
  = (mkSession d
       (mkDB its (pols ++ map (IntentRepository.new_policy t id) pcs) dss cfgs rules)
       sq f,
     inr tt).
Proof.
  revert pols. induction pcs as [|pc r IH]; intros pols; simpl.
  - now rewrite app_nil_r.
  - exec. rewrite IH. rewrite <- app_assoc. reflexivity.
Qed.

Lemma intent_code_free (t c : string) (its : list Intent) :
  find (fun i => (it_tenant_id i =? t)%string && (intent_code i =? c)%string) its
  = None ->
  ~ In (t, c) (map intent_uq its).
Proof.
  intros Hf Hin. apply in_map_iff in Hin. destruct Hin as [i [E Hi]].
  apply (find_none _ _ Hf) in Hi. unfold intent_uq in E. inversion E; subst.
  rewrite !String.eqb_refl in Hi. discriminate.
Qed.

Section IntentCreate.

Variables (its : list Intent) (pols : list IntentPolicy) (dss : list Datasource)
          (cfgs : list DatasourceConfig) (rules : list ValidationRule) (sq : Seqs).
Variables (t : string) (p : IntentCreate).

Local Abbreviation st := (mkStore (mkDB its pols dss cfgs rules) sq).
Local Abbreviation obj := (IntentRepository.new_intent t p (seq_intent sq)).
Local Abbreviation rows :=
  (map (IntentRepository.new_policy t (seq_intent sq)) (ic_policies p)).

Hypothesis Hok : store_ok st = true.
Hypothesis Hfree :
  find (fun i => (it_tenant_id i =? t)%string
                 && (intent_code i =? ic_intent_code p)%string) its = None.

Lemma intent_insert_constraints :
  Constraints (mkDB (its ++ [obj]) pols dss cfgs rules).
Proof.
  apply store_ok_iff in Hok. destruct Hok as [[] Hits _ _ _]. cbn in *.
  constructor; cbn; auto; rewrite ?map_app.
  - apply NoDup_snoc; auto. now apply fresh_key.
  - apply NoDup_snoc; auto. now apply intent_code_free.
  - now apply incl_appl.
  - now apply incl_appl.
Qed.

Lemma intent_insert_accepted :
  constraints_ok (mkDB (its ++ [obj]) pols dss cfgs rules) = true.
Proof. apply constraints_ok_iff, intent_insert_constraints. Qed.

Lemma policy_rows_keys :
  map policy_pk rows
  = map (fun lang => (t, seq_intent sq, lang))
        (map pc_language_code (ic_policies p)).
Proof. rewrite !map_map. reflexivity. Qed.

Lemma policies_accepted :
  NoDup (map pc_language_code (ic_policies p)) ->
  constraints_ok (mkDB (its ++ [obj]) (pols ++ rows) dss cfgs rules) = true.
Proof.
  intros Hlangs. apply constraints_ok_iff.
  pose proof intent_insert_constraints as [].
  apply store_ok_iff in Hok. destruct Hok as [[] Hits _ _ _]. cbn in *.
  constructor; cbn; auto; rewrite ?map_app in *.
  - apply NoDup_app; auto.
    + rewrite policy_rows_keys. apply NoDup_map_injective; auto.
      intros a b E. now inversion E.
    + intros k Hold Hnew. rewrite policy_rows_keys in Hnew.
      apply in_map_iff in Hnew. destruct Hnew as [lang [<- _]].
      apply in_map_iff in Hold. destruct Hold as [q [E Hq]].
      assert (Hfk : In (policy_fk q) (map intent_tid its)).
      { apply policies_fk1. now apply in_map. }
      apply in_map_iff in Hfk. destruct Hfk as [i [Ei Hi]].
      rewrite Forall_forall in Hits.
      specialize (Hits (intent_id i) (in_map _ _ _ Hi)).
      unfold policy_pk in E. unfold policy_fk, intent_tid in Ei.
      inversion E. inversion Ei. lia.
  - apply incl_app; [now apply incl_appl|].
    apply incl_appr. intros k Hk. rewrite map_map in Hk.
    apply in_map_iff in Hk. destruct Hk as [pc [<- _]]. now left.
Qed.

Lemma policies_refused :
  ~ NoDup (map pc_language_code (ic_policies p)) ->
  constraints_ok (mkDB (its ++ [obj]) (pols ++ rows) dss cfgs rules) = false.
Proof.
  intros Hlangs. apply constraints_ok_false. intros []. cbn in *.
  apply Hlangs. rewrite map_app in *.
  apply NoDup_app_remove_l in policies_pk0.
  rewrite policy_rows_keys in policies_pk0.
  now apply NoDup_map_inv in policies_pk0.
Qed.

Lemma intent_create_outcomes (k : option nat) :
  let out := request k (IntentService.create t p) st in
  let created := mkDB (its ++ [obj]) (pols ++ rows) dss cfgs rules in
  (tables (fst out) = tables st \/ tables (fst out) = created) /\
  (forall i, snd out = inr i -> i = obj /\ tables (fst out) = created) /\
  (snd out = inl IntegrityError -> tables (fst out) = tables st) /\
  (k = None -> NoDup (map pc_language_code (ic_policies p)) ->
   snd out = inr obj) /\
  (~ NoDup (map pc_language_code (ic_policies p)) ->
   tables (fst out) = tables st /\ exists e, snd out = inl e).
Proof.
  pose proof intent_insert_accepted as H1.
  pose proof policies_accepted as H2.
  pose proof policies_refused as H3.
  unfold IntentService.create, IntentRepository.create,
    IntentRepository.get_by_code.
  cbv zeta.
  destruct k as [[|[|[|[|k]]]]|];
    repeat (exec; rewrite ?Hfree, ?add_policies_run, ?H1);
    cbn [IntentRepository.new_intent intent_id];
    try (destruct (constraints_ok (mkDB (its ++ [obj]) (pols ++ rows) dss cfgs rules))
           eqn:Hc);
    exec;
    repeat match goal with |- _ /\ _ => split end;
    try (intros Hl; discriminate (H3 Hl));
    try (intros Hk Hl; discriminate (H2 Hl));
    first
      [ left; reflexivity
      | right; reflexivity
      | intros i Hi; discriminate
      | intros i Hi; injection Hi as <-; split; reflexivity
      | intros Hi; reflexivity
      | intros Hi; discriminate
      | intros Hk Hl; discriminate
      | intros Hk Hl; reflexivity
      | intros Hl; split; [reflexivity | eexists; reflexivity] ].
Qed.

End IntentCreate.

(** C8.  An intent creation that passed the code check is all or nothing,
    also when the storage fails at some round trip: afterwards either no
    table has changed, or the intent row and one policy row per payload
    policy, each carrying the id the intent got at its flush, are all
    committed.  A successful return means the latter; an [IntegrityError],
    which a refused policy insert raises at the commit, means the former; a
    creation whose policies have pairwise different languages succeeds when
    the storage is reachable, and one with a repeated language persists
    nothing. *)
Theorem intent_create_is_atomic :
  forall (st : Store) (t : string) (p : IntentCreate) (k : option nat),
    store_ok st = true ->
    snd (run (IntentRepository.get_by_code t (ic_intent_code p)) st) = inr None ->
    let obj := IntentRepository.new_intent t p (seq_intent (sequences st)) in
    let rows := map (IntentRepository.new_policy t (intent_id obj)) (ic_policies p) in
    let created :=
      set_intent_policies (intent_policies (tables st) ++ rows)
        (set_intents (intents (tables st) ++ [obj]) (tables st)) in
    let out := request k (IntentService.create t p) st in
    (tables (fst out) = tables st \/ tables (fst out) = created) /\
    (forall i, snd out = inr i -> i = obj /\ tables (fst out) = created) /\
    (snd out = inl IntegrityError -> tables (fst out) = tables st) /\
    (k = None -> NoDup (map pc_language_code (ic_policies p)) ->
     snd out = inr obj) /\
    (~ NoDup (map pc_language_code (ic_policies p)) ->
     tables (fst out) = tables st /\ exists e, snd out = inl e).
Proof.
  intros [[its pols dss cfgs rules] sq] t p k Hok Hget.
  unfold IntentRepository.get_by_code in Hget. exec in Hget.
  injection Hget as Hfree.
  exact (intent_create_outcomes its pols dss cfgs rules sq t p Hok Hfree k).
Qed.

Lemma intent_create_is_atomic_witness :
  let p := ExamplePolicies.complaint [ExamplePolicies.english; ExamplePolicies.french] in
  let out := run (IntentService.create "t1" p) ExampleTenants.store1 in
  snd out = inr (IntentRepository.new_intent "t1" p 3) /\
  intent_policies (tables (fst out))
  = [ExampleTenants.refund_en;
     IntentRepository.new_policy "t1" 3 ExamplePolicies.english;
     IntentRepository.new_policy "t1" 3 ExamplePolicies.french].
Proof.
  cbv zeta.
  destruct (intent_create_is_atomic
              ExampleTenants.store1 "t1"
              (ExamplePolicies.complaint [ExamplePolicies.english; ExamplePolicies.french]) None
              eq_refl eq_refl) as [_ [Hdone [_ [Hok _]]]].
  assert (Hlangs : NoDup (map pc_language_code [ExamplePolicies.english; ExamplePolicies.french])).
  { repeat constructor; cbn; intuition discriminate. }
  specialize (Hok eq_refl Hlangs).
  split; [exact Hok|].
  destruct (Hdone _ Hok) as [_ Htables].
  unfold run. rewrite Htables. reflexivity.
Defined.

(** ** Updates that carry a tenant_id *)

Ltac inv_step :=
  match goal with
  | |- context [match find ?f ?l with _ => _ end] => destruct (find f l) eqn:?
  | |- context [if constraints_ok ?x then _ else _] =>
      destruct (constraints_ok x) eqn:?
  | |- context [match Datasource_setattrs ?p ?d with _ => _ end] =>
      destruct (Datasource_setattrs p d) eqn:?
  | |- context [match DatasourceConfig_setattrs ?p ?d with _ => _ end] =>
      destruct (DatasourceConfig_setattrs p d) eqn:?
  | |- context [match Intent_setattrs ?p ?d with _ => _ end] =>
      destruct (Intent_setattrs p d) eqn:?
  | |- context [match IntentPolicy_setattrs ?p ?d with _ => _ end] =>
      destruct (IntentPolicy_setattrs p d) eqn:?
  | |- context [match ValidationRule_setattrs ?p ?d with _ => _ end] =>
      destruct (ValidationRule_setattrs p d) eqn:?
  | |- context [if truthy ?a && differs ?a ?b then _ else _] =>
      destruct (truthy a && differs a b) eqn:?
  | |- context [match du_connection_key ?p with _ => _ end] =>
      destruct (du_connection_key p) eqn:?
  | |- context [match cu_name ?p with _ => _ end] => destruct (cu_name p) eqn:?
  | |- context [match cu_driver_family ?p with _ => _ end] =>
      destruct (cu_driver_family p) eqn:?
  | |- context [match ru_datasource_id ?p with _ => _ end] =>
      destruct (ru_datasource_id p) eqn:?
  | |- context [match ru_intent_id ?p with _ => _ end] =>
      destruct (ru_intent_id p) eqn:?
  | |- context [match ru_execution_order ?p with _ => _ end] =>
      destruct (ru_execution_order p) eqn:?
  | |- context [match ru_severity ?p with _ => _ end] =>
      destruct (ru_severity p) eqn:?
  | |- context [if negb (ds_is_active ?d) then _ else _] =>
      destruct (ds_is_active d) eqn:?; cbn [negb]
  | |- context [if ?a <? 1 then _ else _] => destruct (a <? 1) eqn:?
  | |- context [if negb (severity_allowed ?s) then _ else _] =>
      destruct (severity_allowed s) eqn:?; cbn [negb]
  end.

Ltac inv_run := exec; repeat (inv_step; exec).

Ltac same_rows :=
  repeat match goal with
         | H : Some _ = Some _ |- _ => injection H as H; subst
         | H : Some _ = None |- _ => discriminate H
         | H : None = Some _ |- _ => discriminate H
         end.

Lemma datasource_service_update_success its pols dss cfgs rules sq t id p st' o :
  run (DatasourceService.update t id p) (mkStore (mkDB its pols dss cfgs rules) sq)
  = (st', inr o) ->
  exists d,
    find (fun r => (ds_tenant_id r =? t)%string && (datasource_id r =? id)) dss
    = Some d /\
    Datasource_setattrs p d = Some o /\
    datasources (tables st')
    = map (fun r => if datasource_id r =? datasource_id d then o else r) dss.
Proof.
  unfold DatasourceService.update, DatasourceRepository.update,
    DatasourceRepository.get_by_id, DatasourceConfigRepository.get_by_name,
    DatasourceConfigRepository.update, DatasourceConfigRepository.get_by_id.
  inv_run; intros H; try discriminate; inversion H; subst; same_rows; cbn;
    eexists; repeat split; eauto.
Qed.

Lemma config_service_update_success its pols dss cfgs rules sq t id p st' o :
  run (DatasourceConfigService.update t id p)
      (mkStore (mkDB its pols dss cfgs rules) sq)
  = (st', inr o) ->
  exists e,
    find (fun r => (dc_tenant_id r =? t)%string && (config_id r =? id)) cfgs
    = Some e /\
    DatasourceConfig_setattrs p e = Some o /\
    datasource_configs (tables st')
    = map (fun r => if config_id r =? config_id e then o else r) cfgs.
Proof.
  unfold DatasourceConfigService.update, DatasourceConfigRepository.update,
    DatasourceConfigRepository.get_by_id, DatasourceConfigRepository.get_by_name.
  inv_run; intros H; try discriminate; inversion H; subst; same_rows; cbn;
    eexists; repeat split; eauto.
Qed.

Lemma intent_service_update_success its pols dss cfgs rules sq t id p st' o :
  run (IntentService.update t id p) (mkStore (mkDB its pols dss cfgs rules) sq)
  = (st', inr o) ->
  exists e,
    find (fun r => (it_tenant_id r =? t)%string && (intent_id r =? id)) its
    = Some e /\
    Intent_setattrs p e = Some o /\
    intents (tables st')
    = map (fun r => if intent_id r =? intent_id e then o else r) its.
Proof.
  unfold IntentService.update, IntentRepository.update, IntentRepository.get_by_id.
  inv_run; intros H; try discriminate; inversion H; subst; same_rows; cbn;
    eexists; repeat split; eauto.
Qed.

Lemma datasource_setattrs_tenant p d o t' :
  Datasource_setattrs p d = Some o -> du_tenant_id p = Val t' ->
  ds_tenant_id o = t' /\ datasource_id o = datasource_id d.
Proof.
  unfold Datasource_setattrs. intros H Ht. rewrite Ht in H.
  destruct (assign (du_name p) (ds_name d)); [|discriminate].
  destruct (assign (du_datasource_type p) (datasource_type d)); [|discriminate].
  destruct (assign (du_connection_key p) (connection_key d)); [|discriminate].
  cbn in H.
  destruct (assign (du_is_active p) (ds_is_active d)); [|discriminate].
  cbn in H. injection H as <-. auto.
Qed.

Lemma config_setattrs_tenant p e o t' :
  DatasourceConfig_setattrs p e = Some o -> cu_tenant_id p = Val t' ->
  dc_tenant_id o = t' /\ config_id o = config_id e.
Proof.
  unfold DatasourceConfig_setattrs. intros H Ht. rewrite Ht in H.
  destruct (assign (cu_name p) (dc_name e)); [|discriminate].
  cbn in H.
  destruct (assign (cu_protocol p) (protocol e)); [|discriminate].
  destruct (assign (cu_driver_family p) (driver_family e)); [|discriminate].
  destruct (assign (cu_is_active p) (dc_is_active e)); [|discriminate].
  cbn in H. injection H as <-. auto.
Qed.

Lemma intent_setattrs_tenant p e o t' :
  Intent_setattrs p e = Some o -> iu_tenant_id p = Val t' ->
  it_tenant_id o = t' /\ intent_id o = intent_id e.
Proof.
  unfold Intent_setattrs. intros H Ht. rewrite Ht in H.
  destruct (assign (iu_intent_code p) (intent_code e)); [|discriminate].
  cbn in H.
  destruct (assign (iu_display_name p) (display_name e)); [|discriminate].
  destruct (assign (iu_is_active p) (it_is_active e)); [|discriminate].
  cbn in H. injection H as <-. auto.
Qed.

Lemma policy_setattrs_tenant p e o t' :
  IntentPolicy_setattrs p e = Some o -> pu_tenant_id p = Val t' ->
  ip_tenant_id o = t' /\ ip_intent_id o = ip_intent_id e.
Proof.
  unfold IntentPolicy_setattrs. intros H Ht. rewrite Ht in H.
  destruct (assign (pu_language_code p) (ip_language_code e)); [|discriminate].
  cbn in H.
  destruct (assign (pu_auto_process_min_conf p) (auto_process_min_conf e));
    [|discriminate].
  destruct (assign (pu_manual_review_min_conf p) (manual_review_min_conf e));
    [|discriminate].
  destruct (assign (pu_multi_intent_mode p) (multi_intent_mode e)); [|discriminate].
  destruct (assign (pu_allow_multi_auto p) (allow_multi_auto e)); [|discriminate].
  destruct (assign (pu_allow_subset_auto p) (allow_subset_auto e)); [|discriminate].
  cbn in H. injection H as <-. auto.
Qed.

Lemma rule_setattrs_tenant p r o t' :
  ValidationRule_setattrs p r = Some o -> ru_tenant_id p = Val t' ->
  vr_tenant_id o = t' /\
  match ru_intent_id p with
  | Val i => vr_intent_id o = i
  | Unset => vr_intent_id o = vr_intent_id r
  | Null => False
  end.
Proof.
  unfold ValidationRule_setattrs. intros H Ht. rewrite Ht in H.
  destruct (ru_intent_id p); cbn in H; try discriminate;
    (destruct (assign (ru_language_code p) (vr_language_code r)); [|discriminate]);
    cbn in H;
    (destruct (assign (ru_rule_code p) (rule_code r)); [|discriminate]);
    (destruct (assign (ru_rule_name p) (rule_name r)); [|discriminate]);
    (destruct (assign (ru_rule_description p) (rule_description r)); [|discriminate]);
    (destruct (assign (ru_datasource_id p) (vr_datasource_id r)); [|discriminate]);
    (destruct (assign (ru_execution_order p) (execution_order r)); [|discriminate]);
    (destruct (assign (ru_severity p) (severity r)); [|discriminate]);
    (destruct (assign (ru_is_active p) (vr_is_active r)); [|discriminate]);
    cbn in H; injection H as <-; auto.
Qed.

(** An intent key [(t', i)] cannot be present when the intent [i] is of [t]. *)
Lemma intent_of_other_tenant its (i0 : Intent) (t' : string) :
  NoDup (map intent_id its) -> In i0 its -> t' <> it_tenant_id i0 ->
  ~ In (t', intent_id i0) (map intent_tid its).
Proof.
  intros Hpk Hin Hne H. apply in_map_iff in H. destruct H as [i1 [E Hi1]].
  unfold intent_tid in E. inversion E as [[Et Ei]].
  assert (i1 = i0) by (eapply (unique_row intent_id); eauto).
  subst. congruence.
Qed.

Lemma policy_move_refused its pols dss cfgs rules (pol o : IntentPolicy)
  (t' : string) :
  Constraints (mkDB its pols dss cfgs rules) ->
  In pol pols ->
  ip_tenant_id o = t' -> ip_intent_id o = ip_intent_id pol ->
  t' <> ip_tenant_id pol ->
  constraints_ok
    (mkDB its
          (map (fun r => if tis_eqb (policy_pk r) (policy_pk pol) then o else r) pols)
          dss cfgs rules) = false.
Proof.
  intros Hc Hin Ht Hi Hne. apply constraints_ok_false. intros Hc'.
  destruct Hc as [Hpk _ _ Hfk _ _ _ _ _ _ _ _].
  destruct Hc' as [_ _ _ Hfk' _ _ _ _ _ _ _ _]. cbn in *.
  assert (Hpar : In (policy_fk pol) (map intent_tid its)).
  { apply Hfk. now apply in_map. }
  apply in_map_iff in Hpar. destruct Hpar as [i0 [E Hi0]].
  unfold intent_tid, policy_fk in E. inversion E as [[Et Ei]].
  apply (intent_of_other_tenant its i0 t' Hpk Hi0); [congruence|].
  rewrite Ei, <- Hi, <- Ht. apply Hfk'.
  change (ip_tenant_id o, ip_intent_id o) with (policy_fk o).
  apply in_map. apply in_map_iff. exists pol. split; [|assumption].
  assert (Hrefl : tis_eqb (policy_pk pol) (policy_pk pol) = true)
    by now apply tis_eqb_spec.
  now rewrite Hrefl.
Qed.

Lemma rule_move_refused its pols dss cfgs rules (t t' : string) (id : Z)
  (p : ValidationRuleUpdate) (r o : ValidationRule) :
  Constraints (mkDB its pols dss cfgs rules) ->
  t' <> t ->
  ru_tenant_id p = Val t' ->
  find (fun x => (vr_tenant_id x =? t)%string && (rule_id x =? id)) rules = Some r ->
  ValidationRule_setattrs p r = Some o ->
  (forall iid, ru_intent_id p = Val iid ->
     exists i, find (fun i => (it_tenant_id i =? t)%string && (intent_id i =? iid)) its
               = Some i) ->
  constraints_ok
    (mkDB its pols dss cfgs
          (map (fun x => if rule_id x =? rule_id r then o else x) rules)) = false.
Proof.
  intros Hc Hne Hten Hr Hset Hint. apply constraints_ok_false. intros Hc'.
  destruct Hc as [Hpk _ _ _ _ _ _ _ _ _ Hfk _].
  destruct Hc' as [_ _ _ _ _ _ _ _ _ _ Hfk' _]. cbn in *.
  apply find_some in Hr. destruct Hr as [Hrin Hrkey].
  apply andb_true_iff in Hrkey. destruct Hrkey as [Hrt _].
  apply String.eqb_eq in Hrt.
  destruct (rule_setattrs_tenant _ _ _ _ Hset Hten) as [Hot Hoi].
  assert (Hparent : exists i0, In i0 its /\ it_tenant_id i0 = t
                               /\ intent_id i0 = vr_intent_id o).
  { destruct (ru_intent_id p) as [| |iid] eqn:Ei; [| destruct Hoi |].
    - assert (Hpar : In (rule_intent_fk r) (map intent_tid its)).
      { apply Hfk. now apply in_map. }
      apply in_map_iff in Hpar. destruct Hpar as [i0 [E Hi0]].
      unfold intent_tid, rule_intent_fk in E. inversion E.
      exists i0. repeat split; congruence.
    - destruct (Hint iid eq_refl) as [i0 Hi0].
      apply find_some in Hi0. destruct Hi0 as [Hi0 Hk].
      apply andb_true_iff in Hk. destruct Hk as [Hk1 Hk2].
      apply String.eqb_eq in Hk1. apply Z.eqb_eq in Hk2.
      exists i0. repeat split; congruence. }
  destruct Hparent as [i0 [Hi0 [Hit Hii]]].
  apply (intent_of_other_tenant its i0 t' Hpk Hi0); [congruence|].
  rewrite Hii, <- Hot. apply Hfk'.
  change (vr_tenant_id o, vr_intent_id o) with (rule_intent_fk o).
  apply in_map. apply in_map_iff. exists r. split; [|assumption].
  now rewrite Z.eqb_refl.
Qed.

(** C9 (amended).  For a datasource, a config and an intent, an update whose
    payload carries a [tenant_id] other than the current one and that
    succeeds has overwritten the stored [tenant_id]: a get under the original
    tenant then raises [ResourceNotFoundError] and a get under the new tenant
    returns the row.  For an intent policy and a validation rule the update
    never succeeds: the composite foreign key to the intent, which stays in
    the original tenant, makes the storage refuse the commit, and the store
    is left as it was. *)
Theorem tenant_id_update_moves_or_is_refused :
  forall (st : Store) (t t' : string),
    store_ok st = true ->
    t' <> t ->
    (forall id p st' o,
        du_tenant_id p = Val t' ->
        run (DatasourceService.update t id p) st = (st', inr o) ->
        ds_tenant_id o = t' /\
        snd (run (DatasourceService.get t id) st')
        = inl (ResourceNotFoundError "Datasource not found") /\
        snd (run (DatasourceService.get t' id) st') = inr o) /\
    (forall id p st' o,
        cu_tenant_id p = Val t' ->
        run (DatasourceConfigService.update t id p) st = (st', inr o) ->
        dc_tenant_id o = t' /\
        snd (run (DatasourceConfigService.get t id) st')
        = inl (ResourceNotFoundError
                 ("Datasource config with id '" ++ str_of_int id ++ "' not found")) /\
        snd (run (DatasourceConfigService.get t' id) st') = inr o) /\
    (forall id p st' o,
        iu_tenant_id p = Val t' ->
        run (IntentService.update t id p) st = (st', inr o) ->
        it_tenant_id o = t' /\
        snd (run (IntentService.get t id) st')
        = inl (ResourceNotFoundError "Intent not found") /\
        snd (run (IntentService.get t' id) st') = inr o) /\
    (forall id lang p pol,
        pu_tenant_id p = Val t' ->
        snd (run (IntentPolicyService.get t id lang) st) = inr pol ->
        run (IntentPolicyService.update t id lang p) st = (st, inl IntegrityError)) /\
    (forall id p r,
        ru_tenant_id p = Val t' ->
        snd (run (ValidationRuleService.get t id) st) = inr r ->
        exists e, run (ValidationRuleService.update t id p) st = (st, inl e)).
Proof.
  intros [[its pols dss cfgs rules] sq] t t' Hok Hne.
  apply store_ok_iff in Hok. destruct Hok as [Hcons _ _ _ _]. cbn in Hcons.
  pose proof Hcons as [Hipk ? ? ? Hdpk ? Hcpk ? ? ? ? ?]. cbn in *.
  assert (Hne' : (t' =? t)%string = false) by now apply String.eqb_neq.
  split; [|split; [|split; [|split]]].
  - intros id p st' o Hp Hrun.
    destruct (datasource_service_update_success _ _ _ _ _ _ _ _ _ _ _ Hrun)
      as [d [Hd [Hset Hdss]]].
    destruct (datasource_setattrs_tenant _ _ _ _ Hset Hp) as [Hot Hoid].
    destruct (find_some _ _ Hd) as [Hdin Hdkey].
    apply andb_true_iff in Hdkey. destruct Hdkey as [_ Hdid].
    apply Z.eqb_eq in Hdid.
    split; [assumption|].
    destruct st' as [[its' pols' dss' cfgs' rules'] sq']. cbn in Hdss. subst dss'.
    unfold DatasourceService.get, DatasourceRepository.get_by_id. exec.
    rewrite !(find_written datasource_id) by
      (auto; intros r Hr; apply andb_true_iff in Hr; destruct Hr as [_ Hr];
       apply Z.eqb_eq in Hr; congruence).
    rewrite Hot, Hoid, Hdid, Hne', String.eqb_refl, Z.eqb_refl. cbn.
    split; reflexivity.
  - intros id p st' o Hp Hrun.
    destruct (config_service_update_success _ _ _ _ _ _ _ _ _ _ _ Hrun)
      as [e [He [Hset Hcfgs]]].
    destruct (config_setattrs_tenant _ _ _ _ Hset Hp) as [Hot Hoid].
    destruct (find_some _ _ He) as [Hein Hekey].
    apply andb_true_iff in Hekey. destruct Hekey as [_ Heid].
    apply Z.eqb_eq in Heid.
    split; [assumption|].
    destruct st' as [[its' pols' dss' cfgs' rules'] sq']. cbn in Hcfgs. subst cfgs'.
    unfold DatasourceConfigService.get, DatasourceConfigRepository.get_by_id. exec.
    rewrite !(find_written config_id) by
      (auto; intros r Hr; apply andb_true_iff in Hr; destruct Hr as [_ Hr];
       apply Z.eqb_eq in Hr; congruence).
    rewrite Hot, Hoid, Heid, Hne', String.eqb_refl, Z.eqb_refl. cbn.
    split; reflexivity.
  - intros id p st' o Hp Hrun.
    destruct (intent_service_update_success _ _ _ _ _ _ _ _ _ _ _ Hrun)
      as [e [He [Hset Hits]]].
    destruct (intent_setattrs_tenant _ _ _ _ Hset Hp) as [Hot Hoid].
    destruct (find_some _ _ He) as [Hein Hekey].
    apply andb_true_iff in Hekey. destruct Hekey as [_ Heid].
    apply Z.eqb_eq in Heid.
    split; [assumption|].
    destruct st' as [[its' pols' dss' cfgs' rules'] sq']. cbn in Hits. subst its'.
    unfold IntentService.get, IntentRepository.get_by_id. exec.
    rewrite !(find_written intent_id) by
      (auto; intros r Hr; apply andb_true_iff in Hr; destruct Hr as [_ Hr];
       apply Z.eqb_eq in Hr; congruence).
    rewrite Hot, Hoid, Heid, Hne', String.eqb_refl, Z.eqb_refl. cbn.
    split; reflexivity.
  - intros id lang p pol Hp Hget.
    unfold IntentPolicyService.get,
      IntentPolicyRepository.get_by_intent_and_language in Hget.
    exec in Hget.
    destruct (find _ pols) as [pol'|] eqn:Hpol; [|discriminate].
    injection Hget as ->.
    destruct (find_some _ _ Hpol) as [Hin Hkey].
    rewrite !andb_true_iff in Hkey. destruct Hkey as [[Hkt _] _].
    apply String.eqb_eq in Hkt.
    unfold IntentPolicyService.update, IntentPolicyRepository.update,
      IntentPolicyRepository.get_by_intent_and_language.
    exec. rewrite Hpol.
    destruct (IntentPolicy_setattrs p pol) as [o|] eqn:Hset; exec; [|reflexivity].
    destruct (policy_setattrs_tenant _ _ _ _ Hset Hp) as [Hot Hoi].
    rewrite (policy_move_refused its pols dss cfgs rules pol o t'); auto.
    congruence.
  - intros id p r Hp Hget.
    unfold ValidationRuleService.get, ValidationRuleRepository.get_by_id in Hget.
    exec in Hget.
    destruct (find _ rules) as [r'|] eqn:Hr; [|discriminate].
    injection Hget as ->.
    unfold ValidationRuleService.update, ValidationRuleRepository.update,
      ValidationRuleRepository.get_by_id.
    exec. rewrite Hr. inv_run; same_rows;
      try (eexists; reflexivity);
      exfalso;
      match goal with
      | Hc : constraints_ok _ = true,
        Hs : ValidationRule_setattrs p ?x = Some ?o,
        Hf : find _ rules = Some ?x |- _ =>
          rewrite (rule_move_refused its pols dss cfgs rules t t' id p x o
                     Hcons Hne Hp Hf Hs) in Hc; [discriminate|]
      end;
      match goal with
      | H : ru_intent_id p = _ |- _ => intros iid Hiid; rewrite H in Hiid
      end;
      try discriminate; injection Hiid as <-; eauto.
Qed.

Lemma tenant_id_update_witness :
  (let out := run (DatasourceService.update "t1" 2 ExampleTenants.move_datasource)
                  ExampleTenants.store1 in
   snd (run (DatasourceService.get "t1" 2) (fst out))
   = inl (ResourceNotFoundError "Datasource not found") /\
   snd (run (DatasourceService.get "t2" 2) (fst out))
   = inr (mkDatasource 2 "erp" "postgres" "K1" None "t2" true)) /\
  (let out := run (DatasourceConfigService.update "t1" 1 ExampleTenants.move_config)
                  ExampleTenants.store1 in
   snd (run (DatasourceConfigService.get "t1" 1) (fst out))
   = inl (ResourceNotFoundError
            ("Datasource config with id '" ++ str_of_int 1 ++ "' not found"))) /\
  (let out := run (IntentService.update "t1" 2 ExampleTenants.move_intent)
                  ExampleTenants.store1 in
   snd (run (IntentService.get "t1" 2) (fst out))
   = inl (ResourceNotFoundError "Intent not found")) /\
  run (IntentPolicyService.update "t1" 1 "en" ExampleTenants.move_policy) ExampleTenants.store1
  = (ExampleTenants.store1, inl IntegrityError) /\
  exists e,
    run (ValidationRuleService.update "t1" 1 ExampleTenants.move_rule) ExampleTenants.store1
    = (ExampleTenants.store1, inl e).
Proof.
  destruct (tenant_id_update_moves_or_is_refused
              ExampleTenants.store1 "t1" "t2" eq_refl ltac:(discriminate))
    as [Hd [Hc [Hi [Hp Hr]]]].
  split; [|split; [|split; [|split]]].
  - cbv zeta.
    destruct (Hd 2 ExampleTenants.move_datasource
                 (fst (run (DatasourceService.update "t1" 2 ExampleTenants.move_datasource)
                           ExampleTenants.store1))
                 (mkDatasource 2 "erp" "postgres" "K1" None "t2" true)
                 eq_refl eq_refl) as [_ H].
    exact H.
  - cbv zeta.
    destruct (Hc 1 ExampleTenants.move_config
                 (fst (run (DatasourceConfigService.update "t1" 1 ExampleTenants.move_config)
                           ExampleTenants.store1))
                 (mkDatasourceConfig 1 "K0" "t2" "sql" "postgres" None None None
                                     None None true None)
                 eq_refl eq_refl) as [_ [H _]].
    exact H.
  - cbv zeta.
    destruct (Hi 2 ExampleTenants.move_intent
                 (fst (run (IntentService.update "t1" 2 ExampleTenants.move_intent)
                           ExampleTenants.store1))
                 (mkIntent 2 "BILLING" "t2" "Billing" None None true)
                 eq_refl eq_refl) as [_ [H _]].
    exact H.
  - exact (Hp 1 "en" ExampleTenants.move_policy ExampleTenants.refund_en eq_refl eq_refl).
  - exact (Hr 1 ExampleTenants.move_rule ExampleTenants.sender eq_refl eq_refl).
Defined.

(** C9 as stated fails for a validation rule: the update that carries a
    tenant_id is refused by the storage, the stored tenant_id stays, and a
    get under the original tenant still returns the rule. *)
Lemma rule_tenant_id_update_is_refused :
  let out := run (ValidationRuleService.update "t1" 1 ExampleTenants.move_rule)
                 ExampleTenants.store1 in
  snd (run (ValidationRuleService.get "t1" 1) ExampleTenants.store1)
  = inr ExampleTenants.sender /\
  ru_tenant_id ExampleTenants.move_rule = Val "t2" /\
  snd out = inl IntegrityError /\
  snd (run (ValidationRuleService.get "t1" 1) (fst out)) = inr ExampleTenants.sender /\
  vr_tenant_id ExampleTenants.sender = "t1" /\
  snd (run (ValidationRuleService.get "t2" 1) (fst out))
  = inl (ResourceNotFoundError
           ("Validation rule with id '" ++ str_of_int 1 ++ "' not found")).
Proof. cbv zeta. repeat split; reflexivity. Qed.

(** C10.  The rename of a config that a datasource update triggers goes
    through the repository without a name check: when another config of the
    tenant already bears the new key as its name, the update of the
    datasource does not raise [ResourceAlreadyExistsError]; the row of the
    datasource is committed with the new key, the rename is sent and refused
    by the storage ([IntegrityError]), and the configs stay as they were.  A
    direct config update to that name on the same store raises
    [ResourceAlreadyExistsError] before any write. *)
Theorem datasource_key_change_has_no_name_check :
  forall (st : Store) (t : string) (id : Z) (p : DatasourceUpdate)
         (d : Datasource) (knew : string) (st1 : Store) (o : Datasource)
         (cold cnew : DatasourceConfig),
    store_ok st = true ->
    snd (run (DatasourceRepository.get_by_id t id) st) = inr (Some d) ->
    du_connection_key p = Val knew ->
    knew <> "" ->
    knew <> connection_key d ->
    run (DatasourceRepository.update t id p) st = (st1, inr (Some o)) ->
    snd (run (DatasourceConfigRepository.get_by_name t (connection_key d)) st)
    = inr (Some cold) ->
    snd (run (DatasourceConfigRepository.get_by_name t knew) st) = inr (Some cnew) ->
    cnew <> cold /\
    run (DatasourceService.update t id p) st = (st1, inl IntegrityError) /\
    connection_key o = knew /\
    datasource_configs (tables st1) = datasource_configs (tables st) /\
    run (DatasourceConfigService.update t (config_id cold)
                                        (DatasourceConfigUpdate_name knew)) st
    = (st, inl (ResourceAlreadyExistsError
                  ("Datasource config with name '" ++ knew ++ "' already exists"))).
Proof.
  intros [[its pols dss cfgs rules] sq] t id p d knew st1 o cold cnew
         Hok Hd Hkey Hne Hch Hacc Hold Hnew.
  unfold DatasourceRepository.get_by_id in Hd. exec in Hd. injection Hd as Hd.
  unfold DatasourceConfigRepository.get_by_name in Hold, Hnew.
  exec in Hold. exec in Hnew. injection Hold as Hold. injection Hnew as Hnew.
  destruct (key_change_row _ _ _ _ _ _ _ _ _ _ _ _ Hd Hacc) as [Hset [Hc1 Est1]].
  destruct (config_key _ _ _ _ Hold) as [Hoin [Hot Hon]].
  destruct (config_key _ _ _ _ Hnew) as [Hnin [Hnt Hnn]].
  pose proof Hok as Hok'. apply store_ok_iff in Hok'.
  destruct Hok' as [Hcons _ _ _ _]. cbn in Hcons.
  pose proof Hcons as [? ? ? ? ? ? Hpk ? ? ? ? ?]. cbn in *.
  assert (Hdistinct : cnew <> cold) by (intros ->; congruence).
  split; [assumption|]. split; [|split; [|split]].
  - rewrite (key_change_with_config its pols dss cfgs rules sq t id p d o knew st1
               Hok Hd Hkey Hne Hch Hacc cold Hold).
    cbv zeta. rewrite (collision_refused _ _ _ _ _ cold cnew knew); auto.
    unfold config_uq. congruence.
  - unfold Datasource_setattrs in Hset. rewrite Hkey in Hset.
    destruct (assign (du_name p) (ds_name d)); [|discriminate].
    destruct (assign (du_datasource_type p) (datasource_type d)); [|discriminate].
    cbn in Hset.
    destruct (assign (du_tenant_id p) (ds_tenant_id d)); [|discriminate].
    destruct (assign (du_is_active p) (ds_is_active d)); [|discriminate].
    cbn in Hset. injection Hset as <-. reflexivity.
  - subst st1. reflexivity.
  - assert (Hbyid : find (fun r => (dc_tenant_id r =? t)%string
                                   && (config_id r =? config_id cold)) cfgs
                    = Some cold).
    { rewrite <- Hot. apply config_by_id; auto. }
    assert (Htrig : truthy (Val knew) && differs (Val knew) (dc_name cold) = true).
    { cbn. rewrite Hon. apply String.eqb_neq in Hne, Hch. now rewrite Hne, Hch. }
    unfold DatasourceConfigService.update, DatasourceConfigRepository.get_by_id,
      DatasourceConfigRepository.get_by_name.
    exec. rewrite Hbyid. exec.
    cbn [cu_name DatasourceConfigUpdate_name]. rewrite Htrig. exec.
    rewrite Hnew. reflexivity.
Qed.

Lemma datasource_key_change_has_no_name_check_witness :
  ExampleKeys.k9 <> ExampleKeys.k0 /\
  run (DatasourceService.update "t1" 1 (DatasourceUpdate_connection_key "K9"))
      ExampleKeys.store1
  = (fst (run (DatasourceRepository.update "t1" 1
                 (DatasourceUpdate_connection_key "K9")) ExampleKeys.store1),
     inl IntegrityError) /\
  connection_key (mkDatasource 1 "crm" "postgres" "K9" None "t1" true) = "K9" /\
  datasource_configs
    (tables (fst (run (DatasourceRepository.update "t1" 1
                         (DatasourceUpdate_connection_key "K9")) ExampleKeys.store1)))
  = datasource_configs (tables ExampleKeys.store1) /\
  run (DatasourceConfigService.update "t1" 1 (DatasourceConfigUpdate_name "K9"))
      ExampleKeys.store1
  = (ExampleKeys.store1,
     inl (ResourceAlreadyExistsError
            ("Datasource config with name '" ++ "K9" ++ "' already exists"))).
Proof.
  apply (datasource_key_change_has_no_name_check
           ExampleKeys.store1 "t1" 1 (DatasourceUpdate_connection_key "K9")
           ExampleKeys.crm "K9"
           (fst (run (DatasourceRepository.update "t1" 1
                        (DatasourceUpdate_connection_key "K9")) ExampleKeys.store1))
           (mkDatasource 1 "crm" "postgres" "K9" None "t1" true)
           ExampleKeys.k0 ExampleKeys.k9
           eq_refl eq_refl eq_refl
           ltac:(discriminate) ltac:(discriminate) eq_refl eq_refl eq_refl).
Defined.

(** * Further properties of the services *)

Tactic Notation "exec'" :=
  cbv beta iota delta
    [add_datasource delete_datasource delete_intent delete_intent_policy
     delete_validation_rule except_not_found];
  exec.

Tactic Notation "exec'" "in" ident(H) :=
  cbv beta iota delta
    [add_datasource delete_datasource delete_intent delete_intent_policy
     delete_validation_rule except_not_found] in H;
  exec in H.

(** ** Creating a datasource *)

Lemma datasource_name_free (t n : string) (dss : list Datasource) :
  find (fun d => (ds_tenant_id d =? t)%string && (ds_name d =? n)%string) dss = None ->
  ~ In (t, n) (map datasource_uq dss).
Proof.
  intros Hf Hin. apply in_map_iff in Hin. destruct Hin as [d [E Hd]].
  apply (find_none _ _ Hf) in Hd. unfold datasource_uq in E. inversion E; subst.
  rewrite !String.eqb_refl in Hd. discriminate.
Qed.

Lemma constraints_add_datasource its pols dss cfgs rules (d : Datasource) :
  Constraints (mkDB its pols dss cfgs rules) ->
  ~ In (datasource_id d) (map datasource_id dss) ->
  ~ In (datasource_uq d) (map datasource_uq dss) ->
  Constraints (mkDB its pols (dss ++ [d]) cfgs rules).
Proof.
  intros [] Hid Huq. cbn in *.
  constructor; cbn; auto; rewrite map_app.
  - apply NoDup_snoc; auto.
  - apply NoDup_snoc; auto.
  - now apply incl_appl.
Qed.

(** A lookup by key finds the row just appended under a fresh key. *)
Lemma find_appended {A} (pk : A -> Z) (f : A -> bool) (l : list A) (o : A) :
  ~ In (pk o) (map pk l) ->
  (forall r, f r = true -> pk r = pk o) ->
  find f (l ++ [o]) = if f o then Some o else None.
Proof.
  intros Hfresh Hf. rewrite find_app_skip; [reflexivity|].
  intros r Hr. destruct (f r) eqn:E; [|reflexivity].
  exfalso. apply Hfresh. rewrite <- (Hf r E). now apply in_map.
Qed.

Lemma find_app_or {A} (f : A -> bool) (l1 l2 : list A) :
  find f (l1 ++ l2)
  = match find f l1 with
    | Some x => Some x
    | None => find f l2
    end.
Proof.
  induction l1 as [|x r IH]; simpl; [reflexivity|].
  destruct (f x); auto.
Qed.



(** ** Deleting rows *)

Lemma incl_map_filter {A K} (key : A -> K) (f : A -> bool) (l : list A) :
  incl (map key (filter f l)) (map key l).
Proof.
  intros k Hk. apply in_map_iff in Hk. destruct Hk as [x [<- Hx]].
  apply filter_In in Hx. apply in_map. tauto.
Qed.

Lemma tid_eqb_false (a b : string * Z) : tid_eqb a b = false <-> a <> b.
Proof.
  split.
  - intros H E. apply tid_eqb_spec in E. congruence.
  - intros H. destruct (tid_eqb a b) eqn:E; [|reflexivity].
    apply tid_eqb_spec in E. contradiction.
Qed.

(** The cascade of a datasource deletion leaves no rule without its
    datasource. *)
Lemma constraints_delete_datasource its pols dss cfgs rules (d : Datasource) :
  Constraints (mkDB its pols dss cfgs rules) ->
  In d dss ->
  Constraints
    (mkDB its pols
          (filter (fun r => negb (datasource_id r =? datasource_id d)) dss)
          cfgs
          (filter (fun r => negb (tid_eqb (rule_datasource_fk r) (datasource_tid d)))
                  rules)).
Proof.
  intros [? ? ? Hpfk Hdpk ? ? ? ? ? Hrifk Hrdfk] Hd. cbn in *.
  constructor; cbn; auto using NoDup_map_filter.
  - eapply incl_tran; [apply incl_map_filter|assumption].
  - intros k Hk. apply in_map_iff in Hk. destruct Hk as [r [<- Hr]].
    apply filter_In in Hr. destruct Hr as [Hr Hne].
    apply negb_true_iff, tid_eqb_false in Hne.
    assert (Hpar : In (rule_datasource_fk r) (map datasource_tid dss)).
    { apply Hrdfk. now apply in_map. }
    apply in_map_iff in Hpar. destruct Hpar as [d' [E Hd']].
    apply in_map_iff. exists d'. split; [assumption|].
    apply filter_In. split; [assumption|].
    apply negb_true_iff, Z.eqb_neq. intro Eid.
    assert (d' = d) by (eapply (unique_row datasource_id); eauto).
    subst. congruence.
Qed.

(** The cascade of an intent deletion leaves no policy and no rule without
    its intent. *)
Lemma constraints_delete_intent its pols dss cfgs rules (i : Intent) :
  Constraints (mkDB its pols dss cfgs rules) ->
  In i its ->
  Constraints
    (mkDB (filter (fun r => negb (intent_id r =? intent_id i)) its)
          (filter (fun r => negb (tid_eqb (policy_fk r) (intent_tid i))) pols)
          dss cfgs
          (filter (fun r => negb (tid_eqb (rule_intent_fk r) (intent_tid i))) rules)).
Proof.
  intros [Hipk ? ? Hpfk ? ? ? ? ? ? Hrifk Hrdfk] Hi. cbn in *.
  assert (Hparent : forall k, k <> intent_tid i -> In k (map intent_tid its) ->
            In k (map intent_tid
                      (filter (fun r => negb (intent_id r =? intent_id i)) its))).
  { intros k Hne Hk. apply in_map_iff in Hk. destruct Hk as [i' [E Hi']].
    apply in_map_iff. exists i'. split; [assumption|].
    apply filter_In. split; [assumption|].
    apply negb_true_iff, Z.eqb_neq. intro Eid.
    assert (i' = i) by (eapply (unique_row intent_id); eauto).
    subst. congruence. }
  constructor; cbn; auto using NoDup_map_filter.
  - intros k Hk. apply in_map_iff in Hk. destruct Hk as [r [<- Hr]].
    apply filter_In in Hr. destruct Hr as [Hr Hne].
    apply negb_true_iff, tid_eqb_false in Hne.
    apply Hparent; auto. apply Hpfk. now apply in_map.
  - intros k Hk. apply in_map_iff in Hk. destruct Hk as [r [<- Hr]].
    apply filter_In in Hr. destruct Hr as [Hr Hne].
    apply negb_true_iff, tid_eqb_false in Hne.
    apply Hparent; auto. apply Hrifk. now apply in_map.
  - eapply incl_tran; [apply incl_map_filter|assumption].
Qed.

Lemma constraints_delete_policy its pols dss cfgs rules (f : IntentPolicy -> bool) :
  Constraints (mkDB its pols dss cfgs rules) ->
  Constraints (mkDB its (filter f pols) dss cfgs rules).
Proof.
  intros []. cbn in *. constructor; cbn; auto using NoDup_map_filter.
  eapply incl_tran; [apply incl_map_filter|assumption].
Qed.

Lemma constraints_delete_rule its pols dss cfgs rules (f : ValidationRule -> bool) :
  Constraints (mkDB its pols dss cfgs rules) ->
  Constraints (mkDB its pols dss cfgs (filter f rules)).
Proof.
  intros []. cbn in *. constructor; cbn; auto using NoDup_map_filter.
  - eapply incl_tran; [apply incl_map_filter|assumption].
  - eapply incl_tran; [apply incl_map_filter|assumption].
Qed.

Lemma filter_all {A} (f : A -> bool) (l : list A) :
  (forall x, In x l -> f x = true) -> filter f l = l.
Proof.
  induction l as [|x r IH]; simpl; intros H; [reflexivity|].
  rewrite (H x (or_introl eq_refl)). f_equal. apply IH. auto.
Qed.

Lemma filter_none {A} (f : A -> bool) (l : list A) :
  filter f l = [] -> forall x, In x l -> f x = false.
Proof.
  intros H x Hx. destruct (f x) eqn:E; [|reflexivity].
  assert (Hin : In x (filter f l)) by (apply filter_In; auto).
  rewrite H in Hin. destruct Hin.
Qed.

(** A lookup by primary key after the row was deleted. *)
Lemma find_deleted {A} (pk : A -> Z) (f : A -> bool) (l : list A) (i : Z) :
  (forall r, f r = true -> pk r = i) ->
  find f (filter (fun r => negb (pk r =? i)) l) = None.
Proof.
  intros Hf. apply find_none_all. intros r Hr.
  apply filter_In in Hr. destruct Hr as [_ Hr].
  apply negb_true_iff, Z.eqb_neq in Hr.
  destruct (f r) eqn:E; [|reflexivity]. exfalso. auto.
Qed.

Lemma datasource_key (t : string) (id : Z) dss (d : Datasource) :
  find (fun r => (ds_tenant_id r =? t)%string && (datasource_id r =? id)) dss
  = Some d ->
  In d dss /\ ds_tenant_id d = t /\ datasource_id d = id.
Proof.
  intros H. apply find_some in H. destruct H as [Hin H].
  apply andb_true_iff in H. destruct H as [Ht Hi].
  apply String.eqb_eq in Ht. apply Z.eqb_eq in Hi. auto.
Qed.

(** X2.  Deleting an existing datasource is guarded by its rules: with at
    least one validation rule referring to it the deletion raises a
    [ValidationException] whose message gives the datasource's name and the
    number of rules, and the store is unchanged; with none, the row and only
    that row leaves the datasources table and a get is NotFound afterwards. *)
Theorem datasource_delete_is_guarded :
  forall (st : Store) (t : string) (id : Z) (d : Datasource),
    store_ok st = true ->
    snd (run (DatasourceRepository.get_by_id t id) st) = inr (Some d) ->
    match rules_of_datasource d (tables st) with
    | [] =>
        exists st',
          run (DatasourceService.delete t id) st = (st', inr tt) /\
          tables st' =
            set_datasources
              (filter (fun r => negb (datasource_id r =? id))
                      (datasources (tables st)))
              (tables st) /\
          (forall r, In r (datasources (tables st')) <->
                     In r (datasources (tables st)) /\ r <> d) /\
          snd (run (DatasourceService.get t id) st')
          = inl (ResourceNotFoundError "Datasource not found")
    | rules =>
        run (DatasourceService.delete t id) st
        = (st, inl (ValidationException
                      ("Cannot delete datasource '" ++ ds_name d ++ "'. "
                       ++ "It is associated with "
                       ++ str_of_int (Z.of_nat (List.length rules))
                       ++ " validation rule(s). "
                       ++ "Please remove the associations first.")))
    end.
Proof.
  intros [[its pols dss cfgs rules] sq] t id d Hok Hget.
  unfold DatasourceRepository.get_by_id in Hget. exec in Hget.
  injection Hget as Hd.
  apply store_ok_iff in Hok. destruct Hok as [Hc _ _ _ _]. cbn in Hc.
  destruct (datasource_key _ _ _ _ Hd) as [Hin [Ht Hid]].
  pose proof Hc as [_ _ _ _ Hpk _ _ _ _ _ _ _]. cbn in Hpk.
  cbn [tables].
  destruct (rules_of_datasource d (mkDB its pols dss cfgs rules)) as [|r0 rest] eqn:Hrules.
  - pose proof (constraints_delete_datasource _ _ _ _ _ d Hc Hin) as Hc'.
    assert (Hkeep : filter (fun r => negb (tid_eqb (rule_datasource_fk r)
                                                   (datasource_tid d))) rules
                    = rules).
    { apply filter_all. intros r Hr. unfold rules_of_datasource in Hrules.
      cbn in Hrules. now rewrite (filter_none _ _ Hrules r Hr). }
    rewrite Hkeep in Hc'. apply constraints_ok_iff in Hc'.
    eexists.
    unfold DatasourceService.delete, DatasourceRepository.delete,
      DatasourceService.get, DatasourceRepository.get_by_id.
    exec'. rewrite Hd. exec'. rewrite Hrules. exec'. rewrite Hd. exec'.
    rewrite Hkeep, Hid in *. rewrite Hc'. exec'.
    split; [reflexivity|]. split; [reflexivity|]. split; exec'.
    + intros r. rewrite filter_In, negb_true_iff, Z.eqb_neq.
      split; intros [Hr Hne]; (split; [assumption|]).
      * intros ->. auto.
      * intro E. apply Hne. eapply (unique_row datasource_id); eauto. congruence.
    + rewrite (find_deleted datasource_id); [reflexivity|].
      intros r Hr. apply andb_true_iff in Hr. destruct Hr as [_ Hr].
      now apply Z.eqb_eq in Hr.
  - unfold DatasourceService.delete, DatasourceRepository.delete,
      DatasourceRepository.get_by_id.
    exec'. rewrite Hd. exec'. rewrite Hrules. reflexivity.
Qed.

Lemma datasource_delete_is_guarded_witness :
  run (DatasourceService.delete "t1" 1) ExampleTenants.store1
  = (ExampleTenants.store1,
     inl (ValidationException
            "Cannot delete datasource 'crm'. It is associated with 1 validation rule(s). Please remove the associations first.")) /\
  exists st',
    run (DatasourceService.delete "t1" 2) ExampleTenants.store1 = (st', inr tt) /\
    tables st' = set_datasources [ExampleTenants.crm] (tables ExampleTenants.store1) /\
    (forall r, In r (datasources (tables st')) <->
               In r [ExampleTenants.crm; ExampleTenants.erp] /\ r <> ExampleTenants.erp) /\
    snd (run (DatasourceService.get "t1" 2) st')
    = inl (ResourceNotFoundError "Datasource not found").
Proof.
  split.
  - exact (datasource_delete_is_guarded ExampleTenants.store1 "t1" 1
             ExampleTenants.crm eq_refl eq_refl).
  - exact (datasource_delete_is_guarded ExampleTenants.store1 "t1" 2
             ExampleTenants.erp eq_refl eq_refl).
Defined.

(** ** The route that deletes a datasource *)

Section DeleteDatasourceRoute.

Variables (its : list Intent) (pols : list IntentPolicy) (dss : list Datasource)
          (cfgs : list DatasourceConfig) (rules : list ValidationRule) (sq : Seqs).
Variables (t : string) (id : Z) (d : Datasource).

Local Abbreviation st := (mkStore (mkDB its pols dss cfgs rules) sq).

Hypothesis Hok : store_ok st = true.
Hypothesis Hd :
  find (fun r => (ds_tenant_id r =? t)%string && (datasource_id r =? id)) dss
  = Some d.
Hypothesis Hkey : connection_key d <> "".

Lemma route_key_truthy : negb (connection_key d =? "")%string = true.
Proof. apply negb_true_iff. now apply String.eqb_neq. Qed.

Lemma config_delete_accepted (c : DatasourceConfig) :
  constraints_ok
    (mkDB its pols dss
          (filter (fun r => negb (config_id r =? config_id c)) cfgs) rules) = true.
Proof.
  apply store_ok_iff in Hok. destruct Hok as [[] _ _ _ _]. cbn in *.
  apply constraints_ok_iff. constructor; cbn; auto using NoDup_map_filter.
Qed.

Lemma route_with_config (c : DatasourceConfig) :
  find (fun r => (dc_tenant_id r =? t)%string
                 && (dc_name r =? connection_key d)%string) cfgs = Some c ->
  let cfgs' := filter (fun r => negb (config_id r =? config_id c)) cfgs in
  run (DatasourceRoutes.delete_datasource id t) st
  = match rules_of_datasource d (mkDB its pols dss cfgs rules) with
    | [] =>
        (mkStore
           (mkDB its pols
                 (filter (fun r => negb (datasource_id r =? id)) dss) cfgs' rules)
           sq,
         inr (mkSuccessResponse
                "Datasource and associated config deleted successfully" None))
    | found =>
        (mkStore (mkDB its pols dss cfgs' rules) sq,
         inl (ValidationException
                ("Cannot delete datasource '" ++ ds_name d ++ "'. "
                 ++ "It is associated with "
                 ++ str_of_int (Z.of_nat (List.length found))
                 ++ " validation rule(s). "
                 ++ "Please remove the associations first.")))
    end.
Proof.
  intros Hc. cbv zeta.
  pose proof route_key_truthy as Htruthy.
  pose proof (config_delete_accepted c) as Hacc.
  destruct (config_key _ _ _ _ Hc) as [Hcin [Hct Hcn]].
  destruct (datasource_key _ _ _ _ Hd) as [Hdin [Hdt Hdid]].
  pose proof Hok as Hok'. apply store_ok_iff in Hok'.
  destruct Hok' as [Hcons _ _ _ _]. cbn in Hcons.
  pose proof Hcons as [_ _ _ _ Hdpk _ Hcpk _ _ _ _ _]. cbn in Hdpk, Hcpk.
  assert (Hbyid : find (fun r => (dc_tenant_id r =? t)%string
                                 && (config_id r =? config_id c)) cfgs = Some c).
  { rewrite <- Hct. now apply config_by_id. }
  unfold DatasourceRoutes.delete_datasource, DatasourceService.get,
    DatasourceService.delete, DatasourceRepository.delete,
    DatasourceRepository.get_by_id, DatasourceConfigService.get_by_name,
    DatasourceConfigService.delete, DatasourceConfigRepository.delete,
    DatasourceConfigRepository.get_by_name, DatasourceConfigRepository.get_by_id.
  exec'. rewrite Hd. exec'. rewrite Htruthy. exec'. rewrite Hc. exec'.
  rewrite Hbyid. exec'. rewrite Hbyid. exec'. rewrite Hacc. exec'.
  rewrite Hd. exec'.
  unfold rules_of_datasource. cbn [validation_rules].
  destruct (filter _ rules) as [|r0 rest] eqn:Hrules; exec'; [|reflexivity].
  rewrite Hd. exec'.
  assert (Hkeep : filter (fun r => negb (tid_eqb (rule_datasource_fk r)
                                                 (datasource_tid d))) rules
                  = rules).
  { apply filter_all. intros r Hr. now rewrite (filter_none _ _ Hrules r Hr). }
  rewrite Hkeep, Hdid.
  rewrite (proj2 (constraints_ok_iff _)); [reflexivity|].
  pose proof (constraints_delete_datasource its pols dss
                (filter (fun r => negb (config_id r =? config_id c)) cfgs) rules d)
    as Hdel.
  rewrite Hkeep, Hdid in Hdel. apply Hdel; auto.
  apply constraints_ok_iff. exact Hacc.
Qed.

Lemma route_without_config :
  find (fun r => (dc_tenant_id r =? t)%string
                 && (dc_name r =? connection_key d)%string) cfgs = None ->
  rules_of_datasource d (mkDB its pols dss cfgs rules) = [] ->
  run (DatasourceRoutes.delete_datasource id t) st
  = (mkStore
       (mkDB its pols (filter (fun r => negb (datasource_id r =? id)) dss) cfgs rules)
       sq,
     inr (mkSuccessResponse
            "Datasource and associated config deleted successfully" None)).
Proof.
  intros Hc Hrules.
  pose proof route_key_truthy as Htruthy.
  destruct (datasource_key _ _ _ _ Hd) as [Hdin [Hdt Hdid]].
  pose proof Hok as Hok'. apply store_ok_iff in Hok'.
  destruct Hok' as [Hcons _ _ _ _]. cbn in Hcons.
  unfold rules_of_datasource in Hrules. cbn [validation_rules] in Hrules.
  assert (Hkeep : filter (fun r => negb (tid_eqb (rule_datasource_fk r)
                                                 (datasource_tid d))) rules
                  = rules).
  { apply filter_all. intros r Hr. now rewrite (filter_none _ _ Hrules r Hr). }
  unfold DatasourceRoutes.delete_datasource, DatasourceService.get,
    DatasourceService.delete, DatasourceRepository.delete,
    DatasourceRepository.get_by_id, DatasourceConfigService.get_by_name,
    DatasourceConfigService.delete, DatasourceConfigRepository.delete,
    DatasourceConfigRepository.get_by_name, DatasourceConfigRepository.get_by_id.
  exec'. rewrite Hd. exec'. rewrite Htruthy. exec'. rewrite Hc. exec'.
  rewrite Hd. exec'.
  unfold rules_of_datasource. cbn [validation_rules]. rewrite Hrules. exec'.
  rewrite Hd. exec'. rewrite Hkeep, Hdid.
  rewrite (proj2 (constraints_ok_iff _)); [reflexivity|].
  pose proof (constraints_delete_datasource its pols dss cfgs rules d Hcons Hdin)
    as Hdel.
  now rewrite Hkeep, Hdid in Hdel.
Qed.

End DeleteDatasourceRoute.

Lemma unique_by_key {A K} (key : A -> K) (l : list A) (a b : A) :
  NoDup (map key l) -> In a l -> In b l -> key a = key b -> a = b.
Proof.
  induction l as [|x r IH]; simpl; [tauto|].
  intros Hnd Ha Hb E. inversion Hnd as [|? ? Hx Hr]; subst.
  destruct Ha as [->|Ha], Hb as [->|Hb]; auto.
  - exfalso. apply Hx. rewrite E. now apply in_map.
  - exfalso. apply Hx. rewrite <- E. now apply in_map.
Qed.

(** Once the config found under a name is deleted, the name is free. *)
Lemma config_name_gone (t n : string) cfgs (c : DatasourceConfig) :
  NoDup (map config_uq cfgs) ->
  find (fun r => (dc_tenant_id r =? t)%string && (dc_name r =? n)%string) cfgs
  = Some c ->
  find (fun r => (dc_tenant_id r =? t)%string && (dc_name r =? n)%string)
       (filter (fun r => negb (config_id r =? config_id c)) cfgs) = None.
Proof.
  intros Huq Hc. destruct (config_key _ _ _ _ Hc) as [Hcin [Hct Hcn]].
  apply find_none_all. intros r Hr.
  apply filter_In in Hr. destruct Hr as [Hr Hne].
  apply negb_true_iff, Z.eqb_neq in Hne.
  destruct ((dc_tenant_id r =? t)%string && (dc_name r =? n)%string) eqn:E;
    [|reflexivity].
  exfalso. apply Hne. f_equal.
  apply andb_true_iff in E. destruct E as [E1 E2].
  apply String.eqb_eq in E1, E2.
  apply (unique_by_key config_uq cfgs); auto.
  unfold config_uq. congruence.
Qed.

Lemma config_removed cfgs (c : DatasourceConfig) :
  NoDup (map config_id cfgs) -> In c cfgs ->
  forall r, In r (filter (fun r => negb (config_id r =? config_id c)) cfgs) <->
            In r cfgs /\ r <> c.
Proof.
  intros Hpk Hcin r. rewrite filter_In, negb_true_iff, Z.eqb_neq.
  split; intros [Hr Hne]; (split; [assumption|]).
  - intros ->. auto.
  - intro E. apply Hne. eapply (unique_row config_id); eauto.
Qed.

(** X3.  The delete route deletes the associated config before the guard of
    the datasource deletion runs: for a datasource that still has rules and
    whose non-empty [connection_key] names a config of the tenant, the route
    ends in the [ValidationException] of the guard, the datasource is still
    there, and the config is gone from the store. *)
Theorem delete_route_drops_config_before_guard :
  forall (st : Store) (t : string) (id : Z) (d : Datasource) (c : DatasourceConfig),
    store_ok st = true ->
    snd (run (DatasourceRepository.get_by_id t id) st) = inr (Some d) ->
    connection_key d <> "" ->
    snd (run (DatasourceConfigRepository.get_by_name t (connection_key d)) st)
    = inr (Some c) ->
    rules_of_datasource d (tables st) <> [] ->
    exists st' detail,
      run (DatasourceRoutes.delete_datasource id t) st
      = (st', inl (ValidationException detail)) /\
      snd (run (DatasourceRepository.get_by_id t id) st') = inr (Some d) /\
      snd (run (DatasourceConfigRepository.get_by_name t (connection_key d)) st')
      = inr None /\
      (forall r, In r (datasource_configs (tables st')) <->
                 In r (datasource_configs (tables st)) /\ r <> c).
Proof.
  intros [[its pols dss cfgs rules] sq] t id d c Hok Hd Hkey Hc Hrules.
  unfold DatasourceRepository.get_by_id in Hd. exec in Hd. injection Hd as Hd.
  unfold DatasourceConfigRepository.get_by_name in Hc. exec in Hc.
  injection Hc as Hc.
  cbn [tables] in Hrules.
  rewrite (route_with_config its pols dss cfgs rules sq t id d Hok Hd Hkey c Hc).
  destruct (rules_of_datasource d (mkDB its pols dss cfgs rules)) as [|r0 rest];
    [congruence|].
  do 2 eexists. split; [reflexivity|].
  destruct (config_key _ _ _ _ Hc) as [Hcin [Hct Hcn]].
  apply store_ok_iff in Hok. destruct Hok as [Hcons _ _ _ _].
  destruct Hcons as [_ _ _ _ _ _ Hcpk Hcuq _ _ _ _]. cbn in Hcpk, Hcuq.
  unfold DatasourceRepository.get_by_id, DatasourceConfigRepository.get_by_name.
  exec. split; [now rewrite Hd|]. split.
  - f_equal. now apply config_name_gone.
  - now apply config_removed.
Qed.

Lemma delete_route_drops_config_before_guard_witness :
  exists st' detail,
    run (DatasourceRoutes.delete_datasource 1 "t1") ExampleTenants.store1
    = (st', inl (ValidationException detail)) /\
    snd (run (DatasourceRepository.get_by_id "t1" 1) st')
    = inr (Some ExampleTenants.crm) /\
    snd (run (DatasourceConfigRepository.get_by_name "t1" "K0") st') = inr None /\
    (forall r, In r (datasource_configs (tables st')) <->
               In r [ExampleTenants.k0] /\ r <> ExampleTenants.k0).
Proof.
  apply (delete_route_drops_config_before_guard ExampleTenants.store1 "t1" 1
           ExampleTenants.crm ExampleTenants.k0);
    [reflexivity | reflexivity | discriminate | reflexivity | discriminate].
Defined.

(** X4.  For a datasource without rules and with a non-empty
    [connection_key], the delete route answers with its success message;
    afterwards the datasource is NotFound, no config of the tenant is named
    by that key, every other datasource and config is kept, and intents,
    policies and rules are untouched. *)
Theorem delete_route_removes_datasource_and_config :
  forall (st : Store) (t : string) (id : Z) (d : Datasource),
    store_ok st = true ->
    snd (run (DatasourceRepository.get_by_id t id) st) = inr (Some d) ->
    connection_key d <> "" ->
    rules_of_datasource d (tables st) = [] ->
    exists st',
      run (DatasourceRoutes.delete_datasource id t) st
      = (st', inr (mkSuccessResponse
                     "Datasource and associated config deleted successfully" None)) /\
      snd (run (DatasourceService.get t id) st')
      = inl (ResourceNotFoundError "Datasource not found") /\
      snd (run (DatasourceConfigRepository.get_by_name t (connection_key d)) st')
      = inr None /\
      (forall r, In r (datasources (tables st')) <->
                 In r (datasources (tables st)) /\ r <> d) /\
      (forall r, In r (datasource_configs (tables st')) <->
                 In r (datasource_configs (tables st)) /\
                 ~ (dc_tenant_id r = t /\ dc_name r = connection_key d)) /\
      intents (tables st') = intents (tables st) /\
      intent_policies (tables st') = intent_policies (tables st) /\
      validation_rules (tables st') = validation_rules (tables st).
Proof.
  intros [[its pols dss cfgs rules] sq] t id d Hok Hd Hkey Hrules.
  unfold DatasourceRepository.get_by_id in Hd. exec in Hd. injection Hd as Hd.
  cbn [tables] in Hrules.
  destruct (datasource_key _ _ _ _ Hd) as [Hdin [Hdt Hdid]].
  pose proof Hok as Hok'. apply store_ok_iff in Hok'.
  destruct Hok' as [Hcons _ _ _ _].
  destruct Hcons as [_ _ _ _ Hdpk _ Hcpk Hcuq _ _ _ _]. cbn in Hdpk, Hcpk, Hcuq.
  assert (Hgone : find (fun r => (ds_tenant_id r =? t)%string && (datasource_id r =? id))
                       (filter (fun r => negb (datasource_id r =? id)) dss) = None).
  { apply (find_deleted datasource_id). intros r Hr.
    apply andb_true_iff in Hr. destruct Hr as [_ Hr]. now apply Z.eqb_eq in Hr. }
  assert (Hrest : forall r, In r (filter (fun r => negb (datasource_id r =? id)) dss)
                            <-> In r dss /\ r <> d).
  { intros r. rewrite filter_In, negb_true_iff, Z.eqb_neq.
    split; intros [Hr Hne]; (split; [assumption|]).
    - intros ->. auto.
    - intro E. apply Hne. eapply (unique_row datasource_id); eauto. congruence. }
  destruct (find (fun r => (dc_tenant_id r =? t)%string
                           && (dc_name r =? connection_key d)%string) cfgs)
    as [c|] eqn:Hc.
  - rewrite (route_with_config its pols dss cfgs rules sq t id d Hok Hd Hkey c Hc).
    rewrite Hrules. eexists. split; [reflexivity|].
    destruct (config_key _ _ _ _ Hc) as [Hcin [Hct Hcn]].
    unfold DatasourceService.get, DatasourceRepository.get_by_id,
      DatasourceConfigRepository.get_by_name.
    exec. rewrite Hgone. split; [reflexivity|]. split; [|split; [assumption|split]].
    + f_equal. now apply config_name_gone.
    + intros r. rewrite (config_removed cfgs c Hcpk Hcin r).
      split; intros [Hr Hne]; (split; [assumption|]).
      * intros [E1 E2]. apply Hne.
        apply (unique_by_key config_uq cfgs); auto. unfold config_uq. congruence.
      * intros ->. auto.
    + auto.
  - rewrite (route_without_config its pols dss cfgs rules sq t id d Hok Hd Hkey
               Hc Hrules).
    eexists. split; [reflexivity|].
    unfold DatasourceService.get, DatasourceRepository.get_by_id,
      DatasourceConfigRepository.get_by_name.
    exec. rewrite Hgone, Hc. split; [reflexivity|]. split; [reflexivity|].
    split; [assumption|]. split; [|auto].
    intros r. split; [intros Hr; split; [assumption|]|tauto].
    intros [E1 E2]. apply (find_none _ _ Hc) in Hr.
    apply String.eqb_eq in E1, E2. rewrite E1, E2 in Hr. discriminate.
Qed.

Lemma delete_route_removes_datasource_and_config_witness :
  exists st',
    run (DatasourceRoutes.delete_datasource 1 "t1") ExampleKeys.store1
    = (st', inr (mkSuccessResponse
                   "Datasource and associated config deleted successfully" None)) /\
    snd (run (DatasourceService.get "t1" 1) st')
    = inl (ResourceNotFoundError "Datasource not found") /\
    snd (run (DatasourceConfigRepository.get_by_name "t1" "K0") st') = inr None /\
    (forall r, In r (datasources (tables st')) <->
               In r [ExampleKeys.crm] /\ r <> ExampleKeys.crm) /\
    (forall r, In r (datasource_configs (tables st')) <->
               In r [ExampleKeys.k0; ExampleKeys.k9] /\
               ~ (dc_tenant_id r = "t1" /\ dc_name r = "K0")) /\
    intents (tables st') = [] /\
    intent_policies (tables st') = [] /\
    validation_rules (tables st') = [].
Proof.
  apply (delete_route_removes_datasource_and_config ExampleKeys.store1 "t1" 1
           ExampleKeys.crm);
    [reflexivity | reflexivity | discriminate | reflexivity].
Defined.

(** ** Deleting an intent *)

Lemma intent_key (t : string) (id : Z) its (i : Intent) :
  find (fun r => (it_tenant_id r =? t)%string && (intent_id r =? id)) its = Some i ->
  In i its /\ it_tenant_id i = t /\ intent_id i = id.
Proof.
  intros H. apply find_some in H. destruct H as [Hin H].
  apply andb_true_iff in H. destruct H as [Ht Hi].
  apply String.eqb_eq in Ht. apply Z.eqb_eq in Hi. auto.
Qed.

Lemma not_tid (a b : string) (x y : Z) :
  negb (tid_eqb (a, x) (b, y)) = true <-> ~ (a = b /\ x = y).
Proof.
  rewrite negb_true_iff, tid_eqb_false. split.
  - intros H [-> ->]. auto.
  - intros H E. inversion E. auto.
Qed.

(** X5.  Deleting an existing intent removes the intent together with
    exactly the policies and the validation rules of that tenant and intent
    (the declared cascade), keeps every other row, leaves datasources and
    configs untouched, is always accepted by the storage, and leaves a
    well-formed store in which the intent is NotFound. *)
Theorem intent_delete_cascades :
  forall (st : Store) (t : string) (id : Z) (i : Intent),
    store_ok st = true ->
    snd (run (IntentRepository.get_by_id t id) st) = inr (Some i) ->
    exists st',
      run (IntentService.delete t id) st = (st', inr tt) /\
      (forall r, In r (intents (tables st')) <->
                 In r (intents (tables st)) /\ r <> i) /\
      (forall q, In q (intent_policies (tables st')) <->
                 In q (intent_policies (tables st)) /\
                 ~ (ip_tenant_id q = t /\ ip_intent_id q = id)) /\
      (forall r, In r (validation_rules (tables st')) <->
                 In r (validation_rules (tables st)) /\
                 ~ (vr_tenant_id r = t /\ vr_intent_id r = id)) /\
      datasources (tables st') = datasources (tables st) /\
      datasource_configs (tables st') = datasource_configs (tables st) /\
      snd (run (IntentService.get t id) st')
      = inl (ResourceNotFoundError "Intent not found") /\
      store_ok st' = true.
Proof.
  intros [[its pols dss cfgs rules] sq] t id i Hok Hget.
  unfold IntentRepository.get_by_id in Hget. exec in Hget. injection Hget as Hi.
  apply store_ok_iff in Hok. destruct Hok as [Hc Hb1 Hb2 Hb3 Hb4].
  cbn in Hc, Hb1, Hb2, Hb3, Hb4.
  destruct (intent_key _ _ _ _ Hi) as [Hin [Ht Hid]].
  pose proof Hc as [Hipk _ _ _ _ _ _ _ _ _ _ _]. cbn in Hipk.
  pose proof (constraints_delete_intent _ _ _ _ _ i Hc Hin) as Hc'.
  pose proof (proj2 (constraints_ok_iff _) Hc') as Hc'b.
  eexists.
  unfold IntentService.delete, IntentRepository.delete, IntentService.get,
    IntentRepository.get_by_id.
  exec'. rewrite Hi. exec'. rewrite Hc'b. exec'.
  split; [reflexivity|]. exec'.
  split; [|split; [|split; [|split; [|split; [|split]]]]]; auto.
  - intros r. rewrite filter_In, negb_true_iff, Z.eqb_neq.
    split; intros [Hr Hne]; (split; [assumption|]).
    + intros ->. auto.
    + intro E. apply Hne. eapply (unique_row intent_id); eauto.
  - intros q. rewrite filter_In. unfold policy_fk, intent_tid.
    rewrite not_tid, Ht, Hid. tauto.
  - intros r. rewrite filter_In. unfold rule_intent_fk, intent_tid.
    rewrite not_tid, Ht, Hid. tauto.
  - rewrite Hid. rewrite (find_deleted intent_id); [reflexivity|].
    intros r Hr. apply andb_true_iff in Hr. destruct Hr as [_ Hr].
    now apply Z.eqb_eq in Hr.
  - apply store_ok_iff. constructor; cbn; auto.
    + rewrite Forall_forall in *. intros x Hx. apply Hb1.
      eapply incl_map_filter; eauto.
    + rewrite Forall_forall in *. intros x Hx. apply Hb4.
      eapply incl_map_filter; eauto.
Qed.

Lemma intent_delete_cascades_witness :
  exists st',
    run (IntentService.delete "t1" 1) ExampleTenants.store1 = (st', inr tt) /\
    (forall r, In r (intents (tables st')) <->
               In r [ExampleTenants.refund; ExampleTenants.billing]
               /\ r <> ExampleTenants.refund) /\
    (forall q, In q (intent_policies (tables st')) <->
               In q [ExampleTenants.refund_en] /\
               ~ (ip_tenant_id q = "t1" /\ ip_intent_id q = 1)) /\
    (forall r, In r (validation_rules (tables st')) <->
               In r [ExampleTenants.sender] /\
               ~ (vr_tenant_id r = "t1" /\ vr_intent_id r = 1)) /\
    datasources (tables st') = [ExampleTenants.crm; ExampleTenants.erp] /\
    datasource_configs (tables st') = [ExampleTenants.k0] /\
    snd (run (IntentService.get "t1" 1) st')
    = inl (ResourceNotFoundError "Intent not found") /\
    store_ok st' = true.
Proof.
  exact (intent_delete_cascades ExampleTenants.store1 "t1" 1 ExampleTenants.refund
           eq_refl eq_refl).
Defined.

(** ** Policies of an intent *)

Lemma policy_key (t : string) (id : Z) (lang : string) pols (q : IntentPolicy) :
  find (fun p => (ip_tenant_id p =? t)%string && (ip_intent_id p =? id)
                 && (ip_language_code p =? lang)%string) pols = Some q ->
  In q pols /\ policy_pk q = (t, id, lang).
Proof.
  intros H. apply find_some in H. destruct H as [Hin H].
  rewrite !andb_true_iff in H. destruct H as [[Ht Hi] Hl].
  apply String.eqb_eq in Ht, Hl. apply Z.eqb_eq in Hi.
  split; [assumption|]. unfold policy_pk. congruence.
Qed.

Lemma policy_key_free (t : string) (id : Z) (lang : string) pols :
  find (fun p => (ip_tenant_id p =? t)%string && (ip_intent_id p =? id)
                 && (ip_language_code p =? lang)%string) pols = None ->
  ~ In (t, id, lang) (map policy_pk pols).
Proof.
  intros Hf Hin. apply in_map_iff in Hin. destruct Hin as [q [E Hq]].
  apply (find_none _ _ Hf) in Hq. unfold policy_pk in E. inversion E; subst.
  rewrite !String.eqb_refl, Z.eqb_refl in Hq. discriminate.
Qed.

(** The run of a policy creation that passed both checks. *)
Lemma policy_create_run :
  forall (st : Store) (t : string) (id : Z) (p : IntentPolicyCreate) (i : Intent),
    store_ok st = true ->
    snd (run (IntentRepository.get_by_id t id) st) = inr (Some i) ->
    snd (run (IntentPolicyRepository.get_by_intent_and_language
                t id (pc_language_code p)) st) = inr None ->
    let q := IntentRepository.new_policy t id p in
    exists st',
      run (IntentPolicyService.create t id p) st = (st', inr q) /\
      tables st' =
        set_intent_policies (intent_policies (tables st) ++ [q]) (tables st) /\
      ip_tenant_id q = t /\ ip_intent_id q = id /\
      snd (run (IntentPolicyService.get t id (pc_language_code p)) st') = inr q /\
      run (IntentPolicyService.create t id p) st'
      = (st', inl (ResourceAlreadyExistsError
                     ("Policy for language '" ++ pc_language_code p
                      ++ "' already exists for this intent"))).
Proof.
  intros [[its pols dss cfgs rules] sq] t id p i Hok Hi Hfree. cbv zeta.
  unfold IntentRepository.get_by_id in Hi. exec in Hi. injection Hi as Hi.
  unfold IntentPolicyRepository.get_by_intent_and_language in Hfree.
  exec in Hfree. injection Hfree as Hfree.
  apply store_ok_iff in Hok. destruct Hok as [Hc _ _ _ _]. cbn in Hc.
  destruct (intent_key _ _ _ _ Hi) as [Hin [Ht Hid]].
  set (q := IntentRepository.new_policy t id p).
  assert (Hc' : constraints_ok (mkDB its (pols ++ [q]) dss cfgs rules) = true).
  { apply constraints_ok_iff. destruct Hc. cbn in *.
    constructor; cbn; auto; rewrite map_app.
    - apply NoDup_snoc; auto. now apply policy_key_free.
    - apply incl_app; auto. intros k [<-|[]].
      apply in_map_iff. exists i. split; [|assumption].
      unfold intent_tid, policy_fk. cbn. congruence. }
  assert (Hfound : find (fun x => (ip_tenant_id x =? t)%string && (ip_intent_id x =? id)
                                  && (ip_language_code x =? pc_language_code p)%string)
                        (pols ++ [q]) = Some q).
  { rewrite find_app_or, Hfree. cbn.
    now rewrite !String.eqb_refl, Z.eqb_refl. }
  eexists.
  unfold IntentPolicyService.create, IntentPolicyRepository.create,
    IntentPolicyService.get, IntentPolicyRepository.get_by_intent_and_language,
    IntentRepository.get_by_id.
  exec'. rewrite Hi. exec'. rewrite Hfree. exec'. fold q. rewrite Hc'. exec'.
  split; [reflexivity|]. exec'. rewrite Hi, Hfound. exec'. rewrite Hfound.
  repeat split.
Qed.

(** X6.  Creating a policy for an existing intent of the tenant and a language
    the intent has no policy for, with a payload that passes the validators
    of its schema and text the storage takes, succeeds: the row returned is
    keyed by the tenant of the request (not the payload's [tenant_id]), the
    intent of the path and the language of the payload, it is the one row
    added to [intent_policies] while the other tables stay as they were, a
    get under that key returns it, and repeating the same creation is
    rejected with [ResourceAlreadyExistsError] and writes nothing.  Nothing is
    said of the other columns of the row. *)
Theorem policy_create_then_get :
  forall (st : Store) (t : string) (id : Z) (p : IntentPolicyCreate) (i : Intent),
    store_ok st = true ->
    text_ok t = true ->
    IntentPolicyCreate_valid p = true ->
    IntentPolicyCreate_storable p = true ->
    snd (run (IntentRepository.get_by_id t id) st) = inr (Some i) ->
    snd (run (IntentPolicyRepository.get_by_intent_and_language
                t id (pc_language_code p)) st) = inr None ->
    exists st' q,
      run (IntentPolicyService.create t id p) st = (st', inr q) /\
      ip_tenant_id q = t /\
      ip_intent_id q = id /\
      ip_language_code q = pc_language_code p /\
      (forall r, In r (intent_policies (tables st')) <->
                 In r (intent_policies (tables st)) \/ r = q) /\
      intents (tables st') = intents (tables st) /\
      datasources (tables st') = datasources (tables st) /\
      datasource_configs (tables st') = datasource_configs (tables st) /\
      validation_rules (tables st') = validation_rules (tables st) /\
      snd (run (IntentPolicyService.get t id (pc_language_code p)) st') = inr q /\
      run (IntentPolicyService.create t id p) st'
      = (st', inl (ResourceAlreadyExistsError
                     ("Policy for language '" ++ pc_language_code p
                      ++ "' already exists for this intent"))).
Proof.
  intros st t id p i Hok _ _ _ Hi Hfree.
  destruct (policy_create_run st t id p i Hok Hi Hfree)
    as [st' [Hrun [Htab [Ht [Hid [Hget Hagain]]]]]].
  exists st', (IntentRepository.new_policy t id p).
  split; [exact Hrun|]. split; [exact Ht|]. split; [exact Hid|].
  split; [reflexivity|].
  rewrite Htab. cbn.
  split.
  { intros r. rewrite in_app_iff. cbn. intuition. }
  repeat (split; [reflexivity|]).
  split; [exact Hget | exact Hagain].
Qed.

Lemma policy_create_then_get_witness :
  exists st' q,
    run (IntentPolicyService.create "t1" 2 ExamplePolicies.english)
        ExampleTenants.store1 = (st', inr q) /\
    ip_tenant_id q = "t1" /\
    ip_intent_id q = 2 /\
    ip_language_code q = "en" /\
    (forall r, In r (intent_policies (tables st')) <->
               In r [ExampleTenants.refund_en] \/ r = q) /\
    intents (tables st') = [ExampleTenants.refund; ExampleTenants.billing] /\
    datasources (tables st') = [ExampleTenants.crm; ExampleTenants.erp] /\
    datasource_configs (tables st') = [ExampleTenants.k0] /\
    validation_rules (tables st') = [ExampleTenants.sender] /\
    snd (run (IntentPolicyService.get "t1" 2 "en") st') = inr q /\
    run (IntentPolicyService.create "t1" 2 ExamplePolicies.english) st'
    = (st', inl (ResourceAlreadyExistsError
                   "Policy for language 'en' already exists for this intent")).
Proof.
  exact (policy_create_then_get ExampleTenants.store1 "t1" 2 ExamplePolicies.english
           ExampleTenants.billing eq_refl eq_refl eq_refl eq_refl eq_refl eq_refl).
Defined.

(** X7.  Deleting an existing policy removes that row and no other from
    [intent_policies], leaves the other four tables as they were, and the
    policy is NotFound afterwards. *)
Theorem policy_delete_removes_one :
  forall (st : Store) (t : string) (id : Z) (lang : string) (q : IntentPolicy),
    store_ok st = true ->
    snd (run (IntentPolicyService.get t id lang) st) = inr q ->
    exists st',
      run (IntentPolicyService.delete t id lang) st = (st', inr tt) /\
      (forall r, In r (intent_policies (tables st')) <->
                 In r (intent_policies (tables st)) /\ r <> q) /\
      intents (tables st') = intents (tables st) /\
      datasources (tables st') = datasources (tables st) /\
      datasource_configs (tables st') = datasource_configs (tables st) /\
      validation_rules (tables st') = validation_rules (tables st) /\
      snd (run (IntentPolicyService.get t id lang) st')
      = inl (ResourceNotFoundError "Intent policy not found").
Proof.
  intros [[its pols dss cfgs rules] sq] t id lang q Hok Hget.
  unfold IntentPolicyService.get,
    IntentPolicyRepository.get_by_intent_and_language in Hget.
  exec in Hget.
  destruct (find _ pols) as [q'|] eqn:Hq; [|discriminate]. injection Hget as ->.
  apply store_ok_iff in Hok. destruct Hok as [Hc _ _ _ _]. cbn in Hc.
  destruct (policy_key _ _ _ _ _ Hq) as [Hin Hpk].
  pose proof Hc as [_ _ Hppk _ _ _ _ _ _ _ _ _]. cbn in Hppk.
  pose proof (constraints_delete_policy _ _ _ _ _
                (fun r => negb (tis_eqb (policy_pk r) (policy_pk q))) Hc) as Hc'.
  apply constraints_ok_iff in Hc'.
  assert (Hrest : forall r,
             In r (filter (fun r => negb (tis_eqb (policy_pk r) (policy_pk q))) pols)
             <-> In r pols /\ r <> q).
  { intros r. rewrite filter_In, negb_true_iff.
    split; intros [Hr Hne]; (split; [assumption|]).
    - intros ->. assert (E : tis_eqb (policy_pk q) (policy_pk q) = true)
        by now apply tis_eqb_spec. congruence.
    - destruct (tis_eqb (policy_pk r) (policy_pk q)) eqn:E; [|reflexivity].
      apply tis_eqb_spec in E. exfalso. apply Hne.
      apply (unique_by_key policy_pk pols); auto. }
  eexists.
  unfold IntentPolicyService.delete, IntentPolicyRepository.delete,
    IntentPolicyService.get, IntentPolicyRepository.get_by_intent_and_language.
  exec'. rewrite Hq. exec'. rewrite Hc'. exec'.
  split; [reflexivity|]. exec'. split; [assumption|].
  repeat (split; [reflexivity|]).
  rewrite find_none_all; [reflexivity|].
  intros r Hr. apply Hrest in Hr. destruct Hr as [Hr Hne].
  destruct ((ip_tenant_id r =? t)%string && (ip_intent_id r =? id)
            && (ip_language_code r =? lang)%string) eqn:E; [|reflexivity].
  exfalso. apply Hne. apply (unique_by_key policy_pk pols); auto.
  rewrite Hpk. rewrite !andb_true_iff in E. destruct E as [[E1 E2] E3].
  apply String.eqb_eq in E1, E3. apply Z.eqb_eq in E2.
  unfold policy_pk. congruence.
Qed.

Lemma policy_delete_removes_one_witness :
  exists st',
    run (IntentPolicyService.delete "t1" 1 "en") ExampleTenants.store1 = (st', inr tt) /\
    (forall r, In r (intent_policies (tables st')) <->
               In r [ExampleTenants.refund_en] /\ r <> ExampleTenants.refund_en) /\
    intents (tables st') = [ExampleTenants.refund; ExampleTenants.billing] /\
    datasources (tables st') = [ExampleTenants.crm; ExampleTenants.erp] /\
    datasource_configs (tables st') = [ExampleTenants.k0] /\
    validation_rules (tables st') = [ExampleTenants.sender] /\
    snd (run (IntentPolicyService.get "t1" 1 "en") st')
    = inl (ResourceNotFoundError "Intent policy not found").
Proof.
  exact (policy_delete_removes_one ExampleTenants.store1 "t1" 1 "en"
           ExampleTenants.refund_en eq_refl eq_refl).
Defined.

(** ** Deleting a rule *)

(** X8.  Deleting an existing validation rule removes that row and no other
    from [validation_rules], leaves the other four tables as they were, and
    the rule is NotFound afterwards. *)
Theorem rule_delete_removes_one :
  forall (st : Store) (t : string) (id : Z) (r0 : ValidationRule),
    store_ok st = true ->
    snd (run (ValidationRuleService.get t id) st) = inr r0 ->
    exists st',
      run (ValidationRuleService.delete t id) st = (st', inr tt) /\
      (forall r, In r (validation_rules (tables st')) <->
                 In r (validation_rules (tables st)) /\ r <> r0) /\
      intents (tables st') = intents (tables st) /\
      intent_policies (tables st') = intent_policies (tables st) /\
      datasources (tables st') = datasources (tables st) /\
      datasource_configs (tables st') = datasource_configs (tables st) /\
      snd (run (ValidationRuleService.get t id) st')
      = inl (ResourceNotFoundError
               ("Validation rule with id '" ++ str_of_int id ++ "' not found")).
Proof.
  intros [[its pols dss cfgs rules] sq] t id r0 Hok Hget.
  unfold ValidationRuleService.get, ValidationRuleRepository.get_by_id in Hget.
  exec in Hget.
  destruct (find _ rules) as [r'|] eqn:Hr; [|discriminate]. injection Hget as ->.
  apply store_ok_iff in Hok. destruct Hok as [Hc _ _ _ _]. cbn in Hc.
  destruct (find_some _ _ Hr) as [Hin Hkey].
  apply andb_true_iff in Hkey. destruct Hkey as [_ Hid]. apply Z.eqb_eq in Hid.
  pose proof Hc as [_ _ _ _ _ _ _ _ Hrpk _ _ _]. cbn in Hrpk.
  pose proof (constraints_delete_rule _ _ _ _ _
                (fun r => negb (rule_id r =? rule_id r0)) Hc) as Hc'.
  apply constraints_ok_iff in Hc'.
  eexists.
  unfold ValidationRuleService.delete, ValidationRuleRepository.delete,
    ValidationRuleService.get, ValidationRuleRepository.get_by_id.
  exec'. rewrite Hr. exec'. rewrite Hc'. exec'.
  split; [reflexivity|]. exec'. split.
  - intros r. rewrite filter_In, negb_true_iff, Z.eqb_neq.
    split; intros [Hr' Hne]; (split; [assumption|]).
    + intros ->. auto.
    + intro E. apply Hne. eapply (unique_row rule_id); eauto.
  - repeat (split; [reflexivity|]).
    rewrite Hid. rewrite (find_deleted rule_id); [reflexivity|].
    intros r Hr'. apply andb_true_iff in Hr'. destruct Hr' as [_ Hr'].
    now apply Z.eqb_eq in Hr'.
Qed.

Lemma rule_delete_removes_one_witness :
  exists st',
    run (ValidationRuleService.delete "t1" 1) ExampleTenants.store1 = (st', inr tt) /\
    (forall r, In r (validation_rules (tables st')) <->
               In r [ExampleTenants.sender] /\ r <> ExampleTenants.sender) /\
    intents (tables st') = [ExampleTenants.refund; ExampleTenants.billing] /\
    intent_policies (tables st') = [ExampleTenants.refund_en] /\
    datasources (tables st') = [ExampleTenants.crm; ExampleTenants.erp] /\
    datasource_configs (tables st') = [ExampleTenants.k0] /\
    snd (run (ValidationRuleService.get "t1" 1) st')
    = inl (ResourceNotFoundError "Validation rule with id '1' not found").
Proof.
  exact (rule_delete_removes_one ExampleTenants.store1 "t1" 1 ExampleTenants.sender
           eq_refl eq_refl).
Defined.

(** ** Ordered queries *)

Section OrderBy.
Context {A : Type} (le : A -> A -> bool).
Hypothesis le_total : forall a b, le a b = false -> le b a = true.
Hypothesis le_trans : forall a b c, le a b = true -> le b c = true -> le a c = true.

Lemma insert_by_perm (x : A) (l : list A) : Permutation (insert_by le x l) (x :: l).
Proof.
  induction l as [|y r IH]; simpl; [reflexivity|].
  destruct (le x y); [reflexivity|].
  rewrite IH. apply perm_swap.
Qed.

Lemma order_by_perm (l : list A) : Permutation (order_by le l) l.
Proof.
  induction l as [|x r IH]; simpl; [reflexivity|].
  rewrite insert_by_perm. now constructor.
Qed.

Lemma insert_by_sorted (x : A) (l : list A) :
  StronglySorted (fun a b => le a b = true) l ->
  StronglySorted (fun a b => le a b = true) (insert_by le x l).
Proof.
  induction 1 as [|y r Hs IH Hy]; simpl.
  - repeat constructor.
  - destruct (le x y) eqn:E.
    + constructor; [now constructor|].
      constructor; [assumption|].
      rewrite Forall_forall in *. intros z Hz. eauto.
    + constructor; [assumption|].
      rewrite Forall_forall in *. intros z Hz.
      apply (Permutation_in _ (insert_by_perm x r)) in Hz.
      destruct Hz as [<-|Hz]; auto.
Qed.

Lemma order_by_sorted (l : list A) :
  StronglySorted (fun a b => le a b = true) (order_by le l).
Proof.
  induction l as [|x r IH]; simpl; [constructor|]. now apply insert_by_sorted.
Qed.

End OrderBy.

Lemma StronglySorted_weaken {A} (R R' : A -> A -> Prop) (l : list A) :
  (forall a b, R a b -> R' a b) -> StronglySorted R l -> StronglySorted R' l.
Proof.
  intros HR. induction 1 as [|x r Hs IH Hx]; constructor; auto.
  eapply Forall_impl; [|exact Hx]. auto.
Qed.

Lemma StronglySorted_strict {A} (key : A -> Z) (l : list A) :
  NoDup (map key l) ->
  StronglySorted (fun a b => key b <= key a) l ->
  StronglySorted (fun a b => key b < key a) l.
Proof.
  intros Hnd. induction 1 as [|x r Hs IH Hx]; [constructor|].
  simpl in Hnd. inversion Hnd as [|? ? Hnin Hnd']; subst.
  constructor; [auto|].
  rewrite Forall_forall in *. intros y Hy.
  specialize (Hx y Hy). assert (key y <> key x); [|lia].
  intros E. apply Hnin. rewrite <- E. now apply in_map.
Qed.


(** X10.  On a well-formed store [get_all] reads without writing and returns
    the datasources of the tenant, only the active ones when [active_only],
    in strictly descending order of [datasource_id]. *)
Theorem datasources_listed_newest_first :
  forall (st : Store) (t : string) (active_only : bool),
    store_ok st = true ->
    exists l,
      run (DatasourceService.get_all t active_only) st = (st, inr l) /\
      StronglySorted (fun a b => datasource_id b < datasource_id a) l /\
      forall d, In d l <->
                In d (datasources (tables st)) /\ ds_tenant_id d = t /\
                (active_only = true -> ds_is_active d = true).
Proof.
  intros [[its pols dss cfgs rules] sq] t active_only Hok.
  apply store_ok_iff in Hok. destruct Hok as [Hc _ _ _ _].
  destruct Hc as [_ _ _ _ Hdpk _ _ _ _ _ _ _]. cbn in Hdpk.
  unfold DatasourceService.get_all, DatasourceRepository.get_all.
  exec. eexists. split; [reflexivity|].
  set (act := fun d : Datasource => if active_only then ds_is_active d else true).
  set (ten := fun d : Datasource => (ds_tenant_id d =? t)%string).
  set (le := fun a b : Datasource => datasource_id b <=? datasource_id a).
  assert (Hp : Permutation (order_by le (filter act (filter ten dss)))
                           (filter act (filter ten dss)))
    by apply order_by_perm.
  split.
  - apply StronglySorted_strict.
    + eapply Permutation_NoDup; [apply Permutation_map, Permutation_sym, Hp|].
      apply NoDup_map_filter. now apply NoDup_map_filter.
    + apply (StronglySorted_weaken (fun a b => le a b = true)).
      * intros a b. unfold le. apply Z.leb_le.
      * apply order_by_sorted; unfold le; intros.
        -- apply Z.leb_le. apply Z.leb_gt in H. lia.
        -- apply Z.leb_le. apply Z.leb_le in H, H0. lia.
  - intros d. split.
    + intros Hd. apply (Permutation_in _ Hp) in Hd.
      rewrite !filter_In in Hd. destruct Hd as [[Hd Ht] Ha].
      apply String.eqb_eq in Ht. unfold act in Ha.
      repeat split; auto. intros ->. assumption.
    + intros [Hd [Ht Ha]].
      apply (Permutation_in _ (Permutation_sym Hp)). rewrite !filter_In.
      repeat split; auto.
      * unfold ten. rewrite Ht. apply String.eqb_refl.
      * unfold act. destruct active_only; auto.
Qed.

Lemma datasources_listed_newest_first_witness :
  exists l,
    run (DatasourceService.get_all "t1" true) ExampleCreate.store1
    = (ExampleCreate.store1, inr l) /\
    StronglySorted (fun a b => datasource_id b < datasource_id a) l /\
    forall d, In d l <->
              In d [ExampleCreate.crm; ExampleCreate.erp; ExampleCreate.crm2;
                    ExampleCreate.files]
              /\ ds_tenant_id d = "t1" /\ (true = true -> ds_is_active d = true).
Proof.
  exact (datasources_listed_newest_first ExampleCreate.store1 "t1" true eq_refl).
Defined.

(** ** A created rule and the next execution order *)

Lemma order_by_desc_top_snoc (l : list Z) (x : Z) :
  1 <= x ->
  match hd_error (order_by_desc (l ++ [x])) with
  | Some order => order
  | None => 0
  end + 1
  = Z.max (match hd_error (order_by_desc l) with
           | Some order => order
           | None => 0
           end + 1) (x + 1).
Proof.
  intros Hx.
  pose proof (order_by_desc_hd (l ++ [x])) as H1.
  pose proof (order_by_desc_hd l) as H2.
  destruct (hd_error (order_by_desc (l ++ [x]))) as [m'|].
  - destruct H1 as [Hin Hmax].
    assert (Hxm : x <= m') by (apply Hmax, in_or_app; right; now left).
    destruct (hd_error (order_by_desc l)) as [m|].
    + destruct H2 as [Hm Hle].
      assert (m <= m') by (apply Hmax, in_or_app; now left).
      apply in_app_or in Hin. destruct Hin as [Hin|[<-|[]]]; [|lia].
      specialize (Hle m' Hin). lia.
    + subst l. destruct Hin as [<-|[]]. lia.
  - destruct l; discriminate.
Qed.

(** X11.  A successful rule creation appends the payload's row with the next
    key and an [execution_order] of at least 1; afterwards the next execution
    order of the rule's tenant, intent and language is the greater of what it
    was and the new rule's order plus one, and the next execution order of
    every other tenant, intent or language is what it was. *)
Theorem rule_create_advances_next_order :
  forall (st st' : Store) (t : string) (p : ValidationRuleCreate)
         (r : ValidationRule) (n : Z),
    run (ValidationRuleService.create t p) st = (st', inr r) ->
    snd (run (ValidationRuleService.get_next_execution_order
                t (rc_intent_id p) (rc_language_code p)) st) = inr n ->
    r = ValidationRuleRepository.new_rule t p (seq_rule (sequences st)) /\
    validation_rules (tables st') = (validation_rules (tables st) ++ [r])%list /\
    1 <= execution_order r /\
    snd (run (ValidationRuleService.get_next_execution_order
                t (rc_intent_id p) (rc_language_code p)) st')
    = inr (Z.max n (execution_order r + 1)) /\
    forall (t' : string) (i : Z) (lang : string),
      (t', i, lang) <> (t, rc_intent_id p, rc_language_code p) ->
      snd (run (ValidationRuleService.get_next_execution_order t' i lang) st')
      = snd (run (ValidationRuleService.get_next_execution_order t' i lang) st).
Proof.
  intros [[its pols dss cfgs rules] sq] st' t p r n Hrun Hn.
  unfold ValidationRuleService.get_next_execution_order,
    ValidationRuleRepository.get_max_execution_order in *.
  exec in Hn. injection Hn as Hn.
  revert Hrun.
  unfold ValidationRuleService.create, ValidationRuleRepository.create.
  inv_run; intros Hrun; try discriminate Hrun.
  injection Hrun as <- <-. exec.
  match goal with H : (_ <? 1) = false |- _ => apply Z.ltb_ge in H; rename H into Hx end.
  split; [reflexivity|]. split; [reflexivity|]. split; [exact Hx|].
  split.
  - rewrite filter_app. cbn [filter ValidationRuleRepository.new_rule
      vr_tenant_id vr_intent_id vr_language_code execution_order].
    rewrite !String.eqb_refl, Z.eqb_refl. cbn [andb].
    rewrite map_app. cbn [map execution_order].
    rewrite order_by_desc_top_snoc by exact Hx. now rewrite Hn.
  - intros t' i' lang' Hne. rewrite filter_app.
    cbn [filter ValidationRuleRepository.new_rule
      vr_tenant_id vr_intent_id vr_language_code].
    destruct ((t =? t')%string && (rc_intent_id p =? i')
              && (rc_language_code p =? lang')%string) eqn:E.
    + rewrite !andb_true_iff in E. destruct E as [[E1 E2] E3].
      apply String.eqb_eq in E1, E3. apply Z.eqb_eq in E2.
      exfalso. apply Hne. congruence.
    + now rewrite app_nil_r.
Qed.

Lemma rule_create_advances_next_order_witness :
  let st' := fst (run (ValidationRuleService.create "t1" ExampleRequests.amount_on_erp)
                      ExampleRules.store1) in
  snd (run (ValidationRuleService.get_next_execution_order "t1" 1 "en")
           ExampleRules.store1) = inr 2 /\
  snd (run (ValidationRuleService.get_next_execution_order "t1" 1 "en") st') = inr 6.
Proof.
  split; [reflexivity|].
  exact (proj1 (proj2 (proj2 (proj2
           (rule_create_advances_next_order ExampleRules.store1 _ "t1"
              ExampleRequests.amount_on_erp
              (ValidationRuleRepository.new_rule "t1" ExampleRequests.amount_on_erp 2)
              2 eq_refl eq_refl))))).
Defined.

(** ** Well-formed stores stay well-formed *)

Lemma safe_request {A} (m : M A) :
  safe m ->
  forall k st, store_ok st = true -> store_ok (fst (request k m st)) = true.
Proof.
  intros Hm k [db sq] Hok. apply store_ok_iff in Hok.
  destruct Hok as [Hc H1 H2 H3 H4]. cbn in Hc, H1, H2, H3, H4.
  unfold request. cbn [tables sequences].
  specialize (Hm (mkSession db db sq k)).
  destruct (m (mkSession db db sq k)) as [s r]. cbn [fst] in *.
  destruct Hm as [Hc' [] _].
  - constructor; cbn; auto; constructor; assumption.
  - apply store_ok_iff. constructor; assumption.
Qed.

Lemma safe_ret {A} (a : A) : safe (ret a).
Proof. intros s Hs. exact Hs. Qed.

Lemma safe_raise {A} (e : Exn) : safe (@raise A e).
Proof. intros s Hs. exact Hs. Qed.

Lemma safe_bind {A B} (m : M A) (f : A -> M B) :
  safe m -> (forall a, safe (f a)) -> safe (bind m f).
Proof.
  intros Hm Hf s Hs. unfold bind. specialize (Hm s Hs).
  destruct (m s) as [s' [e|a]]; [exact Hm|]. now apply Hf.
Qed.

Lemma SessionOk_rollback (s : Session) : SessionOk s -> SessionOk (rollback s).
Proof. intros [Hc Hd Hp]. constructor; assumption. Qed.

Lemma safe_roundtrip : safe roundtrip.
Proof.
  intros s Hs. unfold roundtrip. destruct (fault s) as [[|k]|]; cbn [fst].
  - now apply SessionOk_rollback.
  - destruct Hs. constructor; assumption.
  - exact Hs.
Qed.

Lemma safe_query {A} (q : DB -> A) : safe (query q).
Proof.
  unfold query. apply safe_bind; [apply safe_roundtrip|].
  intros _ s Hs. exact Hs.
Qed.

Lemma safe_refresh {A} (obj : A) : safe (refresh obj).
Proof.
  unfold refresh. apply safe_bind; [apply safe_roundtrip|].
  intros _. apply safe_ret.
Qed.

Lemma safe_commit_refused {A} : safe (@commit_refused A).
Proof.
  unfold commit_refused. apply safe_bind; [apply safe_roundtrip|].
  intros _ s Hs. now apply SessionOk_rollback.
Qed.

Lemma safe_flush : safe flush.
Proof.
  unfold flush. apply safe_bind; [apply safe_roundtrip|].
  intros _ s Hs. destruct (constraints_ok (pending s)); cbn [fst];
    [exact Hs | now apply SessionOk_rollback].
Qed.

Lemma safe_commit : safe commit.
Proof.
  intros s Hs. unfold commit, flush, bind.
  pose proof (safe_roundtrip s Hs) as Hr.
  destruct (roundtrip s) as [s1 [e|[]]]; [exact Hr|]. cbn [fst] in Hr.
  destruct (constraints_ok (pending s1)) eqn:Hc; cbn [fst].
  - apply constraints_ok_iff in Hc. destruct Hr as [_ _ Hp].
    constructor; assumption.
  - now apply SessionOk_rollback.
Qed.

Lemma safe_stage (f : DB -> DB) :
  (forall sq db, Bounded sq db -> Bounded sq (f db)) -> safe (stage f).
Proof.
  intros Hf s [Hc Hd Hp]. unfold stage, with_pending. cbn [fst].
  constructor; cbn; auto.
Qed.

Lemma safe_except_not_found (m : M unit) : safe m -> safe (except_not_found m).
Proof.
  intros Hm s Hs. unfold except_not_found. specialize (Hm s Hs).
  destruct (m s) as [s' [[]|[]]]; exact Hm.
Qed.

(** *** Staged changes *)

Lemma Forall_lt_succ (n : Z) (l : list Z) :
  Forall (fun i => i < n) l -> Forall (fun i => i < n + 1) l.
Proof. apply Forall_impl. intros. lia. Qed.

Lemma Forall_lt_snoc (n : Z) (l : list Z) :
  Forall (fun i => i < n) l -> Forall (fun i => i < n + 1) (l ++ [n]).
Proof.
  intros H. apply Forall_app. split; [now apply Forall_lt_succ|].
  repeat constructor. lia.
Qed.

Lemma safe_add_intent (mk : Z -> Intent) :
  (forall id, intent_id (mk id) = id) -> safe (add_intent mk).
Proof.
  intros Hmk s [Hc [] []]. unfold add_intent. cbn [fst].
  constructor; cbn; auto; constructor; cbn; auto using Forall_lt_succ.
  rewrite map_app. cbn. rewrite Hmk. now apply Forall_lt_snoc.
Qed.

Lemma safe_add_datasource (mk : Z -> Datasource) :
  (forall id, datasource_id (mk id) = id) -> safe (add_datasource mk).
Proof.
  intros Hmk s [Hc [] []]. unfold add_datasource. cbn [fst].
  constructor; cbn; auto; constructor; cbn; auto using Forall_lt_succ.
  rewrite map_app. cbn. rewrite Hmk. now apply Forall_lt_snoc.
Qed.

Lemma safe_add_datasource_config (mk : Z -> DatasourceConfig) :
  (forall id, config_id (mk id) = id) -> safe (add_datasource_config mk).
Proof.
  intros Hmk s [Hc [] []]. unfold add_datasource_config. cbn [fst].
  constructor; cbn; auto; constructor; cbn; auto using Forall_lt_succ.
  rewrite map_app. cbn. rewrite Hmk. now apply Forall_lt_snoc.
Qed.

Lemma safe_add_validation_rule (mk : Z -> ValidationRule) :
  (forall id, rule_id (mk id) = id) -> safe (add_validation_rule mk).
Proof.
  intros Hmk s [Hc [] []]. unfold add_validation_rule. cbn [fst].
  constructor; cbn; auto; constructor; cbn; auto using Forall_lt_succ.
  rewrite map_app. cbn. rewrite Hmk. now apply Forall_lt_snoc.
Qed.

Lemma safe_add_intent_policy (obj : IntentPolicy) : safe (add_intent_policy obj).
Proof. apply safe_stage. intros sq db []. constructor; assumption. Qed.

Lemma map_written {A} (pk : A -> Z) (o o' : A) (l : list A) :
  pk o' = pk o ->
  map pk (map (fun r => if pk r =? pk o then o' else r) l) = map pk l.
Proof.
  intros E. rewrite map_map. apply map_ext_in. intros r _.
  destruct (pk r =? pk o) eqn:Hr; [|reflexivity].
  apply Z.eqb_eq in Hr. congruence.
Qed.

Lemma Forall_map_filter {A} (pk : A -> Z) (P : Z -> Prop) (f : A -> bool) l :
  Forall P (map pk l) -> Forall P (map pk (filter f l)).
Proof.
  rewrite !Forall_forall. intros H x Hx. apply H.
  eapply incl_map_filter; eauto.
Qed.

Lemma safe_write_intent (o o' : Intent) :
  intent_id o' = intent_id o -> safe (write_intent o o').
Proof.
  intros E. apply safe_stage. intros sq db []. constructor; cbn; auto.
  now rewrite (map_written intent_id).
Qed.

Lemma safe_write_intent_policy (o o' : IntentPolicy) :
  safe (write_intent_policy o o').
Proof. apply safe_stage. intros sq db []. constructor; assumption. Qed.

Lemma safe_write_datasource (o o' : Datasource) :
  datasource_id o' = datasource_id o -> safe (write_datasource o o').
Proof.
  intros E. apply safe_stage. intros sq db []. constructor; cbn; auto.
  now rewrite (map_written datasource_id).
Qed.

Lemma safe_write_datasource_config (o o' : DatasourceConfig) :
  config_id o' = config_id o -> safe (write_datasource_config o o').
Proof.
  intros E. apply safe_stage. intros sq db []. constructor; cbn; auto.
  now rewrite (map_written config_id).
Qed.

Lemma safe_write_validation_rule (o o' : ValidationRule) :
  rule_id o' = rule_id o -> safe (write_validation_rule o o').
Proof.
  intros E. apply safe_stage. intros sq db []. constructor; cbn; auto.
  now rewrite (map_written rule_id).
Qed.

Lemma safe_set_connection_keys (objs : list Datasource) (v : string) :
  safe (set_connection_keys objs v).
Proof.
  apply safe_stage. intros sq db []. constructor; cbn; auto.
  rewrite map_map.
  erewrite map_ext; [eassumption|].
  intros r. now destruct (existsb _ objs).
Qed.

Lemma safe_delete_datasource_config (o : DatasourceConfig) :
  safe (delete_datasource_config o).
Proof.
  apply safe_stage. intros sq db []. constructor; cbn; auto.
  now apply Forall_map_filter.
Qed.

Lemma safe_delete_datasource (o : Datasource) : safe (delete_datasource o).
Proof.
  apply safe_stage. intros sq db [].
  constructor; cbn; auto; now apply Forall_map_filter.
Qed.

Lemma safe_delete_intent (o : Intent) : safe (delete_intent o).
Proof.
  apply safe_stage. intros sq db [].
  constructor; cbn; auto; now apply Forall_map_filter.
Qed.

Lemma safe_delete_intent_policy (o : IntentPolicy) : safe (delete_intent_policy o).
Proof. apply safe_stage. intros sq db []. constructor; assumption. Qed.

Lemma safe_delete_validation_rule (o : ValidationRule) :
  safe (delete_validation_rule o).
Proof.
  apply safe_stage. intros sq db [].
  constructor; cbn; auto; now apply Forall_map_filter.
Qed.

(** *** [setattr] never reaches the generated key *)

Ltac setattrs_inv H :=
  unfold Datasource_setattrs, DatasourceConfig_setattrs, Intent_setattrs,
    ValidationRule_setattrs, obind in H;
  repeat match type of H with
         | match ?x with Some _ => _ | None => _ end = _ =>
             destruct x; [|discriminate H]
         end;
  injection H as <-; reflexivity.

Lemma datasource_setattrs_id p o o' :
  Datasource_setattrs p o = Some o' -> datasource_id o' = datasource_id o.
Proof. intros H. setattrs_inv H. Qed.

Lemma config_setattrs_id p o o' :
  DatasourceConfig_setattrs p o = Some o' -> config_id o' = config_id o.
Proof. intros H. setattrs_inv H. Qed.

Lemma intent_setattrs_id p o o' :
  Intent_setattrs p o = Some o' -> intent_id o' = intent_id o.
Proof. intros H. setattrs_inv H. Qed.

Lemma rule_setattrs_id p o o' :
  ValidationRule_setattrs p o = Some o' -> rule_id o' = rule_id o.
Proof. intros H. setattrs_inv H. Qed.

Lemma safe_add_policies (t : string) (id : Z) (pcs : list IntentPolicyCreate) :
  safe (IntentRepository.add_policies t id pcs).
Proof.
  induction pcs as [|pc rest IH]; simpl; [apply safe_ret|].
  apply safe_bind; [apply safe_add_intent_policy|]. intros _. exact IH.
Qed.

Create HintDb safe discriminated.
#[local] Hint Resolve safe_ret safe_raise safe_roundtrip safe_query safe_refresh
  safe_commit_refused safe_flush safe_commit safe_add_intent_policy
  safe_write_intent_policy safe_set_connection_keys safe_delete_datasource_config
  safe_delete_datasource safe_delete_intent safe_delete_intent_policy
  safe_delete_validation_rule safe_add_policies : safe.

Ltac safe_step :=
  match goal with
  | |- safe (bind _ _) => apply safe_bind; [|intros ?]
  | |- safe (except_not_found _) => apply safe_except_not_found
  | |- safe (add_intent _) => apply safe_add_intent; reflexivity
  | |- safe (add_datasource _) => apply safe_add_datasource; reflexivity
  | |- safe (add_datasource_config _) => apply safe_add_datasource_config; reflexivity
  | |- safe (add_validation_rule _) => apply safe_add_validation_rule; reflexivity
  | H : Datasource_setattrs _ ?o = Some ?o' |- safe (write_datasource ?o ?o') =>
      apply safe_write_datasource, (datasource_setattrs_id _ _ _ H)
  | H : DatasourceConfig_setattrs _ ?o = Some ?o'
    |- safe (write_datasource_config ?o ?o') =>
      apply safe_write_datasource_config, (config_setattrs_id _ _ _ H)
  | H : Intent_setattrs _ ?o = Some ?o' |- safe (write_intent ?o ?o') =>
      apply safe_write_intent, (intent_setattrs_id _ _ _ H)
  | H : ValidationRule_setattrs _ ?o = Some ?o'
    |- safe (write_validation_rule ?o ?o') =>
      apply safe_write_validation_rule, (rule_setattrs_id _ _ _ H)
  | |- safe (match ?x with _ => _ end) => destruct x eqn:?
  | |- safe (if ?b then _ else _) => destruct b
  | |- safe _ => solve [auto with safe]
  end.

Ltac safety := repeat safe_step.

Ltac conjuncts := repeat match goal with |- _ /\ _ => split end.

Ltac kept := intros; apply safe_request; [|assumption].







(** ** Checks come before writes *)

Ltac rules_step :=
  match goal with
  | |- context [match rules_of_datasource ?d ?db with _ => _ end] =>
      destruct (rules_of_datasource d db) eqn:?
  end.

Ltac walk :=
  repeat first [ progress exec' | rewrite add_policies_run
               | inv_step | case_step | rules_step ].

Ltac refused :=
  let H := fresh in
  intros H; try discriminate H; injection H; intros; subst;
  first [reflexivity | exfalso; congruence].

Ltac checks_first :=
  conjuncts; intros;
  match goal with
  | H : snd ?x = inl _ |- _ =>
      let Hx := fresh in
      destruct x eqn:Hx; cbn [fst snd] in *; subst; revert Hx
  end;
  unfold DatasourceService.create, DatasourceService.update,
    DatasourceService.delete,
    DatasourceConfigService.create, DatasourceConfigService.update,
    DatasourceConfigService.delete,
    IntentService.create, IntentService.update, IntentService.delete,
    IntentPolicyService.create, IntentPolicyService.update,
    IntentPolicyService.delete,
    ValidationRuleService.create, ValidationRuleService.update,
    ValidationRuleService.delete,
    DatasourceRepository.get_by_name, DatasourceRepository.create,
    DatasourceRepository.update, DatasourceRepository.delete,
    DatasourceRepository.get_by_id,
    DatasourceConfigRepository.get_by_name, DatasourceConfigRepository.create,
    DatasourceConfigRepository.update, DatasourceConfigRepository.delete,
    DatasourceConfigRepository.get_by_id,
    IntentRepository.get_by_code, IntentRepository.create,
    IntentRepository.update, IntentRepository.delete, IntentRepository.get_by_id,
    IntentPolicyRepository.create, IntentPolicyRepository.update,
    IntentPolicyRepository.delete,
    IntentPolicyRepository.get_by_intent_and_language,
    ValidationRuleRepository.create, ValidationRuleRepository.update,
    ValidationRuleRepository.delete, ValidationRuleRepository.get_by_id;
  walk; refused.

(** X15.  The checks of [DatasourceService] and [DatasourceConfigService]
    come before their writes: a create, update or delete that ends in an
    error other than the storage's [IntegrityError] and [OperationalError]
    has left the store, tables and sequences, exactly as it was.  For the
    update of a datasource this is said of payloads whose [connection_key],
    if any, has at most 255 characters. *)
Theorem datasource_refusals_write_nothing :
  forall (k : option nat) (st : Store) (e : Exn),
    e <> IntegrityError -> e <> OperationalError ->
    (forall t p, snd (request k (DatasourceService.create t p) st) = inl e ->
                 fst (request k (DatasourceService.create t p) st) = st) /\
    (forall t id p,
        DatasourceUpdate_key_fits p = true ->
        snd (request k (DatasourceService.update t id p) st) = inl e ->
        fst (request k (DatasourceService.update t id p) st) = st) /\
    (forall t id, snd (request k (DatasourceService.delete t id) st) = inl e ->
                  fst (request k (DatasourceService.delete t id) st) = st) /\
    (forall t p, snd (request k (DatasourceConfigService.create t p) st) = inl e ->
                 fst (request k (DatasourceConfigService.create t p) st) = st) /\
    (forall t id p,
        snd (request k (DatasourceConfigService.update t id p) st) = inl e ->
        fst (request k (DatasourceConfigService.update t id p) st) = st) /\
    (forall t id, snd (request k (DatasourceConfigService.delete t id) st) = inl e ->
                  fst (request k (DatasourceConfigService.delete t id) st) = st).
Proof.
  intros k [[its pols dss cfgs rules] sq] e He1 He2. checks_first.
Qed.

Lemma datasource_refusals_write_nothing_witness :
  fst (run (DatasourceService.delete "t1" 1) ExampleTenants.store1)
  = ExampleTenants.store1 /\
  fst (run (DatasourceConfigService.update "t1" 2 (DatasourceConfigUpdate_name "K0"))
           ExampleKeys.store1)
  = ExampleKeys.store1.
Proof.
  split.
  - apply (datasource_refusals_write_nothing None ExampleTenants.store1
             (ValidationException
                "Cannot delete datasource 'crm'. It is associated with 1 validation rule(s). Please remove the associations first."));
      [discriminate | discriminate | reflexivity].
  - apply (datasource_refusals_write_nothing None ExampleKeys.store1
             (ResourceAlreadyExistsError
                "Datasource config with name 'K0' already exists"));
      [discriminate | discriminate | reflexivity].
Defined.

(** X16.  The checks of the update and the delete of an intent and of the
    create, the update and the delete of a policy come before their writes:
    one that ends in an error other than the storage's [IntegrityError] and
    [OperationalError] has left the store exactly as it was. *)
Theorem intent_refusals_write_nothing :
  forall (k : option nat) (st : Store) (e : Exn),
    e <> IntegrityError -> e <> OperationalError ->
    (forall t id p, snd (request k (IntentService.update t id p) st) = inl e ->
                    fst (request k (IntentService.update t id p) st) = st) /\
    (forall t id, snd (request k (IntentService.delete t id) st) = inl e ->
                  fst (request k (IntentService.delete t id) st) = st) /\
    (forall t id p, snd (request k (IntentPolicyService.create t id p) st) = inl e ->
                    fst (request k (IntentPolicyService.create t id p) st) = st) /\
    (forall t id lang p,
        snd (request k (IntentPolicyService.update t id lang p) st) = inl e ->
        fst (request k (IntentPolicyService.update t id lang p) st) = st) /\
    (forall t id lang,
        snd (request k (IntentPolicyService.delete t id lang) st) = inl e ->
        fst (request k (IntentPolicyService.delete t id lang) st) = st).
Proof.
  intros k [[its pols dss cfgs rules] sq] e He1 He2. checks_first.
Qed.

Lemma intent_refusals_write_nothing_witness :
  fst (run (IntentPolicyService.create "t1" 1 ExamplePolicies.english)
           ExampleTenants.store1)
  = ExampleTenants.store1.
Proof.
  apply (intent_refusals_write_nothing None ExampleTenants.store1
           (ResourceAlreadyExistsError
              "Policy for language 'en' already exists for this intent"));
    [discriminate | discriminate | reflexivity].
Defined.

(** X17.  The checks of [ValidationRuleService] come before its writes: a
    create, update or delete that ends in an error other than the storage's
    [IntegrityError] and [OperationalError] has left the store exactly as it
    was. *)
Theorem rule_refusals_write_nothing :
  forall (k : option nat) (st : Store) (e : Exn),
    e <> IntegrityError -> e <> OperationalError ->
    (forall t p, snd (request k (ValidationRuleService.create t p) st) = inl e ->
                 fst (request k (ValidationRuleService.create t p) st) = st) /\
    (forall t id p, snd (request k (ValidationRuleService.update t id p) st) = inl e ->
                    fst (request k (ValidationRuleService.update t id p) st) = st) /\
    (forall t id, snd (request k (ValidationRuleService.delete t id) st) = inl e ->
                  fst (request k (ValidationRuleService.delete t id) st) = st).
Proof.
  intros k [[its pols dss cfgs rules] sq] e He1 He2. checks_first.
Qed.

Lemma rule_refusals_write_nothing_witness :
  fst (run (ValidationRuleService.create "t1" ExampleRules.sender_again)
           ExampleRules.store1)
  = ExampleRules.store1.
Proof.
  apply (rule_refusals_write_nothing None ExampleRules.store1
           (ValueError
              "Datasource 'crm' is not active. Cannot create validation rule with inactive datasource."));
    [discriminate | discriminate | reflexivity].
Defined.

(** ** Reads *)

(** X18.  These nine reads leave the store exactly as it was, for every
    outcome and wherever the storage fails: [get_all] and [get] of
    [DatasourceService], [get] and [get_by_name] of [DatasourceConfigService],
    [get] of [IntentService] and of [IntentPolicyService], and [get],
    [get_by_intent_and_language] and [get_next_execution_order] of
    [ValidationRuleService]. *)
Theorem reads_leave_store_unchanged :
  forall (k : option nat) (st : Store),
    (forall t a, fst (request k (DatasourceService.get_all t a) st) = st) /\
    (forall t id, fst (request k (DatasourceService.get t id) st) = st) /\
    (forall t id, fst (request k (DatasourceConfigService.get t id) st) = st) /\
    (forall t n, fst (request k (DatasourceConfigService.get_by_name t n) st) = st) /\
    (forall t id, fst (request k (IntentService.get t id) st) = st) /\
    (forall t id lang,
        fst (request k (IntentPolicyService.get t id lang) st) = st) /\
    (forall t id, fst (request k (ValidationRuleService.get t id) st) = st) /\
    (forall t i lang,
        fst (request k (ValidationRuleService.get_by_intent_and_language t i lang) st)
        = st) /\
    (forall t i lang,
        fst (request k (ValidationRuleService.get_next_execution_order t i lang) st)
        = st).
Proof.
  intros k [[its pols dss cfgs rules] sq]. conjuncts; intros;
    unfold DatasourceService.get_all, DatasourceService.get,
      DatasourceConfigService.get, DatasourceConfigService.get_by_name,
      IntentService.get, IntentPolicyService.get, ValidationRuleService.get,
      ValidationRuleService.get_by_intent_and_language,
      ValidationRuleService.get_next_execution_order,
      DatasourceRepository.get_all, DatasourceRepository.get_by_id,
      DatasourceConfigRepository.get_by_id, DatasourceConfigRepository.get_by_name,
      IntentRepository.get_by_id,
      IntentPolicyRepository.get_by_intent_and_language,
      ValidationRuleRepository.get_by_id,
      ValidationRuleRepository.get_by_intent_and_language,
      ValidationRuleRepository.get_max_execution_order;
    walk; reflexivity.
Qed.
